(** * Task-mapping decorator layer and XCom client of the Airflow task SDK

    A shallow embedding of
    - [airflow/sdk/bases/decorator.py]: [get_unique_task_id],
      [ExpandableFactory._validate_arg_names] and the [_TaskDecorator]
      operations [__call__], [expand], [expand_kwargs], [_expand],
      [partial], [override];
    - [airflow/sdk/bases/xcom.py]: [BaseXCom.get_one], [BaseXCom.get_all].

    Python strings are sequences of code points; the embedding uses
    [string], whose characters are the code points below 256 (Latin-1).
    Python dictionaries keep insertion order and are association lists
    with one entry per key; Python sets are [gset]s, iterated through
    [elements].  Exceptions are values of [exn] carried by [result]. *)

From stdpp Require Import base strings gmap list.
From Stdlib Require Import Ascii NArith ZArith Lia DecimalString DecimalPos.

Open Scope string_scope.

Set Warnings "-register-all".

(** ** Exceptions and the error monad *)

Inductive exn : Type :=
| TypeError (msg : string)
| ValueError (msg : string)
| AttributeError (msg : string)
| KeyError (key : string)
| OtherError (cls msg : string)
    (* an exception of another class, raised by a collaborator *)
| Unmodelled (what : string).
    (* the source leaves the fragment of Python this embedding covers *)

Inductive result (A : Type) : Type :=
| Ok (a : A)
| Raise (e : exn).
Arguments Ok {A} a.
Arguments Raise {A} e.

#[global] Instance result_ret : MRet result := fun A a => Ok a.
#[global] Instance result_bind : MBind result :=
  fun A B f m => match m with Ok a => f a | Raise e => Raise e end.

(** The exceptions the specification calls construction and binding
    errors are Python's [ValueError] and [TypeError]. *)
Definition is_construction_error (e : exn) : bool :=
  match e with
  | TypeError _ | ValueError _ => true
  | _ => false
  end.

(** [x or y] on optional objects: an object is truthy, [None] is not. *)
Definition py_or {A} (x y : option A) : option A :=
  match x with Some a => Some a | None => y end.

(** ** Python strings *)

Module PyStr.

Definition LF : ascii := ascii_of_nat 10.
Definition dquote : ascii := ascii_of_nat 34.
Definition squote : ascii := ascii_of_nat 39.
Definition backslash : ascii := ascii_of_nat 92.

Definition code (c : ascii) : N := N_of_ascii c.

(** [\d]: among the code points below 256 the decimal digits are 0-9. *)
Definition is_digit (c : ascii) : bool :=
  (48 <=? code c)%N && (code c <=? 57)%N.

Definition digit_value (c : ascii) : N := (code c - 48)%N.

(** [str(n)] for a non-negative integer. *)
Definition str_of_N (n : N) : string :=
  match n with
  | N0 => "0"
  | _ => NilEmpty.string_of_uint (N.to_uint n)
  end.

(** [int(s)] on a run of decimal digits, most significant first. *)
Fixpoint int_of_digits (acc : N) (s : string) : N :=
  match s with
  | EmptyString => acc
  | String c r => int_of_digits (10 * acc + digit_value c)%N r
  end.

Fixpoint all_digits (s : string) : bool :=
  match s with
  | EmptyString => true
  | String c r => is_digit c && all_digits r
  end.

Fixpoint has_char (c : ascii) (s : string) : bool :=
  match s with
  | EmptyString => false
  | String x r => Ascii.eqb c x || has_char c r
  end.

Definition hex_char (d : N) : ascii :=
  if (d <? 10)%N then ascii_of_N (48 + d) else ascii_of_N (87 + d).

Definition hex_escape (c : ascii) : string :=
  String backslash
    (String "x" (String (hex_char (code c / 16)) (String (hex_char (code c mod 16)) EmptyString))).

(** One character of [repr(s)], for the quote character chosen. *)
Definition repr_char (quote c : ascii) : string :=
  if Ascii.eqb c quote || Ascii.eqb c backslash then String backslash (String c EmptyString)
  else if (code c =? 9)%N then String backslash "t"
  else if (code c =? 10)%N then String backslash "n"
  else if (code c =? 13)%N then String backslash "r"
  else if (code c <? 32)%N || (code c =? 127)%N then hex_escape c
  else if (code c <? 127)%N then String c EmptyString
  else if (code c <=? 160)%N || (code c =? 173)%N then hex_escape c
  else String c EmptyString.

Fixpoint repr_body (quote : ascii) (s : string) : string :=
  match s with
  | EmptyString => EmptyString
  | String c r => repr_char quote c +:+ repr_body quote r
  end.

(** [repr(s)] of a string: single quotes unless the string has a single
    quote and no double quote. *)
Definition repr (s : string) : string :=
  let quote := if has_char squote s && negb (has_char dquote s) then dquote else squote in
  String quote (repr_body quote s +:+ String quote EmptyString).

(** [sep.join(parts)]. *)
Fixpoint join (sep : string) (parts : list string) : string :=
  match parts with
  | [] => EmptyString
  | [p] => p
  | p :: rest => p +:+ sep +:+ join sep rest
  end.

End PyStr.

(** ** Unique task identifiers: [get_unique_task_id] *)

Module TaskId.
Import PyStr.

Record DAG : Type := { dag_id : string; task_ids : list string }.

(** [TaskGroup.child_id] is defined outside these sources; a task group is
    represented by that method. *)
Record TaskGroup : Type := { child_id : string -> string }.

(** The ambient definition context: [DagContext.get_current()] and
    [TaskGroupContext.get_current(dag)]. *)
Record Contexts : Type := {
  DagContext_get_current : option DAG;
  TaskGroupContext_get_current : option DAG -> option TaskGroup
}.

(** The value of group 1 once the first digit of [(\d+)$] has been read:
    more digits, then the end of the string or a final line feed, which
    [$] also accepts. *)
Fixpoint scan_digits (acc : N) (s : string) : option N :=
  match s with
  | EmptyString => Some acc
  | String c r =>
      if is_digit c then scan_digits (10 * acc + digit_value c)%N r
      else if Ascii.eqb c LF then
        match r with EmptyString => Some acc | _ => None end
      else None
  end.

(** [__(\d+)$] matched at the start of [s]: [int(group(1))]. *)
Definition match_suffix (s : string) : option N :=
  match s with
  | String a (String b (String c r)) =>
      if Ascii.eqb a "_" && Ascii.eqb b "_" && is_digit c
      then scan_digits (digit_value c) r
      else None
  | _ => None
  end.

(** [re.split(r"__\d+$", s)[0]]: the text before the leftmost match, the
    whole string when there is none. *)
Fixpoint re_split_head (s : string) : string :=
  match match_suffix s with
  | Some _ => EmptyString
  | None =>
      match s with
      | EmptyString => EmptyString
      | String c r => String c (re_split_head r)
      end
  end.

(** The stem is interpolated into a regular expression as it is.  A
    character without a meaning in the [re] syntax matches itself, a dot
    matches any character but a line feed; the other special characters
    are outside the embedding. *)
Inductive atom : Type := Lit (c : ascii) | AnyChar.

Definition re_special : string := "^$*+?{}[]\|()".

Fixpoint re_compile (prefix : string) : result (list atom) :=
  match prefix with
  | EmptyString => Ok []
  | String c r =>
      if Ascii.eqb c "." then rest ← re_compile r; Ok (AnyChar :: rest)
      else if has_char c re_special
      then Raise (Unmodelled "regular expression syntax in a task id")
      else rest ← re_compile r; Ok (Lit c :: rest)
  end.

Definition atom_matches (a : atom) (c : ascii) : bool :=
  match a with
  | Lit x => Ascii.eqb x c
  | AnyChar => negb (Ascii.eqb c LF)
  end.

(** [re.match(rf"^{prefix}__(\d+)$", task_id)], as [int(match.group(1))]. *)
Fixpoint re_match (pat : list atom) (task_id : string) : option N :=
  match pat with
  | [] => match_suffix task_id
  | a :: pat' =>
      match task_id with
      | EmptyString => None
      | String c r => if atom_matches a c then re_match pat' r else None
      end
  end.

(** The values the generator [_find_id_suffixes] yields. *)
Definition _find_id_suffixes (pat : list atom) (dag : DAG) : list N :=
  (omap (re_match pat) (task_ids dag) ++ [0%N])%list.

Definition py_max (l : list N) : N := foldr N.max 0%N l.

Section GetUniqueTaskId.
Variable ctx : Contexts.

Definition tg_task_id_of (task_group : option TaskGroup) (task_id : string) : string :=
  match task_group with
  | Some tg => child_id tg task_id
  | None => task_id
  end.

Definition get_unique_task_id
    (task_id : string) (dag : option DAG) (task_group : option TaskGroup)
    : result string :=
  match py_or dag (DagContext_get_current ctx) with
  | None => Ok task_id
  | Some dag =>
      let task_group := py_or task_group (TaskGroupContext_get_current ctx (Some dag)) in
      let tg_task_id := tg_task_id_of task_group task_id in
      if negb (bool_decide (tg_task_id ∈ task_ids dag)) then Ok task_id
      else
        let core := re_split_head task_id in
        pat ← re_compile (re_split_head tg_task_id);
        Ok (core +:+ "__" +:+ str_of_N (py_max (_find_id_suffixes pat dag) + 1))
  end.

End GetUniqueTaskId.

(** No ambient DAG, no ambient task group. *)
Definition no_context : Contexts :=
  {| DagContext_get_current := None;
     TaskGroupContext_get_current := fun _ => None |}.

(** The allocator of the specification, [allocate(desired_id, used_ids)]:
    [get_unique_task_id] against a DAG whose task ids are [used_ids], with
    no task group in effect. *)
Definition allocate (desired_id : string) (used_ids : list string) : result string :=
  get_unique_task_id no_context desired_id
    (Some {| dag_id := "dag"; task_ids := used_ids |}) None.

End TaskId.

(** ** The allocator in the words of the specification

    [allocate(desired_id, used_ids)]: an identifier that is not used comes
    back unchanged; otherwise any [__<digits>] suffix is stripped to obtain
    a stem, the entries of the form [stem__<digits>] are collected, and the
    result is [stem__<max+1>], the maximum being 0 when there is none. *)

Module AllocateSpec.
Import PyStr TaskId.

(** [s] is [__] followed by one digit or more, and nothing else. *)
Definition is_numbered_suffix (s : string) : bool :=
  match s with
  | String a (String b (String c r)) =>
      Ascii.eqb a "_" && Ascii.eqb b "_" && all_digits (String c r)
  | _ => false
  end.

(** The identifier without its [__<digits>] suffix, if it has one. *)
Fixpoint strip_suffix (s : string) : string :=
  if is_numbered_suffix s then EmptyString
  else match s with
       | EmptyString => EmptyString
       | String c r => String c (strip_suffix r)
       end.

(** What follows [p] in [s], when [s] starts with [p]. *)
Fixpoint strip_prefix (p s : string) : option string :=
  match p with
  | EmptyString => Some s
  | String a p' =>
      match s with
      | EmptyString => None
      | String c s' => if Ascii.eqb a c then strip_prefix p' s' else None
      end
  end.

(** The number [N] when [r] is [__<N>]. *)
Definition numbered_suffix_value (r : string) : option N :=
  match r with
  | String _ (String _ ds) =>
      if is_numbered_suffix r then Some (int_of_digits 0 ds) else None
  | _ => None
  end.

(** The number [N] when [u] is [stem__<N>]. *)
Definition suffix_value (stem u : string) : option N :=
  strip_prefix stem u ≫= numbered_suffix_value.

Definition max_or_zero (l : list N) : N := foldr N.max 0%N l.

Definition allocate_spec (desired_id : string) (used_ids : list string) : string :=
  if bool_decide (desired_id ∈ used_ids) then
    let stem := strip_suffix desired_id in
    stem +:+ "__" +:+ str_of_N (max_or_zero (omap (suffix_value stem) used_ids) + 1)
  else desired_id.


Definition plain_char (c : ascii) : bool :=
  negb (Ascii.eqb c ".") && negb (has_char c re_special).

Fixpoint plain (s : string) : bool :=
  match s with
  | EmptyString => true
  | String c r => plain_char c && plain r
  end.


End AllocateSpec.

(** ** Python values and dictionaries *)

Module Py.
Import PyStr TaskId.

(** Modelled from the spec: the [TriggerRule] enumeration
    ([airflow.utils.trigger_rule]) is not among the sources.  The two
    members the decorator names are the "always"-run rule and the rule
    forced on teardown tasks ("run regardless of upstream outcome, but only
    if setup succeeded"); every other member is an [OTHER_RULE].  A rule
    given by its string value is represented by the member it equals. *)
Inductive TriggerRule : Type :=
| ALWAYS
| ALL_DONE_SETUP_SUCCESS
| OTHER_RULE (name : string).

Inductive value : Type :=
| VNone
| VBool (b : bool)
| VInt (n : Z)
| VStr (s : string)
| VList (items : list value)
| VTuple (items : list value)
| VDict (entries : list (string * value))
| VTriggerRule (r : TriggerRule)
| VXComArg (task_id key : string)      (* a deferred reference to a task's output *)
| VDag (dag : DAG)
| VTaskGroup (tg : TaskGroup)
| VObject (cls : string).
    (* an object of another class, with none of the protocols used here:
       no sequence, mapping or XComArg, not iterable, always true *)

(** A [dict] with string keys, in insertion order. *)
Definition dict : Type := list (string * value).

Definition dict_keys (d : dict) : list string := map fst d.
Definition dict_values (d : dict) : list value := map snd d.

(** [d.get(k)] *)
Fixpoint dict_get (k : string) (d : dict) : option value :=
  match d with
  | [] => None
  | (k', v) :: rest => if String.eqb k k' then Some v else dict_get k rest
  end.

(** [k in d] *)
Definition dict_mem (k : string) (d : dict) : bool :=
  match dict_get k d with Some _ => true | None => false end.

(** [d[k] = v]: an existing key keeps its place, a new one goes last. *)
Fixpoint dict_set (k : string) (v : value) (d : dict) : dict :=
  match d with
  | [] => [(k, v)]
  | (k', v') :: rest =>
      if String.eqb k k' then (k', v) :: rest else (k', v') :: dict_set k v rest
  end.

(** [del d[k]], when the key is present. *)
Fixpoint dict_remove (k : string) (d : dict) : dict :=
  match d with
  | [] => []
  | (k', v') :: rest =>
      if String.eqb k k' then rest else (k', v') :: dict_remove k rest
  end.

(** [d.pop(k, NOTSET)]: the value, if any, and the dictionary left. *)
Definition dict_pop (k : string) (d : dict) : option value * dict :=
  (dict_get k d, dict_remove k d).

(** [d.update(other)] *)
Definition dict_update (d other : dict) : dict :=
  foldl (fun acc kv => dict_set (fst kv) (snd kv) acc) d other.

(** [d.setdefault(k, v)] *)
Definition dict_setdefault (k : string) (v : value) (d : dict) : dict :=
  if dict_mem k d then d else dict_set k v d.

(** [type(v).__name__] *)
Definition type_name (v : value) : string :=
  match v with
  | VNone => "NoneType"
  | VBool _ => "bool"
  | VInt _ => "int"
  | VStr _ => "str"
  | VList _ => "list"
  | VTuple _ => "tuple"
  | VDict _ => "dict"
  | VTriggerRule _ => "TriggerRule"
  | VXComArg _ _ => "PlainXComArg"
  | VDag _ => "DAG"
  | VTaskGroup _ => "TaskGroup"
  | VObject cls => cls
  end.

(** [bool(v)] *)
Definition truthy (v : value) : bool :=
  match v with
  | VNone => false
  | VBool b => b
  | VInt n => negb (n =? 0)%Z
  | VStr s => negb (String.eqb s EmptyString)
  | VList l | VTuple l => match l with [] => false | _ => true end
  | VDict d => match d with [] => false | _ => true end
  | _ => true
  end.

(** [isinstance(v, XComArg)] *)
Definition is_XComArg (v : value) : bool :=
  match v with VXComArg _ _ => true | _ => false end.

(** [isinstance(v, Mapping)] *)
Definition is_Mapping (v : value) : bool :=
  match v with VDict _ => true | _ => false end.

(** [isinstance(v, Sequence)]: lists, tuples and strings. *)
Definition is_Sequence (v : value) : bool :=
  match v with VList _ | VTuple _ | VStr _ => true | _ => false end.

(** [v == TriggerRule.ALWAYS] *)
Definition eq_ALWAYS (v : option value) : bool :=
  match v with Some (VTriggerRule ALWAYS) => true | _ => false end.

Fixpoint chars_of (s : string) : list value :=
  match s with
  | EmptyString => []
  | String c r => VStr (String c EmptyString) :: chars_of r
  end.

(** The items [for item in v] visits. *)
Definition py_iter (v : value) : result (list value) :=
  match v with
  | VList l | VTuple l => Ok l
  | VStr s => Ok (chars_of s)
  | VDict d => Ok (map VStr (dict_keys d))
  | VNone | VBool _ | VInt _ | VObject _ =>
      Raise (TypeError (repr (type_name v) +:+ " object is not iterable"))
  | _ => Raise (Unmodelled "iteration over an object of a class outside the sources")
  end.

(** [v.values()] *)
Definition py_values (v : value) : result (list value) :=
  match v with
  | VDict d => Ok (dict_values d)
  | VXComArg _ _ | VDag _ | VTaskGroup _ =>
      Raise (Unmodelled "attribute of an object of a class outside the sources")
  | _ => Raise (AttributeError
                  (repr (type_name v) +:+ " object has no attribute 'values'"))
  end.

(** [v < n] for an integer [n]. *)
Definition py_lt_int (v : value) (n : Z) : result bool :=
  match v with
  | VInt m => Ok (m <? n)%Z
  | VBool b => Ok ((if b then 1 else 0) <? n)%Z
  | VNone | VStr _ | VList _ | VTuple _ | VDict _ | VTriggerRule _ =>
      Raise (TypeError ("'<' not supported between instances of "
                        +:+ repr (type_name v) +:+ " and 'int'"))
  | _ => Raise (Unmodelled "ordering of an object of a class outside the sources")
  end.

(** Modelled from the spec: [is_mappable] (the expand-input module) is not
    among the sources.  The sanctioned deferred and collection shapes are a
    deferred reference, a sequence and a mapping; a string is no
    collection of arguments. *)
Definition is_mappable (v : value) : bool :=
  match v with
  | VXComArg _ _ | VList _ | VTuple _ | VDict _ => true
  | _ => false
  end.

(** Insertion into a list of names sorted by code points. *)
Fixpoint insert_sorted (k : string) (l : list string) : list string :=
  match l with
  | [] => [k]
  | x :: rest =>
      match String.compare k x with
      | Gt => x :: insert_sorted k rest
      | _ => k :: l
      end
  end.

Definition sorted (l : list string) : list string := foldr insert_sorted [] l.

(** Modelled from the spec: [prevent_duplicates] ([airflow.utils.helpers])
    is not among the sources.  It rejects two keyword mappings that share a
    key; the error gives the reason and the shared names, one name or all
    of them comma-joined in sorted, hence deterministic, order. *)
Definition prevent_duplicates (kwargs1 kwargs2 : dict) (fail_reason : string)
    : result unit :=
  let duplicated_keys : gset string :=
    list_to_set (dict_keys kwargs1) ∩ list_to_set (dict_keys kwargs2) in
  match elements duplicated_keys with
  | [] => Ok tt
  | [k] => Raise (TypeError (fail_reason +:+ " argument: " +:+ k))
  | ks => Raise (TypeError (fail_reason +:+ " arguments: " +:+ join ", " (sorted ks)))
  end.

End Py.

(** ** The task decorator *)

Module Decorator.
Import PyStr TaskId Py.

Inductive ParameterKind : Type :=
| POSITIONAL_ONLY
| POSITIONAL_OR_KEYWORD
| VAR_POSITIONAL
| KEYWORD_ONLY
| VAR_KEYWORD.

Record SigParameter : Type := { name : string; kind : ParameterKind }.

(** The wrapped function: [__name__], [__doc__] and the parameters of
    [inspect.signature], in declaration order. *)
Record Callable : Type := {
  fn_name : string;
  fn_doc : option string;
  parameters : list SigParameter
}.

Definition is_VAR_KEYWORD (p : SigParameter) : bool :=
  match kind p with VAR_KEYWORD => true | _ => false end.

(** [set(self.function_signature.parameters)] *)
Definition _mappable_function_argument_names (function : Callable) : gset string :=
  list_to_set (map name (parameters function)).

(** The loop of [ExpandableFactory._validate_arg_names] over the mappable
    names: each is popped from [kwargs_left]. *)
Fixpoint pop_mappable (func : string) (names : list string) (kwargs_left : dict)
    : result dict :=
  match names with
  | [] => Ok kwargs_left
  | arg_name :: rest =>
      let (value, kwargs_left) := dict_pop arg_name kwargs_left in
      match value with
      | Some v =>
          if String.eqb func "expand" && negb (is_mappable v)
          then Raise (ValueError ("expand() got an unexpected type " +:+ repr (type_name v)
                                  +:+ " for keyword argument " +:+ repr arg_name))
          else pop_mappable func rest kwargs_left
      | None => pop_mappable func rest kwargs_left
      end
  end.

(** [ExpandableFactory._validate_arg_names(func, kwargs)] *)
Definition ExpandableFactory_validate_arg_names
    (function : Callable) (func : string) (kwargs : dict) : result unit :=
  if existsb is_VAR_KEYWORD (parameters function) then Ok tt
  else
    kwargs_left ← pop_mappable func (elements (_mappable_function_argument_names function)) kwargs;
    match dict_keys kwargs_left with
    | [n] => Raise (TypeError (func +:+ "() got an unexpected keyword argument " +:+ repr n))
    | [] => Ok tt
    | ns => Raise (TypeError (func +:+ "() got unexpected keyword arguments "
                              +:+ join ", " (map repr ns)))
    end.

(** The supplied keys that are no declared parameter name, in the order
    of [kwargs]. *)
Definition unexpected_keywords (function : Callable) (kwargs : dict) : list string :=
  List.filter (fun k => negb (bool_decide (k ∈ map name (parameters function))))
    (dict_keys kwargs).

(** The doc attributes an operator has once constructed. *)
Record OperatorDocs : Type := {
  doc : value; doc_json : value; doc_md : value; doc_rst : value; doc_yaml : value
}.

(** The keyword arguments of [self.operator_class(...)] in [__call__]. *)
Record OperatorCall : Type := {
  call_python_callable : Callable;
  call_op_args : list value;
  call_op_kwargs : dict;
  call_multiple_outputs : bool;
  call_kwargs : dict                    (* the unpacked [self.kwargs] *)
}.

(** The operator class is a parameter of the decorator: its names, its
    constructor, which raises or leaves an operator with its doc
    attributes, and what an assignment to an attribute of that operator
    does: the operator classes define their attributes outside these
    sources, as properties whose setters may raise.  The class attributes
    [_expand] only forwards ([template_fields], [ui_color], ...) stay with
    the class. *)
Record OperatorClass : Type := {
  cls_module : string;                   (* [__module__] *)
  cls_name : string;                     (* [__name__] *)
  custom_operator_name : option string;
  construct : OperatorCall -> result OperatorDocs;
  set_attribute : OperatorCall -> list (string * value) -> string -> value -> result unit
    (* [op.<name> = value] on the operator the call constructed, after
       the assignments listed, oldest first *)
}.

Record _TaskDecorator : Type := {
  function : Callable;
  operator_class : OperatorClass;
  multiple_outputs : bool;
  kwargs : dict;
  decorator_name : string;
  is_setup : bool;
  is_teardown : bool;
  on_failure_fail_dagrun : bool
}.

Definition with_kwargs (self : _TaskDecorator) (kw : dict) : _TaskDecorator :=
  {| function := function self; operator_class := operator_class self;
     multiple_outputs := multiple_outputs self; kwargs := kw;
     decorator_name := decorator_name self; is_setup := is_setup self;
     is_teardown := is_teardown self;
     on_failure_fail_dagrun := on_failure_fail_dagrun self |}.

(** [__attrs_post_init__], run by the constructor and by [attr.evolve]. *)
Definition __attrs_post_init__ (self : _TaskDecorator) : result _TaskDecorator :=
  if bool_decide ("self" ∈ map name (parameters (function self)))
  then Raise (TypeError ("@" +:+ decorator_name self +:+ " does not support methods"))
  else Ok (with_kwargs self
             (dict_setdefault "task_id" (VStr (fn_name (function self))) (kwargs self))).

(** The operator [__call__] returns (inside an [XComArg]): what it was
    constructed with and the attributes set on it afterwards. *)
Record DecoratedOperator : Type := {
  op_call : OperatorCall;
  op_is_setup : bool;
  op_is_teardown : bool;
  op_on_failure_fail_dagrun : value;
  op_docs : OperatorDocs
}.

(** The trigger rule of an operator is the [trigger_rule] keyword it was
    constructed with. *)
Definition op_trigger_rule (op : DecoratedOperator) : option value :=
  dict_get "trigger_rule" (call_kwargs (op_call op)).

Inductive ExpandInput : Type :=
| DictOfListsExpandInput (value : dict)
| ListOfDictsExpandInput (value : value)
| EXPAND_INPUT_EMPTY.

Definition expand_input_value (e : ExpandInput) : value :=
  match e with
  | DictOfListsExpandInput d => VDict d
  | ListOfDictsExpandInput v => v
  | EXPAND_INPUT_EMPTY => VDict []
  end.

(** The arguments [_expand] constructs the mapped operator with; the
    forwarded class attributes are those of [m_operator_class]. *)
Record DecoratedMappedOperator : Type := {
  m_operator_class : OperatorClass;
  m_expand_input : ExpandInput;
  m_partial_kwargs : dict;
  m_task_id : string;
  m_params : value;
  m_is_empty : bool;
  m_task_module : string;
  m_task_type : string;
  m_operator_name : string;
  m_dag : option DAG;
  m_task_group : option TaskGroup;
  m_start_date : value;
  m_end_date : value;
  m_multiple_outputs : bool;
  m_python_callable : Callable;
  m_op_kwargs_expand_input : ExpandInput;
  m_disallow_kwargs_override : bool;
  m_expand_input_attr : string
}.

Definition m_trigger_rule (m : DecoratedMappedOperator) : option value :=
  dict_get "trigger_rule" (m_partial_kwargs m).

(** What the decorator reaches outside these sources. *)
Record Collaborators : Type := {
  contexts : Contexts;
  KNOWN_CONTEXT_KEYS : gset string;
  ensure_xcomarg_return_value : value -> result unit;
  get_merged_defaults :
    option DAG -> option TaskGroup -> value -> value -> result (dict * value);
  BaseOperator_parameters : list string;   (* [inspect.signature(BaseOperator).parameters] *)
  convert_to_utc : value -> result value;
  parse_retries : value -> result value;
  coerce_timedelta : value -> result value;
  coerce_resources : value -> result value;
  mapped_operator_init : DecoratedMappedOperator -> result unit
    (* the constructor of [DecoratedMappedOperator] and its post-init hook *)
}.

Section Operations.
Variable rt : Collaborators.

(** [_TaskDecorator._validate_arg_names(func, kwargs)]: context variables
    must not be shadowed; then the check of [ExpandableFactory]. *)
Definition _validate_arg_names
    (self : _TaskDecorator) (func : string) (kwargs : dict) : result unit :=
  let context_keys_being_mapped : gset string :=
    KNOWN_CONTEXT_KEYS rt ∩ list_to_set (dict_keys kwargs) in
  match elements context_keys_being_mapped with
  | [n] => Raise (ValueError ("cannot call " +:+ func
                              +:+ "() on task context variable " +:+ repr n))
  | [] => ExpandableFactory_validate_arg_names (function self) func kwargs
  | ns => Raise (ValueError ("cannot call " +:+ func
                             +:+ "() on task context variables " +:+ join ", " (map repr ns)))
  end.

(** The teardown block [__call__] and [expand] share:
    [if self.is_teardown: if "trigger_rule" in self.kwargs: raise ...;
     self.kwargs.update(trigger_rule=TriggerRule.ALL_DONE_SETUP_SUCCESS)].
    It updates [self.kwargs] in place. *)
Definition teardown_trigger_rule (self : _TaskDecorator) : result _TaskDecorator :=
  if is_teardown self then
    if dict_mem "trigger_rule" (kwargs self)
    then Raise (ValueError "Trigger rule not configurable for teardown tasks.")
    else Ok (with_kwargs self
               (dict_set "trigger_rule" (VTriggerRule ALL_DONE_SETUP_SUCCESS) (kwargs self)))
  else Ok self.

(** A keyword given both by name and through [**self.kwargs]. *)
Definition call_keywords : list string :=
  ["python_callable"; "op_args"; "op_kwargs"; "multiple_outputs"].

Definition check_keywords (cls : OperatorClass) (kw : dict) : result unit :=
  match List.filter (fun k => bool_decide (k ∈ call_keywords)) (dict_keys kw) with
  | [] => Ok tt
  | k :: _ => Raise (TypeError (cls_module cls +:+ "." +:+ cls_name cls
                                +:+ "() got multiple values for keyword argument " +:+ repr k))
  end.

Definition doc_truthy (d : option string) : bool :=
  match d with Some s => negb (String.eqb s EmptyString) | None => false end.

(** [__call__] with positional [args] and keyword [kwargs]: the operator, and the decorator with its
    [kwargs] as the call leaves them.  The assignments to the attributes
    of the operator go through its class and may raise. *)
Definition __call__ (self : _TaskDecorator) (args : list value) (op_kwargs : dict)
    : result DecoratedOperator * _TaskDecorator :=
  match teardown_trigger_rule self with
  | Raise e => (Raise e, self)
  | Ok self =>
      let (popped, kw) := dict_pop "on_failure_fail_dagrun" (kwargs self) in
      let on_failure_fail_dagrun := default (VBool (on_failure_fail_dagrun self)) popped in
      let self := with_kwargs self kw in
      let call := {| call_python_callable := function self;
                     call_op_args := args;
                     call_op_kwargs := op_kwargs;
                     call_multiple_outputs := multiple_outputs self;
                     call_kwargs := kwargs self |} in
      (_ ← check_keywords (operator_class self) (kwargs self);
       docs ← construct (operator_class self) call;
       let setup := ("is_setup", VBool (is_setup self)) in
       let teardown := ("is_teardown", VBool (is_teardown self)) in
       let on_failure := ("on_failure_fail_dagrun", on_failure_fail_dagrun) in
       _ ← set_attribute (operator_class self) call [] "is_setup" (VBool (is_setup self));
       _ ← set_attribute (operator_class self) call [setup]
             "is_teardown" (VBool (is_teardown self));
       _ ← set_attribute (operator_class self) call [setup; teardown]
             "on_failure_fail_dagrun" on_failure_fail_dagrun;
       let assigned := [setup; teardown; on_failure] in
       let op_doc_attrs := [doc docs; doc_json docs; doc_md docs; doc_rst docs; doc_yaml docs] in
       docs ←
         (if doc_truthy (fn_doc (function self)) && negb (existsb truthy op_doc_attrs)
          then
            let docstring := VStr (default EmptyString (fn_doc (function self))) in
            _ ← set_attribute (operator_class self) call assigned "doc_md" docstring;
            Ok {| doc := doc docs; doc_json := doc_json docs; doc_md := docstring;
                  doc_rst := doc_rst docs; doc_yaml := doc_yaml docs |}
          else Ok docs);
       Ok {| op_call := call;
             op_is_setup := is_setup self;
             op_is_teardown := is_teardown self;
             op_on_failure_fail_dagrun := on_failure_fail_dagrun;
             op_docs := docs |},
       self)
  end.

(** [x.pop(k, None) or fallback], for an entry that holds an object of
    the class [proj] recognises. *)
Definition pop_or {A} (proj : value -> option A) (popped : option value)
    (fallback : option A) : result (option A) :=
  match popped with
  | None => Ok fallback
  | Some v =>
      if truthy v then
        match proj v with
        | Some a => Ok (Some a)
        | None => Raise (Unmodelled "an object of an unexpected class")
        end
      else Ok fallback
  end.

Definition as_DAG (v : value) : option DAG :=
  match v with VDag d => Some d | _ => None end.

Definition as_TaskGroup (v : value) : option TaskGroup :=
  match v with VTaskGroup g => Some g | _ => None end.

Definition as_str (v : value) : result string :=
  match v with
  | VStr s => Ok s
  | _ => Raise (Unmodelled "a task id that is not a string")
  end.

(** The names [_expand] leaves out of the partial keys. *)
Definition ignore : list string :=
  ["default_args"; "kwargs"; "do_xcom_push"; "multiple_outputs"; "params"; "task_concurrency"].

Definition in_partial_keys (key : string) : bool :=
  bool_decide (key ∈ BaseOperator_parameters rt) && negb (bool_decide (key ∈ ignore)).

(** [if (v := partial_kwargs.get(fld, NOTSET)) is not NOTSET:
       partial_kwargs[fld] = convert(v)] *)
Definition convert_field (fld : string) (convert : value -> result value)
    (partial_kwargs : dict) : result dict :=
  match dict_get fld partial_kwargs with
  | Some v => v' ← convert v; Ok (dict_set fld v' partial_kwargs)
  | None => Ok partial_kwargs
  end.

(** [_expand(expand_input, strict=strict)] *)
Definition _expand (self : _TaskDecorator) (expand_input : ExpandInput) (strict : bool)
    : result DecoratedMappedOperator :=
  _ ← ensure_xcomarg_return_value rt (expand_input_value expand_input);
  let task_kwargs := kwargs self in
  let (dag_v, task_kwargs) := dict_pop "dag" task_kwargs in
  dag ← pop_or as_DAG dag_v (DagContext_get_current (contexts rt));
  let (tg_v, task_kwargs) := dict_pop "task_group" task_kwargs in
  task_group ← pop_or as_TaskGroup tg_v (TaskGroupContext_get_current (contexts rt) dag);
  let (task_params, task_kwargs) := dict_pop "params" task_kwargs in
  let (task_default_args, task_kwargs) := dict_pop "default_args" task_kwargs in
  merged ← get_merged_defaults rt dag task_group
             (default VNone task_params) (default VNone task_default_args);
  let (default_args, partial_params) := (merged : dict * value) in
  let partial_kwargs : dict :=
    [("is_setup", VBool (is_setup self));
     ("is_teardown", VBool (is_teardown self));
     ("on_failure_fail_dagrun", VBool (on_failure_fail_dagrun self))] in
  let partial_kwargs :=
    dict_update partial_kwargs
      (List.filter (fun kv => in_partial_keys (fst kv)) default_args) in
  let partial_kwargs := dict_update partial_kwargs task_kwargs in
  match dict_pop "task_id" partial_kwargs with
  | (None, _) => Raise (KeyError "task_id")
  | (Some task_id_v, partial_kwargs) =>
      task_id ← as_str task_id_v;
      task_id ← get_unique_task_id (contexts rt) task_id dag task_group;
      let task_id :=
        match task_group with
        | Some tg => child_id tg task_id
        | None => task_id
        end in
      let partial_kwargs :=
        if truthy (default VNone (dict_get "wait_for_downstream" partial_kwargs))
        then dict_set "depends_on_past" (VBool true) partial_kwargs
        else partial_kwargs in
      let (start_date_v, partial_kwargs) := dict_pop "start_date" partial_kwargs in
      start_date ← convert_to_utc rt (default VNone start_date_v);
      let (end_date_v, partial_kwargs) := dict_pop "end_date" partial_kwargs in
      end_date ← convert_to_utc rt (default VNone end_date_v);
      _ ← match dict_get "pool_slots" partial_kwargs with
          | Some slots =>
              less ← py_lt_int slots 1;
              if (less : bool) then
                let dag_str :=
                  match dag with
                  | Some d => " in dag " +:+ dag_id d
                  | None => EmptyString
                  end in
                Raise (ValueError ("pool slots for " +:+ task_id +:+ dag_str
                                   +:+ " cannot be less than 1"))
              else Ok tt
          | None => Ok tt
          end;
      partial_kwargs ← convert_field "retries" (parse_retries rt) partial_kwargs;
      partial_kwargs ← convert_field "retry_delay" (coerce_timedelta rt) partial_kwargs;
      partial_kwargs ← convert_field "max_retry_delay" (coerce_timedelta rt) partial_kwargs;
      partial_kwargs ← convert_field "resources" (coerce_resources rt) partial_kwargs;
      let partial_kwargs := dict_setdefault "executor_config" (VDict []) partial_kwargs in
      let partial_kwargs := dict_setdefault "op_args" (VList []) partial_kwargs in
      let partial_kwargs := dict_setdefault "op_kwargs" (VDict []) partial_kwargs in
      let operator_name :=
        default (cls_name (operator_class self)) (custom_operator_name (operator_class self)) in
      let operator :=
        {| m_operator_class := operator_class self;
           m_expand_input := EXPAND_INPUT_EMPTY;
           m_partial_kwargs := partial_kwargs;
           m_task_id := task_id;
           m_params := partial_params;
           m_is_empty := false;
           m_task_module := cls_module (operator_class self);
           m_task_type := cls_name (operator_class self);
           m_operator_name := operator_name;
           m_dag := dag;
           m_task_group := task_group;
           m_start_date := start_date;
           m_end_date := end_date;
           m_multiple_outputs := multiple_outputs self;
           m_python_callable := function self;
           m_op_kwargs_expand_input := expand_input;
           m_disallow_kwargs_override := strict;
           m_expand_input_attr := "op_kwargs_expand_input" |} in
      _ ← mapped_operator_init rt operator;
      Ok operator
  end.

(** [expand] with the keyword arguments [map_kwargs] *)
Definition expand (self : _TaskDecorator) (map_kwargs : dict)
    : result DecoratedMappedOperator * _TaskDecorator :=
  if eq_ALWAYS (dict_get "trigger_rule" (kwargs self))
     && existsb is_XComArg (dict_values map_kwargs)
  then (Raise (ValueError "Task-generated mapping within a task using 'expand' is not allowed with trigger rule 'always'."),
        self)
  else
    match map_kwargs with
    | [] => (Raise (TypeError "no arguments to expand against"), self)
    | _ =>
        match _validate_arg_names self "expand" map_kwargs with
        | Raise e => (Raise e, self)
        | Ok _ =>
            match prevent_duplicates (kwargs self) map_kwargs "mapping already partial" with
            | Raise e => (Raise e, self)
            | Ok _ =>
                match teardown_trigger_rule self with
                | Raise e => (Raise e, self)
                | Ok self =>
                    (_expand self (DictOfListsExpandInput map_kwargs) false, self)
                end
            end
        end
    end.

(** The list comprehension of [expand_kwargs]:
    [[isinstance(v, XComArg) for kwarg in kwargs
      if not isinstance(kwarg, XComArg) for v in kwarg.values()]]. *)
Fixpoint xcomarg_flags (items : list value) : result (list bool) :=
  match items with
  | [] => Ok []
  | kwarg :: rest =>
      if is_XComArg kwarg then xcomarg_flags rest
      else
        vs ← py_values kwarg;
        flags ← xcomarg_flags rest;
        Ok (map is_XComArg vs ++ flags)%list
  end.

(** The loop [for item in kwargs: if not isinstance(item, (XComArg, Mapping)): raise ...]. *)
Fixpoint check_items (kwargs : value) (items : list value) : result unit :=
  match items with
  | [] => Ok tt
  | item :: rest =>
      if negb (is_XComArg item || is_Mapping item)
      then Raise (TypeError ("expected XComArg or list[dict], not " +:+ type_name kwargs))
      else check_items kwargs rest
  end.

(** An item of the shape [expand_kwargs] accepts. *)
Definition is_reference_or_mapping (item : value) : bool :=
  is_XComArg item || is_Mapping item.

(** A mapping with a deferred reference among its values. *)
Definition has_deferred_value (item : value) : bool :=
  match item with
  | VDict d => existsb is_XComArg (dict_values d)
  | _ => false
  end.

(** [expand_kwargs(kwargs, strict=strict)] *)
Definition expand_kwargs (self : _TaskDecorator) (kwargs' : value) (strict : bool)
    : result DecoratedMappedOperator :=
  blocked ←
    (if eq_ALWAYS (dict_get "trigger_rule" (kwargs self)) && negb (is_XComArg kwargs')
     then items ← py_iter kwargs'; flags ← xcomarg_flags items; Ok (existsb id flags)
     else Ok false);
  if (blocked : bool)
  then Raise (ValueError "Task-generated mapping within a task using 'expand_kwargs' is not allowed with trigger rule 'always'.")
  else
    _ ← (if is_Sequence kwargs'
         then items ← py_iter kwargs'; check_items kwargs' items
         else if negb (is_XComArg kwargs')
         then Raise (TypeError ("expected XComArg or list[dict], not " +:+ type_name kwargs'))
         else Ok tt);
    _expand self (ListOfDictsExpandInput kwargs') strict.

(** [partial] with the keyword arguments [kwargs] *)
Definition partial (self : _TaskDecorator) (kwargs' : dict) : result _TaskDecorator :=
  _ ← _validate_arg_names self "partial" kwargs';
  old_kwargs ← match dict_get "op_kwargs" (kwargs self) with
               | None => Ok []
               | Some (VDict d) => Ok d
               | Some _ => Raise (Unmodelled "op_kwargs that is not a dict")
               end;
  _ ← prevent_duplicates old_kwargs kwargs' "duplicate partial";
  let kwargs' := dict_update kwargs' old_kwargs in
  __attrs_post_init__ (with_kwargs self (dict_set "op_kwargs" (VDict kwargs') (kwargs self))).

(** [override] with the keyword arguments [kwargs]; the evolved copy keeps
    the three flags. *)
Definition override (self : _TaskDecorator) (kwargs' : dict) : result _TaskDecorator :=
  __attrs_post_init__ (with_kwargs self (dict_update (kwargs self) kwargs')).

End Operations.

(** The keyword arguments [DecoratedMappedOperator._get_unmap_kwargs]
    hands to the method of its superclass. *)
Record UnmapKwargs : Type := {
  u_multiple_outputs : bool;
  u_python_callable : Callable;
  u_op_kwargs : dict
}.

Definition getitem_dict (k : string) (d : dict) : result dict :=
  match dict_get k d with
  | None => Raise (KeyError k)
  | Some (VDict x) => Ok x
  | Some _ => Raise (Unmodelled "op_kwargs that is not a dict")
  end.

(** [DecoratedMappedOperator._get_unmap_kwargs(mapped_kwargs, strict=strict)] *)
Definition _get_unmap_kwargs (self : DecoratedMappedOperator) (mapped_kwargs : dict)
    (strict : bool) : result UnmapKwargs :=
  partial_op_kwargs ← getitem_dict "op_kwargs" (m_partial_kwargs self);
  mapped_op_kwargs ← getitem_dict "op_kwargs" mapped_kwargs;
  _ ← (if strict
       then prevent_duplicates partial_op_kwargs mapped_op_kwargs "mapping already partial"
       else Ok tt);
  Ok {| u_multiple_outputs := m_multiple_outputs self;
        u_python_callable := m_python_callable self;
        u_op_kwargs := dict_update partial_op_kwargs mapped_op_kwargs |}.

End Decorator.

(** ** The XCom client: [BaseXCom.get_one] and [BaseXCom.get_all] *)

Module XCom.
Import Py.

(** A JSON value on the wire; [JNull] is Python's [None]. *)
Inductive JsonValue : Type :=
| JNull
| JBool (b : bool)
| JNum (n : Z)
| JStr (s : string)
| JArr (items : list JsonValue)
| JObj (fields : list (string * JsonValue)).

Definition is_None (v : JsonValue) : bool :=
  match v with JNull => true | _ => false end.

Record GetXCom : Type := {
  gx_key : string;
  gx_dag_id : string;
  gx_task_id : string;
  gx_run_id : string;
  gx_map_index : option Z;
  gx_include_prior_dates : bool
}.

Record GetXComSequenceSlice : Type := {
  gs_key : string;
  gs_dag_id : string;
  gs_task_id : string;
  gs_run_id : string;
  gs_start : option Z;
  gs_stop : option Z;
  gs_step : option Z;
  gs_include_prior_dates : bool
}.

Inductive ToSupervisor : Type :=
| SendGetXCom (msg : GetXCom)
| SendGetXComSequenceSlice (msg : GetXComSequenceSlice).

Record XComResult : Type := { xr_key : string; xr_value : JsonValue }.

(** What the supervisor answers: the two results of interest, or a
    message of another class. *)
Inductive FromSupervisor : Type :=
| IsXComResult (msg : XComResult)
| IsXComSequenceSliceResult (root : list JsonValue)
| OtherMessage (cls : string).

(** The lightweight wrapper [_XComValueWrapper(value)]. *)
Record _XComValueWrapper : Type := { wrapped_value : JsonValue }.

(** [deserialize_value] takes any object with a [value] attribute. *)
Class HasValue (A : Type) : Type := value_of : A -> JsonValue.
#[global] Instance XComResult_value : HasValue XComResult := xr_value.
#[global] Instance Wrapper_value : HasValue _XComValueWrapper := wrapped_value.

(** A record of the structured logger. *)
Inductive LogField : Type := LStr (s : string) | LInt (n : Z) | LNone.

Record LogRecord : Type := {
  level : string;
  event : string;
  fields : list (string * LogField)
}.

Definition log_index (i : option Z) : LogField :=
  match i with Some n => LInt n | None => LNone end.

(** What the client reaches outside these sources: the channel to the
    supervisor, the [serde] deserializer, and how a message prints. *)
Record Channel : Type := {
  send : ToSupervisor -> result FromSupervisor;
  deserialize : JsonValue -> result value;
  type_str : FromSupervisor -> string;    (* [str(type(msg))] *)
  msg_str : FromSupervisor -> string      (* [str(msg)] *)
}.

Section Client.
Variable ch : Channel.

(** [BaseXCom.deserialize_value(result)] *)
Definition deserialize_value {A} `{HasValue A} (res : A) : result value :=
  deserialize ch (value_of res).

(** [[f(x) for x in xs]] with a function that may raise. *)
Fixpoint list_comprehension {A B} (f : A -> result B) (xs : list A) : result (list B) :=
  match xs with
  | [] => Ok []
  | x :: rest => y ← f x; ys ← list_comprehension f rest; Ok (y :: ys)
  end.

(** [BaseXCom.get_one]: the outcome and the records it logs. *)
Definition get_one (key dag_id task_id run_id : string) (map_index : option Z)
    (include_prior_dates : bool) : result value * list LogRecord :=
  match send ch (SendGetXCom {| gx_key := key; gx_dag_id := dag_id; gx_task_id := task_id;
                                gx_run_id := run_id; gx_map_index := map_index;
                                gx_include_prior_dates := include_prior_dates |}) with
  | Raise e => (Raise e, [])
  | Ok (IsXComResult msg) =>
      if negb (is_None (xr_value msg)) then (deserialize_value msg, [])
      else
        (Ok VNone,
         [ {| level := "warning";
              event := "No XCom value found; defaulting to None.";
              fields := [("key", LStr key); ("dag_id", LStr dag_id);
                         ("task_id", LStr task_id); ("run_id", LStr run_id);
                         ("map_index", log_index map_index)] |} ])
  | Ok msg =>
      (Raise (TypeError ("Expected XComResult, received: " +:+ type_str ch msg
                         +:+ " " +:+ msg_str ch msg)), [])
  end.

(** [BaseXCom.get_all] *)
Definition get_all (key dag_id task_id run_id : string) (include_prior_dates : bool)
    : result value :=
  msg ← send ch (SendGetXComSequenceSlice
                   {| gs_key := key; gs_dag_id := dag_id; gs_task_id := task_id;
                      gs_run_id := run_id; gs_start := None; gs_stop := None;
                      gs_step := None; gs_include_prior_dates := include_prior_dates |});
  match msg with
  | IsXComSequenceSliceResult root =>
      match root with
      | [] => Ok VNone
      | _ =>
          values ← list_comprehension
                     (fun value => deserialize_value {| wrapped_value := value |}) root;
          Ok (VList values)
      end
  | _ =>
      Raise (TypeError ("Expected XComSequenceSliceResult, received: " +:+ type_str ch msg
                        +:+ " " +:+ msg_str ch msg))
  end.

End Client.

End XCom.

(** ** Concrete collaborators and decorators used in the examples *)

Module Samples.
Import PyStr TaskId Py Decorator.

Definition no_docs : OperatorDocs :=
  {| doc := VNone; doc_json := VNone; doc_md := VNone; doc_rst := VNone; doc_yaml := VNone |}.

(** The value an attribute was last given, [False] when it was not set. *)
Definition attribute (name : string) (assigned : list (string * value)) : value :=
  default (VBool false) (dict_get name (rev assigned)).

Definition is_True (v : value) : bool :=
  match v with VBool true => true | _ => false end.

(** Setters in the manner of the operator base class: a task is not both
    setup and teardown, and [on_failure_fail_dagrun] is [True] on a
    teardown task only. *)
Definition setters (call : OperatorCall) (assigned : list (string * value))
    (name : string) (v : value) : result unit :=
  let task_id :=
    match dict_get "task_id" (call_kwargs call) with
    | Some (VStr s) => s
    | _ => EmptyString
    end in
  if String.eqb name "is_setup" then
    if truthy (attribute "is_teardown" assigned) && truthy v
    then Raise (ValueError ("Cannot mark task '" +:+ task_id
                            +:+ "' as setup; task is already a teardown."))
    else Ok tt
  else if String.eqb name "is_teardown" then
    if truthy (attribute "is_setup" assigned) && truthy v
    then Raise (ValueError ("Cannot mark task '" +:+ task_id
                            +:+ "' as teardown; task is already a setup."))
    else Ok tt
  else if String.eqb name "on_failure_fail_dagrun" then
    if is_True v && negb (is_True (attribute "is_teardown" assigned))
    then Raise (ValueError ("Cannot set task on_failure_fail_dagrun for '" +:+ task_id
                            +:+ "' because it is not a teardown task."))
    else Ok tt
  else Ok tt.

(** An operator class whose constructor accepts every call. *)
Definition PythonOperator : OperatorClass :=
  {| cls_module := "airflow.providers.standard.decorators.python";
     cls_name := "_PythonDecoratedOperator";
     custom_operator_name := Some "@task";
     construct := fun _ => Ok no_docs;
     set_attribute := setters |}.

(** Collaborators that accept everything and convert nothing, outside any
    DAG or task group. *)
Definition plain : Collaborators :=
  {| contexts := no_context;
     KNOWN_CONTEXT_KEYS := list_to_set ["ti"; "ds"; "dag_run"; "params"];
     ensure_xcomarg_return_value := fun _ => Ok tt;
     get_merged_defaults := fun _ _ params _ => Ok ([], params);
     BaseOperator_parameters := ["task_id"; "owner"; "retries"; "trigger_rule"; "pool_slots"];
     convert_to_utc := fun v => Ok v;
     parse_retries := fun v => Ok v;
     coerce_timedelta := fun v => Ok v;
     coerce_resources := fun v => Ok v;
     mapped_operator_init := fun _ => Ok tt |}.

Definition keyword (n : string) : SigParameter :=
  {| name := n; kind := POSITIONAL_OR_KEYWORD |}.

(** [def f(x, y): ...] *)
Definition f_xy : Callable :=
  {| fn_name := "f"; fn_doc := None; parameters := [keyword "x"; keyword "y"] |}.

(** [def g(a): ...] *)
Definition g_a : Callable :=
  {| fn_name := "g"; fn_doc := None; parameters := [keyword "a"] |}.

(** The decorator [task_decorator_factory] builds for [function] with the
    operator keyword arguments [kw]. *)
Definition task (function : Callable) (kw : dict) (teardown : bool) : _TaskDecorator :=
  {| function := function; operator_class := PythonOperator; multiple_outputs := false;
     kwargs := dict_setdefault "task_id" (VStr (fn_name function)) kw;
     decorator_name := "task"; is_setup := false; is_teardown := teardown;
     on_failure_fail_dagrun := false |}.

(** [{x: [1], y: <deferred>, z: [], w: {}}] *)
Definition collections_xyzw : dict :=
  [("x", VList [VInt 1]); ("y", VXComArg "up" "return_value");
   ("z", VList []); ("w", VDict [])].

(** [{x: 1, z: 2}] *)
Definition scalars_xz : dict := [("x", VInt 1); ("z", VInt 2)].

(** A deferred reference to the output of the task [up]. *)
Definition upstream : value := VXComArg "up" "return_value".

(** [@task(trigger_rule="always") def g(a)] *)
Definition always_g : _TaskDecorator :=
  task g_a [("trigger_rule", VTriggerRule ALWAYS)] false.

(** [@teardown @task def g(a)] *)
Definition teardown_g : _TaskDecorator := task g_a [] true.

(** [g.partial(a=1)]: the decorator with [a] bound as a partial argument. *)
Definition partial_g : _TaskDecorator :=
  {| function := g_a; operator_class := PythonOperator; multiple_outputs := false;
     kwargs := [("task_id", VStr "g"); ("op_kwargs", VDict [("a", VInt 1)])];
     decorator_name := "task"; is_setup := false; is_teardown := false;
     on_failure_fail_dagrun := false |}.

Import XCom.

(** A deserializer for scalars. *)
Definition scalar (v : JsonValue) : result value :=
  match v with
  | JNull => Ok VNone
  | JBool b => Ok (VBool b)
  | JNum n => Ok (VInt n)
  | JStr s => Ok (VStr s)
  | _ => Raise (OtherError "DeserializationError" "not a scalar")
  end.

(** A supervisor that has no value under any key and three values, one per
    map index, for every task. *)
Definition supervisor : Channel :=
  {| send := fun msg =>
       match msg with
       | SendGetXCom m => Ok (IsXComResult {| xr_key := gx_key m; xr_value := JNull |})
       | SendGetXComSequenceSlice _ =>
           Ok (IsXComSequenceSliceResult [JNum 1; JStr "two"; JNum 3])
       end;
     deserialize := scalar;
     type_str := fun _ => "<class 'Message'>";
     msg_str := fun _ => "message" |}.

End Samples.


(** ** [DecoratedMappedOperator._expand_mapped_kwargs] *)

Module MappedOp.
Import PyStr TaskId Py Decorator.

(** What the method reaches outside these sources: the method of the
    superclass, which resolves the expand input of the operator against the
    run-time context into keyword arguments and the ids of the resolved
    objects, and how an expand input prints. *)
Record Resolution : Type := {
  super_expand_mapped_kwargs : DecoratedMappedOperator -> result (dict * list Z);
  str_expand_input : ExpandInput -> string
}.

Definition is_EXPAND_INPUT_EMPTY (e : ExpandInput) : bool :=
  match e with EXPAND_INPUT_EMPTY => true | _ => false end.

(** [_expand_mapped_kwargs(context)] *)
Definition _expand_mapped_kwargs (rs : Resolution) (self : DecoratedMappedOperator)
    : result (dict * list Z) :=
  if negb (is_EXPAND_INPUT_EMPTY (m_expand_input self))
  then Raise (OtherError "AssertionError"
                ("unexpected expand_input: " +:+ str_expand_input rs (m_expand_input self)))
  else
    resolved ← super_expand_mapped_kwargs rs self;
    let (op_kwargs, resolved_oids) := (resolved : dict * list Z) in
    Ok ([("op_kwargs", VDict op_kwargs)], resolved_oids).

End MappedOp.

(** ** [DecoratedOperator] *)

Module DecoratedOp.
Import PyStr TaskId Py Decorator.

(** [x or {}] for an entry that holds a dictionary or nothing. *)
Definition or_empty_dict (v : option value) : result dict :=
  match v with
  | None => Ok []
  | Some v =>
      if truthy v then
        match v with
        | VDict d => Ok d
        | _ => Raise (Unmodelled "default_args or op_kwargs that is no dict")
        end
      else Ok []
  end.

(** The loop of [_hook_apply_defaults] over the parameters of the
    function. *)
Fixpoint fill_from_defaults (names : list string) (default_args op_kwargs : dict) : dict :=
  match names with
  | [] => op_kwargs
  | arg :: rest =>
      fill_from_defaults rest default_args
        (if negb (dict_mem arg op_kwargs) && dict_mem arg default_args
         then dict_set arg (default VNone (dict_get arg default_args)) op_kwargs
         else op_kwargs)
  end.

(** [_hook_apply_defaults]: the positional arguments come back as they
    are and are left out; [python_callable] is the entry of that name among
    the keyword arguments [kwargs], if there is one. *)
Definition _hook_apply_defaults (python_callable : option Callable) (kwargs : dict)
    : result dict :=
  match python_callable with
  | None => Ok kwargs
  | Some f =>
      default_args ← or_empty_dict (dict_get "default_args" kwargs);
      op_kwargs ← or_empty_dict (dict_get "op_kwargs" kwargs);
      Ok (dict_set "op_kwargs"
            (VDict (fill_from_defaults (map name (parameters f)) default_args op_kwargs))
            kwargs)
  end.

(** A parameter of [inspect.signature(python_callable)] with its default;
    no default is [Parameter.empty]. *)
Record ParameterD : Type := {
  p_name : string;
  p_kind : ParameterKind;
  p_default : option value
}.

(** [param.default not in (None, inspect.Parameter.empty)] *)
Definition has_other_default (p : ParameterD) : bool :=
  match p_default p with
  | None | Some VNone => false
  | Some _ => true
  end.

(** [param.replace(default=None)] *)
Definition replace_default_None (p : ParameterD) : ParameterD :=
  {| p_name := p_name p; p_kind := p_kind p; p_default := Some VNone |}.

(** What the constructor reaches outside these sources. *)
Record Construction : Type := {
  c_contexts : Contexts;
  c_KNOWN_CONTEXT_KEYS : gset string;
  signature_replace : list ParameterD -> result unit;
    (* [signature.replace(parameters=parameters)] raises [ValueError] or not *)
  broken_signature_message : string -> list ParameterD -> list ParameterD -> string -> string;
    (* the message built from the name of the function, the two parameter
       lists and the text of the error *)
  bind : list ParameterD -> list value -> dict -> result unit;
  bind_partial : list ParameterD -> list value -> dict -> result unit;
  super_init_name : string;
  super_init : string -> dict -> result unit
    (* [super().__init__(task_id=task_id, ...)] with the merged keywords *)
}.

(** The keywords of a call that unpacks the dictionaries [ds] after the
    keywords [given]: a repeated key is a [TypeError]. *)
Fixpoint merge_keywords (callee : string) (given : dict) (ds : list dict) : result dict :=
  match ds with
  | [] => Ok given
  | d :: rest =>
      match List.filter (fun k => dict_mem k given) (dict_keys d) with
      | k :: _ => Raise (TypeError (callee +:+ "() got multiple values for keyword argument "
                                    +:+ repr k))
      | [] => merge_keywords callee (given ++ d)%list rest
      end
  end.

(** What the constructor leaves: the attributes it sets and what it gave
    to the constructor of the superclass. *)
Record DecoratedOperatorState : Type := {
  s_op_args : list value;
  s_op_kwargs : dict;
  s_task_id : string;                (* the [task_id] given to the superclass *)
  s_base_kwargs : dict               (* the other keywords given to it *)
}.

Section Init.
Variable cn : Construction.

(** The first statement of the constructor: the task id is made unique,
    unless the operator is created from a mapped one. *)
Definition unique_task_id (from_mapped : bool) (task_id : string) (kwargs : dict)
    : result string :=
  if negb from_mapped then
    dag ← pop_or as_DAG (dict_get "dag" kwargs) None;
    task_group ← pop_or as_TaskGroup (dict_get "task_group" kwargs) None;
    get_unique_task_id (c_contexts cn) task_id dag task_group
  else Ok task_id.

(** [DecoratedOperator.__init__]; [from_mapped] is the private attribute
    [_BaseOperator__from_mapped], [callable_name] and [parameters] are
    [python_callable.__name__] and the parameters of
    [inspect.signature(python_callable)]. *)
Definition __init__ (from_mapped : bool) (callable_name : string)
    (parameters : list ParameterD) (task_id : string)
    (op_args : list value) (op_kwargs kwargs_to_upstream kwargs : dict)
    : result DecoratedOperatorState :=
  task_id ← unique_task_id from_mapped task_id kwargs;
  let faulty_parameters :=
    map p_name
      (List.filter
         (fun p => bool_decide (p_name p ∈ c_KNOWN_CONTEXT_KEYS cn) && has_other_default p)
         parameters) in
  match faulty_parameters with
  | first :: _ =>
      Raise (ValueError ("Context key parameter " +:+ first
                         +:+ " can't have a default other than None"))
  | [] =>
      let parameters' :=
        map (fun p => if bool_decide (p_name p ∈ c_KNOWN_CONTEXT_KEYS cn)
                      then replace_default_None p else p) parameters in
      match signature_replace cn parameters' with
      | Raise (ValueError err) =>
          Raise (ValueError (broken_signature_message cn callable_name parameters
                               parameters' err))
      | Raise e => Raise e
      | Ok _ =>
          _ ← (if truthy (default VNone (dict_get "_airflow_mapped_validation_only" kwargs))
               then bind_partial cn parameters' op_args op_kwargs
               else bind cn parameters' op_args op_kwargs);
          base_kwargs ← merge_keywords (super_init_name cn) [("task_id", VStr task_id)]
                          [kwargs_to_upstream; kwargs];
          _ ← super_init cn task_id (dict_remove "task_id" base_kwargs);
          Ok {| s_task_id := task_id; s_op_args := op_args; s_op_kwargs := op_kwargs;
                s_base_kwargs := dict_remove "task_id" base_kwargs |}
      end
  end.

End Init.

End DecoratedOp.

(** ** [task_decorator_factory] *)

Module Factory.
Import PyStr TaskId Py Decorator.

(** The positional argument of the factory: nothing ([None]), a function,
    or an object that is no callable. *)
Inductive PositionalArg : Type :=
| NoArgument
| AFunction (f : Callable)
| AValue (v : value).

(** What the constructor of [_TaskDecorator] reaches outside these
    sources: the inference of [multiple_outputs] from the annotations of
    the function, and the message of the validator of [function]. *)
Record Attrs : Type := {
  _infer_multiple_outputs : Callable -> bool;
  not_callable_message : value -> string
}.

(** [self.function.__annotations__], the first thing the default of
    [multiple_outputs] reads, on an object that is no callable: the
    built-in values have no such attribute. *)
Definition annotations_of (v : value) : result unit :=
  match v with
  | VNone | VBool _ | VInt _ | VStr _ | VList _ | VTuple _ | VDict _ =>
      Raise (AttributeError
               (repr (type_name v) +:+ " object has no attribute '__annotations__'"))
  | _ => Raise (Unmodelled "annotations of an object of a class outside the sources")
  end.

Section Factory.
Variable at_ : Attrs.

(** The constructor on an object that is no callable: the default of
    [multiple_outputs], when none is given, is computed before the
    validator of [function] runs. *)
Definition not_callable (multiple_outputs : option bool) (v : value)
    : result _TaskDecorator :=
  _ ← match multiple_outputs with
      | None => annotations_of v
      | Some _ => Ok tt
      end;
  Raise (TypeError (not_callable_message at_ v)).

(** [_TaskDecorator(function=..., multiple_outputs=..., operator_class=...,
    kwargs=kwargs)]: the other attributes take their defaults, and
    [multiple_outputs] is inferred when it is not given. *)
Definition new_TaskDecorator (python_callable : PositionalArg)
    (multiple_outputs : option bool) (decorated_operator_class : OperatorClass)
    (kwargs : dict) : result _TaskDecorator :=
  match python_callable with
  | AFunction f =>
      __attrs_post_init__
        {| function := f;
           operator_class := decorated_operator_class;
           multiple_outputs := default (_infer_multiple_outputs at_ f) multiple_outputs;
           kwargs := kwargs;
           decorator_name := "task";
           is_setup := false; is_teardown := false; on_failure_fail_dagrun := false |}
  | NoArgument => not_callable multiple_outputs VNone
  | AValue v => not_callable multiple_outputs v
  end.

(** The closure [decorator_factory] over [kwargs], applied to
    [python_callable]: the decorator, and [kwargs] as the call leaves it.
    The decorator holds that very dictionary, which its constructor
    updates in place. *)
Definition decorator_factory (multiple_outputs : option bool)
    (decorated_operator_class : OperatorClass) (kwargs : dict)
    (python_callable : PositionalArg) : result _TaskDecorator * dict :=
  match new_TaskDecorator python_callable multiple_outputs decorated_operator_class kwargs with
  | Ok d => (Ok d, Decorator.kwargs d)
  | Raise e => (Raise e, kwargs)
  end.

(** What [task_decorator_factory] returns: a decorator, or the closure
    [decorator_factory] over the keyword arguments. *)
Inductive Produced : Type :=
| ADecorator (d : _TaskDecorator)
| AFactory (multiple_outputs : option bool) (decorated_operator_class : OperatorClass)
    (kwargs : dict).

Definition arg_truthy (a : PositionalArg) : bool :=
  match a with
  | NoArgument => false
  | AFunction _ => true
  | AValue v => truthy v
  end.

(** [task_decorator_factory(python_callable, multiple_outputs=...,
    decorated_operator_class=..., **kwargs)] *)
Definition task_decorator_factory (python_callable : PositionalArg)
    (multiple_outputs : option bool) (decorated_operator_class : OperatorClass)
    (kwargs : dict) : result Produced :=
  if arg_truthy python_callable then
    d ← new_TaskDecorator python_callable multiple_outputs decorated_operator_class kwargs;
    Ok (ADecorator d)
  else
    match python_callable with
    | NoArgument => Ok (AFactory multiple_outputs decorated_operator_class kwargs)
    | _ => Raise (TypeError "No args allowed while using @task, use kwargs instead")
    end.

End Factory.

End Factory.

(** ** [BaseXCom.delete] *)

Module XComDelete.
Import Py XCom.

(** What [delete] does to the world, in order. *)
Inductive Effect : Type :=
| SendsGetXCom (key dag_id task_id run_id : string) (map_index : option Z)
| Purges (xcom : XComResult)
| SendsDeleteXCom (key dag_id task_id run_id : string).

(** What [delete] reaches outside these sources: the answers of the
    supervisor to the two messages, the [purge] of the backend class
    ([BaseXCom.purge] does nothing), and how a message prints. *)
Record Backend : Type := {
  answer_get : string -> string -> string -> string -> option Z -> result FromSupervisor;
  answer_delete : string -> string -> string -> string -> result FromSupervisor;
  purge : XComResult -> result unit;
  b_type_str : FromSupervisor -> string;
  b_msg_str : FromSupervisor -> string
}.

(** [BaseXCom.purge] *)
Definition BaseXCom_purge (xcom : XComResult) : result unit := Ok tt.

Section Delete.
Variable be : Backend.

(** [_get_xcom_db_ref] *)
Definition _get_xcom_db_ref (key dag_id task_id run_id : string) (map_index : option Z)
    : result XComResult * list Effect :=
  let sent := [SendsGetXCom key dag_id task_id run_id map_index] in
  match answer_get be key dag_id task_id run_id map_index with
  | Raise e => (Raise e, sent)
  | Ok (IsXComResult msg) => (Ok msg, sent)
  | Ok msg =>
      (Raise (TypeError ("Expected XComResult, received: " +:+ b_type_str be msg
                         +:+ " " +:+ b_msg_str be msg)), sent)
  end.

(** [delete(key, task_id, dag_id, run_id, map_index)] *)
Definition delete (key task_id dag_id run_id : string) (map_index : option Z)
    : result unit * list Effect :=
  match _get_xcom_db_ref key dag_id task_id run_id map_index with
  | (Raise e, effects) => (Raise e, effects)
  | (Ok xcom_result, effects) =>
      let effects := (effects ++ [Purges xcom_result])%list in
      match purge be xcom_result with
      | Raise e => (Raise e, effects)
      | Ok _ =>
          let effects := (effects ++ [SendsDeleteXCom key dag_id task_id run_id])%list in
          match answer_delete be key dag_id task_id run_id with
          | Raise e => (Raise e, effects)
          | Ok _ => (Ok tt, effects)
          end
      end
  end.

End Delete.

End XComDelete.

(** ** The keyword arguments [_expand] starts from *)

Module ExpandShape.
Import PyStr TaskId Py Decorator.

(** [partial_kwargs] in [_expand] before [task_id] is popped: the three
    flags, updated with the merged defaults that are parameters of
    [BaseOperator], updated with the keyword arguments of the decorator
    left once [dag], [task_group], [params] and [default_args] are popped. *)
Definition initial_partial_kwargs (rt : Collaborators) (self : _TaskDecorator)
    (default_args : dict) : dict :=
  dict_update
    (dict_update
       [("is_setup", VBool (is_setup self));
        ("is_teardown", VBool (is_teardown self));
        ("on_failure_fail_dagrun", VBool (on_failure_fail_dagrun self))]
       (List.filter (fun kv => in_partial_keys rt (fst kv)) default_args))
    (dict_remove "default_args" (dict_remove "params"
       (dict_remove "task_group" (dict_remove "dag" (kwargs self))))).

(** The keys of [partial_kwargs] that [_expand] pops, sets or converts
    after that. *)
Definition touched : list string :=
  ["task_id"; "depends_on_past"; "start_date"; "end_date"; "retries"; "retry_delay";
   "max_retry_delay"; "resources"; "executor_config"; "op_args"; "op_kwargs"].

(** The keys of the keyword arguments of the decorator that [_expand]
    consumes, or whose value it may replace. *)
Definition reworked : list string :=
  ["dag"; "task_group"; "params"; "default_args"; "task_id"; "depends_on_past";
   "start_date"; "end_date"; "retries"; "retry_delay"; "max_retry_delay"; "resources"].

(** A task group that names its children [<group_id>.<label>], or none. *)
Definition prefixes_children (task_group : option TaskGroup) : Prop :=
  match task_group with
  | None => True
  | Some tg => exists group_id, forall label, child_id tg label = group_id +:+ String "." label
  end.

End ExpandShape.

(** ** Further concrete inputs *)

Module Examples.
Import PyStr TaskId Py Decorator.

(** A DAG in which [load] has been added three times already. *)
Definition etl : DAG := {| dag_id := "etl"; task_ids := ["load"; "load__1"; "load__7"] |}.

(** The task group [extract], and a DAG with two of its tasks. *)
Definition extract_group : TaskGroup :=
  {| child_id := fun label => "extract" +:+ String "." label |}.

Definition grouped : DAG :=
  {| dag_id := "etl"; task_ids := ["extract.fetch"; "extract.fetch__1"; "fetch__5"] |}.

(** [f.partial(x=1)] for [def f(x, y)]. *)
Definition partial_f_x : _TaskDecorator :=
  {| function := Samples.f_xy; operator_class := Samples.PythonOperator;
     multiple_outputs := false;
     kwargs := [("task_id", VStr "f"); ("op_kwargs", VDict [("x", VInt 1)])];
     decorator_name := "task"; is_setup := false; is_teardown := false;
     on_failure_fail_dagrun := false |}.

(** [@task(retries=3, on_failure_fail_dagrun=True) def f(x, y)] *)
Definition retrying_f : _TaskDecorator :=
  Samples.task Samples.f_xy
    [("retries", VInt 3); ("on_failure_fail_dagrun", VBool true)] false.

(** [@teardown @task(trigger_rule="one_failed") def g(a)]: a teardown
    decorator whose caller supplied a trigger rule. *)
Definition teardown_one_failed : _TaskDecorator :=
  Samples.task Samples.g_a [("trigger_rule", VTriggerRule (OTHER_RULE "one_failed"))] true.

(** [@teardown @task(retries=3, on_failure_fail_dagrun=True) def f(x, y)] *)
Definition cleanup_f : _TaskDecorator :=
  Samples.task Samples.f_xy
    [("retries", VInt 3); ("on_failure_fail_dagrun", VBool true)] true.

(** [def load(a): ...] *)
Definition load_a : Callable :=
  {| fn_name := "load"; fn_doc := None; parameters := [Samples.keyword "a"] |}.

(** [@task(dag=etl, pool_slots=2, owner="me", wait_for_downstream=True)
     def load(a)] *)
Definition load_in_etl : _TaskDecorator :=
  Samples.task load_a
    [("dag", VDag etl); ("pool_slots", VInt 2); ("owner", VStr "me");
     ("wait_for_downstream", VBool true)] false.

(** The argument [a=[1, 2]] of an expansion. *)
Definition over_a : ExpandInput := DictOfListsExpandInput [("a", VList [VInt 1; VInt 2])].

(** A superclass that resolves the expand input to [a=2]. *)
Definition resolution : MappedOp.Resolution :=
  {| MappedOp.super_expand_mapped_kwargs := fun _ => Ok ([("a", VInt 2)], [0%Z]);
     MappedOp.str_expand_input := fun _ => "ExpandInput" |}.

(** [def report(x, ti=None, ds="today"): ...] *)
Definition report_parameters : list DecoratedOp.ParameterD :=
  [ {| DecoratedOp.p_name := "x"; DecoratedOp.p_kind := POSITIONAL_OR_KEYWORD;
       DecoratedOp.p_default := None |};
    {| DecoratedOp.p_name := "ti"; DecoratedOp.p_kind := POSITIONAL_OR_KEYWORD;
       DecoratedOp.p_default := Some VNone |};
    {| DecoratedOp.p_name := "ds"; DecoratedOp.p_kind := POSITIONAL_OR_KEYWORD;
       DecoratedOp.p_default := Some (VStr "today") |} ].

(** A construction that accepts every signature and every call, outside
    any DAG or task group. *)
Definition construction : DecoratedOp.Construction :=
  {| DecoratedOp.c_contexts := no_context;
     DecoratedOp.c_KNOWN_CONTEXT_KEYS := list_to_set ["ti"; "ds"; "dag_run"; "params"];
     DecoratedOp.signature_replace := fun _ => Ok tt;
     DecoratedOp.broken_signature_message := fun _ _ _ err => err;
     DecoratedOp.bind := fun _ _ _ => Ok tt;
     DecoratedOp.bind_partial := fun _ _ _ => Ok tt;
     DecoratedOp.super_init_name := "BaseOperator.__init__";
     DecoratedOp.super_init := fun _ _ => Ok tt |}.

(** [python_callable=f, default_args={x: 0, y: 5, owner: "me"},
    op_kwargs={x: 1}] *)
Definition hook_kwargs : dict :=
  [("default_args", VDict [("x", VInt 0); ("y", VInt 5); ("owner", VStr "me")]);
   ("op_kwargs", VDict [("x", VInt 1)])].

(** A constructor that infers nothing about the outputs of a function. *)
Definition attrs : Factory.Attrs :=
  {| Factory._infer_multiple_outputs := fun _ => false;
     Factory.not_callable_message := fun _ => "'function' must be callable" |}.

(** A supervisor that has the value 7 under every key. *)
Definition seven_supervisor : XCom.Channel :=
  {| XCom.send := fun _ =>
       Ok (XCom.IsXComResult {| XCom.xr_key := "return_value"; XCom.xr_value := XCom.JNum 7 |});
     XCom.deserialize := Samples.scalar;
     XCom.type_str := fun _ => "<class 'Message'>";
     XCom.msg_str := fun _ => "message" |}.

(** A supervisor that answers every request with an error message. *)
Definition failing_supervisor : XCom.Channel :=
  {| XCom.send := fun _ => Ok (XCom.OtherMessage "ErrorResponse");
     XCom.deserialize := Samples.scalar;
     XCom.type_str := fun _ => "<class 'ErrorResponse'>";
     XCom.msg_str := fun _ => "error='generic_error'" |}.

(** A supervisor whose second value of three is no scalar. *)
Definition nested_supervisor : XCom.Channel :=
  {| XCom.send := fun _ =>
       Ok (XCom.IsXComSequenceSliceResult [XCom.JNum 1; XCom.JArr []; XCom.JNum 3]);
     XCom.deserialize := Samples.scalar;
     XCom.type_str := fun _ => "<class 'Message'>";
     XCom.msg_str := fun _ => "message" |}.

(** A backend of [BaseXCom] itself, which has a value under every key. *)
Definition backend : XComDelete.Backend :=
  {| XComDelete.answer_get := fun key _ _ _ _ =>
       Ok (XCom.IsXComResult {| XCom.xr_key := key; XCom.xr_value := XCom.JNum 1 |});
     XComDelete.answer_delete := fun _ _ _ _ => Ok (XCom.OtherMessage "OKResponse");
     XComDelete.purge := XComDelete.BaseXCom_purge;
     XComDelete.b_type_str := fun _ => "<class 'Message'>";
     XComDelete.b_msg_str := fun _ => "message" |}.

End Examples.

(** * Properties *)

(** ** Unique task identifiers *)

Section TaskIdFacts.
Import PyStr TaskId.

#[local] Arguments Ascii.eqb : simpl never.
#[local] Arguments is_digit : simpl never.

(** When the identifier, as its task group names it, is not among the task
    ids of the DAG, [get_unique_task_id] returns it as it came. *)
Lemma get_unique_task_id_unused ctx task_id dag task_group d :
  py_or dag (DagContext_get_current ctx) = Some d ->
  tg_task_id_of (py_or task_group (TaskGroupContext_get_current ctx (Some d))) task_id
    ∉ task_ids d ->
  get_unique_task_id ctx task_id dag task_group = Ok task_id.
Proof.
  intros Hdag Hfresh. unfold get_unique_task_id. rewrite Hdag. cbn zeta.
  by rewrite bool_decide_false.
Qed.

(** Without a DAG there is nothing to compare with. *)
Lemma get_unique_task_id_no_dag ctx task_id task_group :
  DagContext_get_current ctx = None ->
  get_unique_task_id ctx task_id None task_group = Ok task_id.
Proof. intros H. unfold get_unique_task_id. simpl. by rewrite H. Qed.

Lemma py_max_Permutation (l l' : list N) : l ≡ₚ l' -> py_max l = py_max l'.
Proof. unfold py_max. induction 1; simpl; lia. Qed.


(** The allocator does not depend on the order in which the used
    identifiers are listed. *)
Lemma allocate_Permutation desired_id (used used' : list string) :
  used ≡ₚ used' -> allocate desired_id used = allocate desired_id used'.
Proof.
  intros Hp. unfold allocate, get_unique_task_id. simpl.
  rewrite (bool_decide_ext (desired_id ∈ used) (desired_id ∈ used')) by (by rewrite Hp).
  destruct (bool_decide _); simpl; [|done].
  destruct (re_compile _) as [pat|e]; simpl; [|done].
  unfold _find_id_suffixes. simpl.
  by rewrite (py_max_Permutation _ (omap (re_match pat) used' ++ [0%N])) by (by rewrite Hp).
Qed.

Import AllocateSpec.




Lemma re_split_head_unfold s :
  re_split_head s =
    match match_suffix s with
    | Some _ => EmptyString
    | None => match s with
              | EmptyString => EmptyString
              | String c r => String c (re_split_head r)
              end
    end.
Proof. by destruct s. Qed.









(** The example of the specification. *)
Lemma allocate_gap_example : allocate "t" ["t"; "t__1"; "t__3"] = Ok "t__4".
Proof. reflexivity. Qed.

End TaskIdFacts.

(** ** The identifier allocated is not in use *)

Section FreshFacts.
Import PyStr TaskId.

#[local] Arguments Ascii.eqb : simpl never.

Lemma scan_digits_acc (d : Decimal.uint) (acc : positive) :
  scan_digits (Npos acc) (NilEmpty.string_of_uint d) = Some (Npos (Pos.of_uint_acc d acc)).
Proof.
  revert acc. induction d; intros acc; [done|..];
    cbn [NilEmpty.string_of_uint scan_digits Pos.of_uint_acc];
    (replace (is_digit _) with true by reflexivity); cbv iota;
    rewrite <- IHd; f_equal; unfold digit_value, code; cbn [N_of_ascii N_of_digits]; lia.
Qed.

Lemma scan_digits_zero (d : Decimal.uint) :
  scan_digits 0 (NilEmpty.string_of_uint d) = Some (Pos.of_uint d).
Proof.
  induction d; [done|..]; cbn [NilEmpty.string_of_uint scan_digits Pos.of_uint];
    (replace (is_digit _) with true by reflexivity); cbv iota;
    [exact IHd|rewrite <- scan_digits_acc; f_equal..].
Qed.

Lemma match_suffix_str_of_N (n : N) :
  (0 < n)%N -> match_suffix ("__" +:+ str_of_N n) = Some n.
Proof.
  destruct n as [|p]; [lia|]. intros _. unfold str_of_N.
  change (N.to_uint (N.pos p)) with (Pos.to_uint p).
  pose proof (scan_digits_zero (Pos.to_uint p)) as Hscan.
  rewrite Unsigned.of_to in Hscan.
  pose proof (Unsigned.to_uint_nonnil p) as Hnil.
  destruct (Pos.to_uint p); [done|exact Hscan..].
Qed.

Lemma re_match_own_stem (s : string) (pat : list atom) (t : string) :
  re_compile s = Ok pat -> re_match pat (s +:+ t) = match_suffix t.
Proof.
  revert pat. induction s as [|c r IH]; intros pat; [by intros [= <-]|].
  cbn [re_compile]. destruct (Ascii.eqb_spec c ".") as [->|Hdot].
  - destruct (re_compile r) as [rest|]; [|done]. intros [= <-].
    change (String "." r +:+ t) with (String "." (r +:+ t)).
    cbn [re_match atom_matches]. by apply IH.
  - destruct (has_char c re_special); [done|].
    destruct (re_compile r) as [rest|]; [|done]. intros [= <-].
    change (String c r +:+ t) with (String c (r +:+ t)).
    cbn [re_match atom_matches]. rewrite Ascii.eqb_refl. by apply IH.
Qed.

Lemma py_max_ge (x : N) (l : list N) : x ∈ l -> (x <= py_max l)%N.
Proof.
  unfold py_max. induction l as [|y l IH]; [by intros ?%elem_of_nil|].
  intros [->|Hx]%elem_of_cons; simpl; [lia|]. specialize (IH Hx). lia.
Qed.

(** The identifier [get_unique_task_id] returns against the task ids of a
    DAG, with no task group, is none of them. *)
Lemma allocate_fresh (desired_id : string) (used_ids : list string) (id : string) :
  allocate desired_id used_ids = Ok id -> id ∉ used_ids.
Proof.
  unfold allocate, get_unique_task_id.
  cbn [py_or tg_task_id_of no_context TaskGroupContext_get_current task_ids].
  destruct (bool_decide (desired_id ∈ used_ids)) eqn:Hin; cbn [negb].
  - destruct (re_compile _) as [pat|] eqn:Hpat; [|done]. cbn [mbind result_bind].
    intros [= <-] Hused.
    set (m := py_max (_find_id_suffixes pat _)) in *.
    assert (m + 1 <= m)%N; [|lia]. subst m. apply py_max_ge.
    unfold _find_id_suffixes at 2. cbn [task_ids]. apply elem_of_app. left.
    apply list_elem_of_omap. eexists. split; [exact Hused|].
    rewrite (re_match_own_stem _ _ _ Hpat). apply match_suffix_str_of_N. lia.
  - intros [= <-]. by apply bool_decide_eq_false in Hin.
Qed.

End FreshFacts.

(** ** The allocator of the specification *)

(** C8.  An identifier that is not among the used identifiers comes back
    unchanged. *)
Theorem allocate_unused (desired_id : string) (used_ids : list string) :
  desired_id ∉ used_ids -> TaskId.allocate desired_id used_ids = Ok desired_id.
Proof.
  intros Hfresh. unfold TaskId.allocate.
  by apply get_unique_task_id_unused
       with (d := {| TaskId.dag_id := "dag"; TaskId.task_ids := used_ids |}).
Qed.

Lemma allocate_unused_witness :
  ("extract" ∉ ["load"; "load__1"]) /\
  TaskId.allocate "extract" ["load"; "load__1"] = Ok "extract".
Proof.
  assert ("extract" ∉ ["load"; "load__1"]) as Hfresh.
  { apply (bool_decide_unpack _). vm_compute. exact I. }
  split; [exact Hfresh|]. exact (allocate_unused "extract" ["load"; "load__1"] Hfresh).
Defined.

(** C2.  The identifier [etl.load] is in use, together with
    [etl_load__2].  No used identifier is [etl.load__<digits>], so the
    allocator of the specification answers [etl.load__1];
    [get_unique_task_id] reads the stem as a regular expression, in which
    the dot matches the underscore of [etl_load__2], and answers
    [etl.load__3]. *)
Theorem allocate_dotted_stem :
  ("etl.load" ∈ ["etl.load"; "etl_load__2"]) /\
  AllocateSpec.allocate_spec "etl.load" ["etl.load"; "etl_load__2"] = "etl.load__1" /\
  TaskId.allocate "etl.load" ["etl.load"; "etl_load__2"] = Ok "etl.load__3".
Proof. split; [apply list_elem_of_here|]. by vm_compute. Qed.

(** ** Dictionaries *)

Section DictFacts.
Import Py.

Lemma dict_get_elem_of k v (d : dict) : dict_get k d = Some v -> (k, v) ∈ d.
Proof.
  induction d as [|[k' v'] d IH]; [done|]. simpl.
  destruct (String.eqb_spec k k') as [->|Hne].
  - intros [= ->]. apply list_elem_of_here.
  - intros H. apply list_elem_of_further. by apply IH.
Qed.

Lemma dict_get_None k (d : dict) : dict_get k d = None <-> k ∉ dict_keys d.
Proof.
  induction d as [|[k' v'] d IH]; simpl.
  - split; [intros _; apply not_elem_of_nil|done].
  - rewrite not_elem_of_cons. destruct (String.eqb_spec k k') as [->|Hne].
    + split; [done|]. by intros [? _].
    + rewrite IH. tauto.
Qed.

Lemma dict_mem_elem_of k (d : dict) : dict_mem k d = true <-> k ∈ dict_keys d.
Proof.
  unfold dict_mem. pose proof (dict_get_None k d) as H.
  destruct (dict_get k d).
  - split; [|done]. intros _. destruct (decide (k ∈ dict_keys d)); [done|].
    by apply H in n.
  - split; [done|]. intros Hin. by apply H in Hin.
Qed.

Lemma dict_get_set_eq k v (d : dict) : dict_get k (dict_set k v d) = Some v.
Proof.
  induction d as [|[k' v'] d IH]; simpl.
  - by rewrite String.eqb_refl.
  - destruct (String.eqb_spec k k') as [->|Hne]; simpl.
    + by rewrite String.eqb_refl.
    + by destruct (String.eqb_spec k k').
Qed.

Lemma dict_get_set_ne k k' v (d : dict) :
  k ≠ k' -> dict_get k (dict_set k' v d) = dict_get k d.
Proof.
  intros Hne. induction d as [|[k0 v0] d IH]; simpl.
  - by destruct (String.eqb_spec k k').
  - destruct (String.eqb_spec k' k0) as [->|Hne0]; simpl.
    + by destruct (String.eqb_spec k k0).
    + by rewrite IH.
Qed.

Lemma dict_get_remove_ne k k' (d : dict) :
  k ≠ k' -> dict_get k (dict_remove k' d) = dict_get k d.
Proof.
  intros Hne. induction d as [|[k0 v0] d IH]; simpl; [done|].
  destruct (String.eqb_spec k' k0) as [->|Hne0]; simpl.
  - by destruct (String.eqb_spec k k0).
  - by rewrite IH.
Qed.

Lemma dict_get_update_r k v (d other : dict) :
  dict_get k other = Some v -> NoDup (dict_keys other) ->
  dict_get k (dict_update d other) = Some v.
Proof.
  unfold dict_update. revert d.
  induction other as [|[k' v'] other IH]; intros d; [done|]. simpl.
  intros Hget Hnd. apply NoDup_cons in Hnd as [Hk' Hnd].
  destruct (String.eqb_spec k k') as [->|Hne].
  - injection Hget as ->. clear IH.
    assert (forall d', dict_get k' d' = Some v ->
              dict_get k' (foldl (fun acc kv => dict_set kv.1 kv.2 acc) d' other) = Some v) as Hkeep.
    { induction other as [|[k0 v0] other IH]; intros d' Hd'; [done|]. simpl.
      apply not_elem_of_cons in Hk' as [Hne Hk']. apply NoDup_cons in Hnd as [_ Hnd].
      apply IH; [done..|]. by rewrite dict_get_set_ne. }
    apply Hkeep, dict_get_set_eq.
  - by apply IH.
Qed.

Lemma dict_get_update_l k (d other : dict) :
  k ∉ dict_keys other -> dict_get k (dict_update d other) = dict_get k d.
Proof.
  unfold dict_update. revert d.
  induction other as [|[k' v'] other IH]; intros d Hk; [done|]. simpl.
  simpl in Hk. apply not_elem_of_cons in Hk as [Hne Hk].
  rewrite IH by done. by apply dict_get_set_ne.
Qed.

Lemma dict_get_setdefault_ne k k' v (d : dict) :
  k ≠ k' -> dict_get k (dict_setdefault k' v d) = dict_get k d.
Proof.
  intros Hne. unfold dict_setdefault. destruct (dict_mem k' d); [done|].
  by apply dict_get_set_ne.
Qed.

(** With one entry per key, removing a key filters it out. *)
Lemma dict_remove_filter k (d : dict) :
  NoDup (dict_keys d) ->
  dict_remove k d = List.filter (fun kv => negb (String.eqb k kv.1)) d.
Proof.
  induction d as [|[k' v'] d IH]; [done|]. simpl. intros Hnd.
  apply NoDup_cons in Hnd as [Hk' Hnd].
  destruct (String.eqb_spec k k') as [->|Hne]; simpl.
  - clear IH. induction d as [|[k0 v0] d IH]; [done|]. simpl in *.
    apply not_elem_of_cons in Hk' as [Hne Hk']. apply NoDup_cons in Hnd as [_ Hnd].
    destruct (String.eqb_spec k' k0) as [->|_]; [done|]. simpl. f_equal. by apply IH.
  - f_equal. by apply IH.
Qed.

Lemma dict_keys_filter (P : string -> bool) (d : dict) :
  dict_keys (List.filter (fun kv => P kv.1) d) = List.filter P (dict_keys d).
Proof.
  induction d as [|[k v] d IH]; [done|]. simpl. destruct (P k); simpl; by rewrite IH.
Qed.

Lemma NoDup_keys_filter (P : string * value -> bool) (d : dict) :
  NoDup (dict_keys d) -> NoDup (dict_keys (List.filter P d)).
Proof.
  induction d as [|[k v] d IH]; [done|]. simpl. intros Hnd.
  apply NoDup_cons in Hnd as [Hk Hnd]. destruct (P (k, v)); simpl; [|by apply IH].
  apply NoDup_cons. split; [|by apply IH].
  intros Hin. apply Hk. unfold dict_keys in *. apply list_elem_of_fmap in Hin as [[k' v'] [-> Hin]].
  apply list_elem_of_fmap. exists (k', v'). split; [done|].
  apply list_elem_of_In in Hin. apply List.filter_In in Hin as [Hin _].
  by apply list_elem_of_In.
Qed.

Lemma filter_filter {A} (P Q : A -> bool) (l : list A) :
  List.filter P (List.filter Q l) = List.filter (fun x => Q x && P x) l.
Proof.
  induction l as [|x l IH]; [done|]. simpl.
  destruct (Q x); simpl; [destruct (P x)|]; by rewrite IH.
Qed.

Lemma filter_ext_in {A} (P Q : A -> bool) (l : list A) :
  (forall x, x ∈ l -> P x = Q x) -> List.filter P l = List.filter Q l.
Proof.
  intros H. apply List.filter_ext_in. intros x Hx. apply H. by apply list_elem_of_In.
Qed.

End DictFacts.

(** ** Validation of argument names *)

Section ValidationFacts.
Import PyStr Py Decorator.

Lemma elem_of_mappable_names (function : Callable) k :
  k ∈ elements (_mappable_function_argument_names function)
  <-> k ∈ map name (parameters function).
Proof.
  unfold _mappable_function_argument_names.
  by rewrite elem_of_elements, elem_of_list_to_set.
Qed.

(** When no supplied value is rejected for its type, the loop over the
    mappable names leaves the entries whose key is none of them. *)
Lemma pop_mappable_Ok func (names : list string) (kw : dict) :
  NoDup (dict_keys kw) ->
  (func = "expand" -> forall k v, (k, v) ∈ kw -> k ∈ names -> is_mappable v = true) ->
  pop_mappable func names kw
  = Ok (List.filter (fun kv => negb (bool_decide (kv.1 ∈ names))) kw).
Proof.
  revert kw. induction names as [|n names IH]; intros kw Hnd Hmap.
  - cbn [pop_mappable]. f_equal. symmetry.
    rewrite <- (List.filter_true kw) at 2. apply filter_ext_in. intros x _.
    by rewrite bool_decide_false by apply not_elem_of_nil.
  - cbn [pop_mappable]. unfold dict_pop.
    assert (pop_mappable func names (dict_remove n kw)
            = Ok (List.filter (fun kv => negb (bool_decide (kv.1 ∈ n :: names))) kw)) as Hrest.
    { rewrite dict_remove_filter by done. rewrite IH.
      - f_equal. rewrite filter_filter. apply filter_ext_in. intros [k v] _. simpl.
        destruct (String.eqb_spec n k) as [->|Hne]; simpl.
        + by rewrite bool_decide_true by apply list_elem_of_here.
        + destruct (decide (k ∈ names)) as [Hin|Hnin].
          * rewrite !bool_decide_true; [done| |done]. by apply list_elem_of_further.
          * rewrite !bool_decide_false; [done| |done].
            rewrite not_elem_of_cons. split; [congruence|done].
      - by apply NoDup_keys_filter.
      - intros Hf k v Hin Hk. apply (Hmap Hf k v).
        + apply list_elem_of_In in Hin. apply List.filter_In in Hin as [Hin _].
          by apply list_elem_of_In.
        + by apply list_elem_of_further. }
    destruct (dict_get n kw) as [v|] eqn:Hget; [|done].
    destruct (String.eqb_spec func "expand") as [Hf|Hf]; simpl; [|done].
    rewrite (Hmap Hf n v); [done| |apply list_elem_of_here].
    by apply dict_get_elem_of.
Qed.

(** A value that is no collection stops the validation for [expand]. *)
Lemma pop_mappable_unmappable (names : list string) (kw : dict) :
  (exists k v, k ∈ names /\ dict_get k kw = Some v /\ is_mappable v = false) ->
  exists msg, pop_mappable "expand" names kw = Raise (ValueError msg).
Proof.
  revert kw. induction names as [|n names IH]; intros kw (k & v & Hk & Hget & Hv).
  - by apply elem_of_nil in Hk.
  - cbn [pop_mappable]. unfold dict_pop.
    destruct (dict_get n kw) as [v'|] eqn:Hn.
    + destruct (is_mappable v') eqn:Hv'; simpl; [|eauto].
      apply IH. exists k, v. apply elem_of_cons in Hk as [->|Hk]; [congruence|].
      destruct (decide (k = n)) as [->|Hne]; [congruence|].
      by rewrite dict_get_remove_ne.
    + apply IH. exists k, v. apply elem_of_cons in Hk as [->|Hk]; [congruence|].
      destruct (decide (k = n)) as [->|Hne]; [congruence|].
      by rewrite dict_get_remove_ne.
Qed.

Lemma elem_of_dict_get k v (d : dict) :
  NoDup (dict_keys d) -> (k, v) ∈ d -> dict_get k d = Some v.
Proof.
  induction d as [|[k' v'] d IH]; intros Hnd Hin; [by apply elem_of_nil in Hin|].
  simpl in *. apply NoDup_cons in Hnd as [Hk' Hnd].
  apply elem_of_cons in Hin as [[= -> ->]|Hin]; [by rewrite String.eqb_refl|].
  destruct (String.eqb_spec k k') as [->|Hne]; [|by apply IH].
  exfalso. apply Hk'. apply list_elem_of_fmap. by exists (k', v).
Qed.

Lemma validate_arg_names_catch_all function func (K : dict) :
  existsb is_VAR_KEYWORD (parameters function) = true ->
  ExpandableFactory_validate_arg_names function func K = Ok tt.
Proof. intros H. unfold ExpandableFactory_validate_arg_names. by rewrite H. Qed.

Lemma validate_arg_names_no_catch_all function func (K : dict) :
  existsb is_VAR_KEYWORD (parameters function) = false ->
  NoDup (dict_keys K) ->
  (func = "expand" ->
   forall k v, dict_get k K = Some v -> k ∈ map name (parameters function) ->
               is_mappable v = true) ->
  ExpandableFactory_validate_arg_names function func K =
    match unexpected_keywords function K with
    | [n] => Raise (TypeError (func +:+ "() got an unexpected keyword argument " +:+ repr n))
    | [] => Ok tt
    | ns => Raise (TypeError (func +:+ "() got unexpected keyword arguments "
                              +:+ join ", " (map repr ns)))
    end.
Proof.
  intros Hkw Hnd Hmap. unfold ExpandableFactory_validate_arg_names. rewrite Hkw.
  rewrite pop_mappable_Ok; [|done|].
  - cbn [mbind result_bind].
    pose proof (dict_keys_filter
                  (fun k => negb (bool_decide
                     (k ∈ elements (_mappable_function_argument_names function)))) K) as Hk.
    cbv beta in Hk. rewrite Hk. clear Hk.
    unfold unexpected_keywords.
    rewrite (filter_ext_in _
               (fun k => negb (bool_decide (k ∈ map name (parameters function))))); [done|].
    intros k _. f_equal. apply bool_decide_ext, elem_of_mappable_names.
  - intros Hf k v Hin Hk. apply (Hmap Hf k v).
    + by apply elem_of_dict_get.
    + by apply elem_of_mappable_names.
Qed.

End ValidationFacts.

(** C7 (as amended).  With a catch-all keyword parameter every supplied
    key is accepted.  Without one, and when validation is not stopped by
    the type check of [expand] (the validation is for [partial], or every
    value supplied under a declared name is a collection or a deferred
    reference), the supplied keys that are no declared parameter name
    decide the outcome: none, and validation succeeds; exactly one, and a
    [TypeError] names it; several, and a [TypeError] lists them all,
    comma-joined, in the insertion order of the supplied arguments. *)
Theorem validate_arg_names_unexpected
    (function : Decorator.Callable) (func : string) (K : Py.dict) :
  (existsb Decorator.is_VAR_KEYWORD (Decorator.parameters function) = true ->
   Decorator.ExpandableFactory_validate_arg_names function func K = Ok tt)
  /\
  (existsb Decorator.is_VAR_KEYWORD (Decorator.parameters function) = false ->
   NoDup (Py.dict_keys K) ->
   (func = "expand" ->
    forall k v, Py.dict_get k K = Some v ->
                k ∈ map Decorator.name (Decorator.parameters function) ->
                Py.is_mappable v = true) ->
   Decorator.ExpandableFactory_validate_arg_names function func K =
     match Decorator.unexpected_keywords function K with
     | [] => Ok tt
     | [n] => Raise (TypeError (func +:+ "() got an unexpected keyword argument "
                                +:+ PyStr.repr n))
     | ns => Raise (TypeError (func +:+ "() got unexpected keyword arguments "
                               +:+ PyStr.join ", " (map PyStr.repr ns)))
     end).
Proof.
  split.
  - apply validate_arg_names_catch_all.
  - intros Hkw Hnd Hmap. rewrite validate_arg_names_no_catch_all by done.
    by destruct (Decorator.unexpected_keywords function K) as [|? [|? ?]].
Qed.

Lemma validate_arg_names_unexpected_witness :
  existsb Decorator.is_VAR_KEYWORD (Decorator.parameters Samples.f_xy) = false /\
  NoDup (Py.dict_keys Samples.collections_xyzw) /\
  Decorator.ExpandableFactory_validate_arg_names Samples.f_xy "expand"
    Samples.collections_xyzw
  = Raise (TypeError "expand() got unexpected keyword arguments 'z', 'w'").
Proof.
  set (K := Samples.collections_xyzw).
  assert (NoDup (Py.dict_keys K)) as Hnd.
  { apply (bool_decide_unpack _). vm_compute. exact I. }
  split; [reflexivity|]. split; [exact Hnd|].
  refine (eq_trans
            (proj2 (validate_arg_names_unexpected Samples.f_xy "expand" K) eq_refl Hnd _) _).
  - intros _ k v. subst K. unfold Samples.collections_xyzw. cbn [Py.dict_get].
    repeat (destruct (String.eqb k _); [by intros [= <-]|]). done.
  - reflexivity.
Defined.

(** C7 (counterexample).  [def f(x, y)] has no catch-all parameter and the
    supplied [{x: 1, z: 2}] has exactly one key that is no parameter name,
    [z]; validated for [expand], the outcome is not the error naming [z]
    but the [ValueError] about the type of [x]. *)
Lemma validate_arg_names_type_error_first :
  existsb Decorator.is_VAR_KEYWORD (Decorator.parameters Samples.f_xy) = false /\
  Decorator.unexpected_keywords Samples.f_xy Samples.scalars_xz = ["z"] /\
  Decorator.ExpandableFactory_validate_arg_names Samples.f_xy "expand" Samples.scalars_xz
  = Raise (ValueError "expand() got an unexpected type 'int' for keyword argument 'x'") /\
  Decorator.ExpandableFactory_validate_arg_names Samples.f_xy "partial" Samples.scalars_xz
  = Raise (TypeError "partial() got an unexpected keyword argument 'z'").
Proof. by vm_compute. Qed.

(** ** Expansion: [expand] and [expand_kwargs] *)

Section ExpansionFacts.
Import PyStr TaskId Py Decorator.
Variable rt : Collaborators.

Lemma check_items_Ok kwargs' (items : list value) :
  forallb is_reference_or_mapping items = true -> check_items kwargs' items = Ok tt.
Proof.
  induction items as [|item items IH]; [done|]. cbn [forallb check_items].
  intros H. apply andb_true_iff in H as [Hi Hr]. unfold is_reference_or_mapping in Hi.
  rewrite Hi. cbn [negb]. by apply IH.
Qed.

(** An item of another shape stops the loop with a [TypeError] that
    carries the type name of the whole argument. *)
Lemma check_items_bad kwargs' (items : list value) :
  forallb is_reference_or_mapping items = false ->
  check_items kwargs' items
  = Raise (TypeError ("expected XComArg or list[dict], not " +:+ type_name kwargs')).
Proof.
  induction items as [|item items IH]; [done|]. cbn [forallb check_items].
  unfold is_reference_or_mapping at 1.
  destruct (is_XComArg item || is_Mapping item); [|done]. cbn [negb andb]. apply IH.
Qed.

Lemma existsb_append {A} (f : A -> bool) (l l' : list A) :
  existsb f (l ++ l') = existsb f l || existsb f l'.
Proof. induction l as [|x l IH]; [done|]. simpl. by rewrite IH, orb_assoc. Qed.

Lemma existsb_id_map {A} (f : A -> bool) (l : list A) :
  existsb id (map f l) = existsb f l.
Proof. induction l as [|x l IH]; [done|]. simpl. by rewrite IH. Qed.

Lemma xcomarg_flags_shapes (items : list value) :
  forallb is_reference_or_mapping items = true ->
  exists flags, xcomarg_flags items = Ok flags
                /\ existsb id flags = existsb has_deferred_value items.
Proof.
  induction items as [|item items IH]; [by exists []|]. cbn [forallb].
  intros H. apply andb_true_iff in H as [Hi Hr]. destruct (IH Hr) as (flags & Hf & He).
  cbn [xcomarg_flags existsb]. destruct item; try discriminate Hi.
  - cbn [is_XComArg py_values mbind result_bind]. rewrite Hf.
    eexists. split; [done|]. rewrite existsb_append, existsb_id_map, He. done.
  - cbn [is_XComArg]. exists flags. by rewrite Hf, He.
Qed.

(** With another trigger rule, or for a single deferred reference, the
    check against the "always" rule lets [expand_kwargs] through. *)
Lemma expand_kwargs_single_reference self task_id key strict :
  expand_kwargs rt self (VXComArg task_id key) strict
  = _expand rt self (ListOfDictsExpandInput (VXComArg task_id key)) strict.
Proof. unfold expand_kwargs. cbn [is_XComArg negb]. by rewrite andb_false_r. Qed.

Lemma expand_kwargs_bad_item self (items : list value) strict :
  eq_ALWAYS (dict_get "trigger_rule" (kwargs self)) = false ->
  forallb is_reference_or_mapping items = false ->
  expand_kwargs rt self (VList items) strict
  = Raise (TypeError "expected XComArg or list[dict], not list").
Proof.
  intros Hrule Hbad. unfold expand_kwargs. rewrite Hrule.
  cbn [andb mbind result_bind is_Sequence py_iter].
  by rewrite check_items_bad.
Qed.

End ExpansionFacts.

(** C6.  Whatever the decorator holds (partial arguments, trigger rule,
    flags), [expand] with no keyword argument raises the [TypeError]
    "no arguments to expand against", and leaves the decorator as it was. *)
Theorem expand_nothing (rt : Decorator.Collaborators) (self : Decorator._TaskDecorator) :
  Decorator.expand rt self []
  = (Raise (TypeError "no arguments to expand against"), self).
Proof.
  unfold Decorator.expand. cbn [Py.dict_values map existsb]. by rewrite andb_false_r.
Qed.




(** C4.  A list with an item that is neither a deferred reference nor a
    mapping is refused with a [TypeError], but the message names the type
    of the list, not the type of the item ([int] here); under the "always"
    trigger rule the same list does not reach that check and fails with an
    [AttributeError]. *)
Theorem expand_kwargs_names_the_argument :
  Py.type_name (Py.VInt 1) = "int" /\
  Decorator.expand_kwargs Samples.plain (Samples.task Samples.g_a [] false)
    (Py.VList [Py.VInt 1]) true
  = Raise (TypeError "expected XComArg or list[dict], not list") /\
  Decorator.expand_kwargs Samples.plain Samples.always_g (Py.VList [Py.VInt 1]) true
  = Raise (AttributeError "'int' object has no attribute 'values'").
Proof. by vm_compute. Qed.

(** ** Teardown tasks and partial arguments *)

Section TeardownFacts.
Import PyStr TaskId Py Decorator.
Variable rt : Collaborators.

Lemma NoDup_keys_remove k (d : dict) : NoDup (dict_keys d) -> NoDup (dict_keys (dict_remove k d)).
Proof. intros H. rewrite dict_remove_filter by done. by apply NoDup_keys_filter. Qed.

Lemma dict_keys_set k v (d : dict) :
  dict_keys (dict_set k v d) = if dict_mem k d then dict_keys d else (dict_keys d ++ [k])%list.
Proof.
  unfold dict_mem. induction d as [|[k' v'] d IH]; [done|]. simpl.
  destruct (String.eqb_spec k k') as [->|Hne]; [done|]. simpl. rewrite IH.
  by destruct (dict_get k d).
Qed.

Lemma NoDup_keys_set k v (d : dict) : NoDup (dict_keys d) -> NoDup (dict_keys (dict_set k v d)).
Proof.
  intros H. rewrite dict_keys_set. destruct (dict_mem k d) eqn:Hm; [done|].
  apply NoDup_app. split; [done|]. split; [|apply NoDup_singleton].
  intros x Hx Hk. apply list_elem_of_singleton in Hk as ->.
  apply dict_mem_elem_of in Hx. congruence.
Qed.

Lemma convert_field_get fld convert (d d' : dict) k :
  k ≠ fld -> convert_field fld convert d = Ok d' -> dict_get k d' = dict_get k d.
Proof.
  intros Hne. unfold convert_field. destruct (dict_get fld d) as [v|]; [|by intros [= <-]].
  destruct (convert v) as [v'|e]; [|done]. cbn [mbind result_bind].
  intros [= <-]. by apply dict_get_set_ne.
Qed.

Ltac next_stage H :=
  match type of H with
  | mbind _ ?x = Ok _ =>
      destruct x eqn:?; cbn [mbind result_bind] in H; [|discriminate H]
  end.

(** A [trigger_rule] among the keyword arguments of the decorator is the
    trigger rule of the mapped operator [_expand] builds. *)
Lemma _expand_trigger_rule self expand_input strict m v :
  NoDup (dict_keys (kwargs self)) ->
  dict_get "trigger_rule" (kwargs self) = Some v ->
  _expand rt self expand_input strict = Ok m ->
  m_trigger_rule m = Some v.
Proof.
  intros Hnd Hv H. unfold _expand, dict_pop in H.
  do 4 next_stage H.
  match type of H with
  | context [let (_, _) := ?merged in _] => destruct merged as [default_args partial_params]
  end.
  set (task_kwargs :=
         dict_remove "default_args" (dict_remove "params"
           (dict_remove "task_group" (dict_remove "dag" (kwargs self))))) in *.
  assert (dict_get "trigger_rule" task_kwargs = Some v) as Htk.
  { subst task_kwargs. by rewrite !dict_get_remove_ne. }
  assert (NoDup (dict_keys task_kwargs)) as Hndtk.
  { subst task_kwargs. by do 4 apply NoDup_keys_remove. }
  match type of H with
  | context [dict_update ?d task_kwargs] =>
      pose proof (dict_get_update_r "trigger_rule" v d task_kwargs Htk Hndtk) as Hpk;
      set (partial_kwargs := dict_update d task_kwargs) in *
  end.
  destruct (dict_get "task_id" partial_kwargs) as [task_id_v|]; [|discriminate H].
  do 4 next_stage H.
  match type of H with
  | context [mbind _ ?x] => destruct x eqn:?; cbn [mbind result_bind] in H; [|discriminate H]
  end.
  do 5 next_stage H. injection H as <-. unfold m_trigger_rule. cbn [m_partial_kwargs].
  rewrite !dict_get_setdefault_ne by done.
  repeat match goal with
  | Hc : convert_field ?fld _ _ = Ok ?d' |- context [dict_get "trigger_rule" ?d'] =>
      rewrite (convert_field_get fld _ _ d' "trigger_rule" ltac:(done) Hc); clear Hc
  end.
  rewrite !dict_get_remove_ne by done.
  match goal with
  | |- context [if ?b then _ else _] => destruct b
  end; [rewrite dict_get_set_ne by done|]; by rewrite dict_get_remove_ne.
Qed.

Lemma pop_mappable_error func names (kw : dict) e :
  pop_mappable func names kw = Raise e -> is_construction_error e = true.
Proof.
  revert kw. induction names as [|n names IH]; intros kw; [done|].
  cbn [pop_mappable]. unfold dict_pop. destruct (dict_get n kw) as [v|]; [|apply IH].
  destruct (String.eqb func "expand" && negb (is_mappable v)); [|apply IH].
  by intros [= <-].
Qed.

Lemma _validate_arg_names_error self func (kw : dict) e :
  _validate_arg_names rt self func kw = Raise e -> is_construction_error e = true.
Proof.
  unfold _validate_arg_names.
  destruct (elements _) as [|n [|n' ns]]; [|by intros [= <-]..].
  unfold ExpandableFactory_validate_arg_names.
  destruct (existsb _ _); [done|].
  destruct (pop_mappable _ _ _) as [left|e'] eqn:Hpop; cbn [mbind result_bind].
  - destruct (dict_keys left) as [|k [|k' ks]]; [done|by intros [= <-]..].
  - intros [= <-]. by eapply pop_mappable_error.
Qed.

Lemma prevent_duplicates_error (kwargs1 kwargs2 : dict) reason e :
  prevent_duplicates kwargs1 kwargs2 reason = Raise e -> is_construction_error e = true.
Proof.
  unfold prevent_duplicates. destruct (elements _) as [|k [|k' ks]]; [done|by intros [= <-]..].
Qed.

Lemma teardown_trigger_rule_supplied self :
  is_teardown self = true -> dict_mem "trigger_rule" (kwargs self) = true ->
  teardown_trigger_rule self
  = Raise (ValueError "Trigger rule not configurable for teardown tasks.").
Proof. intros Ht Hm. unfold teardown_trigger_rule. by rewrite Ht, Hm. Qed.

Lemma teardown_trigger_rule_forces self self' :
  is_teardown self = true -> teardown_trigger_rule self = Ok self' ->
  self' = with_kwargs self
            (dict_set "trigger_rule" (VTriggerRule ALL_DONE_SETUP_SUCCESS) (kwargs self))
  /\ dict_mem "trigger_rule" (kwargs self) = false.
Proof.
  intros Ht. unfold teardown_trigger_rule. rewrite Ht.
  destruct (dict_mem _ _); [done|]. by intros [= <-].
Qed.

Lemma __call___teardown_supplied self args kw :
  is_teardown self = true -> dict_mem "trigger_rule" (kwargs self) = true ->
  __call__ self args kw
  = (Raise (ValueError "Trigger rule not configurable for teardown tasks."), self).
Proof. intros Ht Hm. unfold __call__. by rewrite teardown_trigger_rule_supplied. Qed.

Lemma __call___teardown_kwargs self args kw :
  is_teardown self = true -> dict_mem "trigger_rule" (kwargs self) = false ->
  kwargs (__call__ self args kw).2
  = dict_remove "on_failure_fail_dagrun"
      (dict_set "trigger_rule" (VTriggerRule ALL_DONE_SETUP_SUCCESS) (kwargs self)).
Proof.
  intros Ht Hm. unfold __call__, teardown_trigger_rule. by rewrite Ht, Hm.
Qed.

(** What a successful call has gone through. *)
Lemma __call___Ok self args kw op :
  (__call__ self args kw).1 = Ok op ->
  exists self',
    teardown_trigger_rule self = Ok self'
    /\ op_call op
       = {| call_python_callable := function self';
            call_op_args := args;
            call_op_kwargs := kw;
            call_multiple_outputs := multiple_outputs self';
            call_kwargs := dict_remove "on_failure_fail_dagrun" (kwargs self') |}
    /\ op_is_setup op = is_setup self'
    /\ op_is_teardown op = is_teardown self'
    /\ op_on_failure_fail_dagrun op
       = default (VBool (on_failure_fail_dagrun self'))
           (dict_get "on_failure_fail_dagrun" (kwargs self'))
    /\ set_attribute (operator_class self') (op_call op)
         [("is_setup", VBool (is_setup self')); ("is_teardown", VBool (is_teardown self'))]
         "on_failure_fail_dagrun" (op_on_failure_fail_dagrun op) = Ok tt.
Proof.
  unfold __call__.
  destruct (teardown_trigger_rule self) as [self'|]; [|done]. intros Hop. exists self'.
  split; [done|]. revert Hop. unfold dict_pop.
  cbn [fst with_kwargs kwargs operator_class function multiple_outputs is_setup is_teardown
       on_failure_fail_dagrun].
  destruct (check_keywords _ _); [|done]. cbn [mbind result_bind].
  destruct (construct _ _); [|done]. cbn [mbind result_bind].
  destruct (set_attribute _ _ [] _ _); [|done]. cbn [mbind result_bind].
  destruct (set_attribute _ _ [_] _ _); [|done]. cbn [mbind result_bind].
  destruct (set_attribute _ _ [_; _] _ _) as [[]|] eqn:Hset; [|done]. cbn [mbind result_bind].
  match goal with
  | |- context [mbind _ ?x] => destruct x; cbn [mbind result_bind]; [|done]
  end.
  intros [= <-]. cbn [op_call op_is_setup op_is_teardown op_on_failure_fail_dagrun].
  by rewrite Hset.
Qed.

Lemma __call___teardown_operator self args kw op :
  is_teardown self = true -> (__call__ self args kw).1 = Ok op ->
  op_trigger_rule op = Some (VTriggerRule ALL_DONE_SETUP_SUCCESS)
  /\ op_is_teardown op = true.
Proof.
  intros Ht H. apply __call___Ok in H as (self' & Hself & Hcall & _ & Hteardown & _).
  apply teardown_trigger_rule_forces in Hself as [-> _]; [|done].
  unfold op_trigger_rule. rewrite Hcall, Hteardown. cbn [call_kwargs is_teardown with_kwargs kwargs].
  split; [|done]. rewrite dict_get_remove_ne by done. apply dict_get_set_eq.
Qed.

(** The call updates the keyword arguments of the decorator in place: a
    later call of the same teardown decorator finds the trigger rule there. *)
Lemma __call___teardown_again self args kw args' kw' :
  is_teardown self = true -> dict_mem "trigger_rule" (kwargs self) = false ->
  (__call__ (__call__ self args kw).2 args' kw').1
  = Raise (ValueError "Trigger rule not configurable for teardown tasks.").
Proof.
  intros Ht Hm. rewrite __call___teardown_supplied; [done| |].
  - unfold __call__, teardown_trigger_rule. by rewrite Ht, Hm.
  - rewrite __call___teardown_kwargs by done. unfold dict_mem.
    rewrite dict_get_remove_ne by done. by rewrite dict_get_set_eq.
Qed.

(** [expand_kwargs] has no teardown block: it hands the keyword arguments
    of the decorator to [_expand] as they are. *)
Lemma expand_kwargs_teardown self items strict :
  eq_ALWAYS (dict_get "trigger_rule" (kwargs self)) = false ->
  forallb is_reference_or_mapping items = true ->
  expand_kwargs rt self (VList items) strict
  = _expand rt self (ListOfDictsExpandInput (VList items)) strict.
Proof.
  intros Hrule Hshape. unfold expand_kwargs. rewrite Hrule.
  cbn [andb mbind result_bind is_Sequence py_iter]. by rewrite check_items_Ok.
Qed.

Lemma expand_teardown_supplied self (map_kwargs : dict) :
  is_teardown self = true -> dict_mem "trigger_rule" (kwargs self) = true ->
  exists e, (expand rt self map_kwargs).1 = Raise e /\ is_construction_error e = true.
Proof.
  intros Ht Hm. unfold expand.
  destruct (_ && _); [by eexists|]. destruct map_kwargs as [|kv rest]; [by eexists|].
  destruct (_validate_arg_names _ _ _ _) as [[]|e] eqn:Hv;
    [|exists e; split; [done|by eapply _validate_arg_names_error]].
  destruct (prevent_duplicates _ _ _) as [[]|e] eqn:Hp;
    [|exists e; split; [done|by eapply prevent_duplicates_error]].
  rewrite teardown_trigger_rule_supplied by done. by eexists.
Qed.

(** Once the earlier checks of [expand] have passed, a trigger rule given
    to a teardown task is what stops it. *)
Lemma expand_teardown_supplied_checked self (map_kwargs : dict) :
  is_teardown self = true -> dict_mem "trigger_rule" (kwargs self) = true ->
  eq_ALWAYS (dict_get "trigger_rule" (kwargs self))
    && existsb is_XComArg (dict_values map_kwargs) = false ->
  map_kwargs ≠ [] ->
  _validate_arg_names rt self "expand" map_kwargs = Ok tt ->
  prevent_duplicates (kwargs self) map_kwargs "mapping already partial" = Ok tt ->
  expand rt self map_kwargs
  = (Raise (ValueError "Trigger rule not configurable for teardown tasks."), self).
Proof.
  intros Ht Hm Hal Hne Hv Hp. unfold expand. rewrite Hal.
  destruct map_kwargs as [|kv rest]; [done|].
  by rewrite Hv, Hp, teardown_trigger_rule_supplied.
Qed.

Lemma expand_teardown_operator self (map_kwargs : dict) m :
  is_teardown self = true -> NoDup (dict_keys (kwargs self)) ->
  (expand rt self map_kwargs).1 = Ok m ->
  m_trigger_rule m = Some (VTriggerRule ALL_DONE_SETUP_SUCCESS).
Proof.
  intros Ht Hnd. unfold expand.
  destruct (_ && _); [done|]. destruct map_kwargs as [|kv rest]; [done|].
  destruct (_validate_arg_names _ _ _ _); [|done].
  destruct (prevent_duplicates _ _ _); [|done].
  destruct (teardown_trigger_rule self) as [self'|] eqn:Hself; [|done].
  apply teardown_trigger_rule_forces in Hself as [-> _]; [|done].
  cbn [fst]. apply _expand_trigger_rule.
  - by apply NoDup_keys_set.
  - apply dict_get_set_eq.
Qed.

End TeardownFacts.

(** Where the trigger rule of a teardown decorator is forced: when its
    keyword arguments already hold a trigger rule, calling it raises the
    [ValueError] "Trigger rule not configurable for teardown tasks." and
    [expand] raises an error too (that one, once its earlier checks have
    passed); otherwise the call sets the trigger rule of the decorator to
    [ALL_DONE_SETUP_SUCCESS], and every operator a call returns and every
    mapped operator [expand] returns has that trigger rule. *)
Theorem teardown_trigger_rule_is_forced
    (rt : Decorator.Collaborators) (self : Decorator._TaskDecorator) :
  Decorator.is_teardown self = true ->
  NoDup (Py.dict_keys (Decorator.kwargs self)) ->
  (forall args op_kwargs,
     (Py.dict_mem "trigger_rule" (Decorator.kwargs self) = true ->
      (Decorator.__call__ self args op_kwargs).1
      = Raise (ValueError "Trigger rule not configurable for teardown tasks."))
     /\
     (Py.dict_mem "trigger_rule" (Decorator.kwargs self) = false ->
      Py.dict_get "trigger_rule" (Decorator.kwargs (Decorator.__call__ self args op_kwargs).2)
      = Some (Py.VTriggerRule Py.ALL_DONE_SETUP_SUCCESS))
     /\
     (forall op,
        (Decorator.__call__ self args op_kwargs).1 = Ok op ->
        Decorator.op_trigger_rule op = Some (Py.VTriggerRule Py.ALL_DONE_SETUP_SUCCESS)))
  /\
  (forall map_kwargs,
     (Py.dict_mem "trigger_rule" (Decorator.kwargs self) = true ->
      (exists e, (Decorator.expand rt self map_kwargs).1 = Raise e
                 /\ is_construction_error e = true)
      /\
      (Py.eq_ALWAYS (Py.dict_get "trigger_rule" (Decorator.kwargs self))
         && existsb Py.is_XComArg (Py.dict_values map_kwargs) = false ->
       map_kwargs ≠ [] ->
       Decorator._validate_arg_names rt self "expand" map_kwargs = Ok tt ->
       Py.prevent_duplicates (Decorator.kwargs self) map_kwargs "mapping already partial"
       = Ok tt ->
       (Decorator.expand rt self map_kwargs).1
       = Raise (ValueError "Trigger rule not configurable for teardown tasks.")))
     /\
     (forall m,
        (Decorator.expand rt self map_kwargs).1 = Ok m ->
        Decorator.m_trigger_rule m = Some (Py.VTriggerRule Py.ALL_DONE_SETUP_SUCCESS))).
Proof.
  intros Ht Hnd. split.
  - intros args op_kwargs. split; [|split].
    + intros Hm. by rewrite __call___teardown_supplied.
    + intros Hm. rewrite __call___teardown_kwargs by done.
      rewrite dict_get_remove_ne by done. apply dict_get_set_eq.
    + intros op Hop. by apply (__call___teardown_operator self args op_kwargs op Ht).
  - intros map_kwargs. split.
    + intros Hm. split; [by apply expand_teardown_supplied|].
      intros Hal Hne Hv Hp. by rewrite expand_teardown_supplied_checked.
    + intros m Hm. by eapply expand_teardown_operator.
Qed.

Lemma teardown_trigger_rule_is_forced_witness :
  Decorator.is_teardown Samples.teardown_g = true /\
  NoDup (Py.dict_keys (Decorator.kwargs Samples.teardown_g)) /\
  (exists op,
     (Decorator.__call__ Samples.teardown_g [Py.VInt 1] []).1 = Ok op
     /\ Decorator.op_trigger_rule op = Some (Py.VTriggerRule Py.ALL_DONE_SETUP_SUCCESS)) /\
  (exists m,
     (Decorator.expand Samples.plain Samples.teardown_g [("a", Py.VList [Py.VInt 1])]).1 = Ok m
     /\ Decorator.m_trigger_rule m = Some (Py.VTriggerRule Py.ALL_DONE_SETUP_SUCCESS)).
Proof.
  assert (NoDup (Py.dict_keys (Decorator.kwargs Samples.teardown_g))) as Hnd.
  { apply (bool_decide_unpack _). vm_compute. exact I. }
  pose proof (teardown_trigger_rule_is_forced Samples.plain Samples.teardown_g eq_refl Hnd)
    as [Hcall Hexpand].
  split; [reflexivity|]. split; [exact Hnd|]. split.
  - eexists. split; [vm_compute; reflexivity|].
    apply (proj2 (proj2 (Hcall [Py.VInt 1] []))). vm_compute. reflexivity.
  - eexists. split; [vm_compute; reflexivity|].
    apply (proj2 (Hexpand [("a", Py.VList [Py.VInt 1])])). vm_compute. reflexivity.
Defined.

(** C5.  The rule of teardown tasks is not kept on every path.  For the
    teardown decorator of [def g(a)], [expand_kwargs] returns a mapped
    operator that is marked teardown and has no trigger rule, and it
    accepts a trigger rule the caller supplied and keeps it, where
    [expand] forces [ALL_DONE_SETUP_SUCCESS] and raises; and since the
    call writes the forced rule into the keyword arguments of the
    decorator, a second call raises though the caller supplied no trigger
    rule. *)
Theorem teardown_rule_not_forced_by_expand_kwargs :
  Decorator.is_teardown Samples.teardown_g = true
  /\ Decorator.is_teardown Examples.teardown_one_failed = true
  /\ (exists m,
        Decorator.expand_kwargs Samples.plain Samples.teardown_g
          (Py.VList [Py.VDict [("a", Py.VInt 1)]]) true = Ok m
        /\ Py.dict_get "is_teardown" (Decorator.m_partial_kwargs m) = Some (Py.VBool true)
        /\ Decorator.m_trigger_rule m = None)
  /\ (exists m,
        Decorator.expand_kwargs Samples.plain Examples.teardown_one_failed
          (Py.VList [Py.VDict [("a", Py.VInt 1)]]) true = Ok m
        /\ Py.dict_get "is_teardown" (Decorator.m_partial_kwargs m) = Some (Py.VBool true)
        /\ Decorator.m_trigger_rule m = Some (Py.VTriggerRule (Py.OTHER_RULE "one_failed")))
  /\ (exists m,
        (Decorator.expand Samples.plain Samples.teardown_g [("a", Py.VList [Py.VInt 1])]).1
        = Ok m
        /\ Decorator.m_trigger_rule m = Some (Py.VTriggerRule Py.ALL_DONE_SETUP_SUCCESS))
  /\ (Decorator.expand Samples.plain Examples.teardown_one_failed
        [("a", Py.VList [Py.VInt 1])]).1
     = Raise (ValueError "Trigger rule not configurable for teardown tasks.")
  /\ Py.dict_mem "trigger_rule" (Decorator.kwargs Samples.teardown_g) = false
  /\ (exists op, (Decorator.__call__ Samples.teardown_g [Py.VInt 1] []).1 = Ok op)
  /\ (Decorator.__call__ (Decorator.__call__ Samples.teardown_g [Py.VInt 1] []).2
        [Py.VInt 2] []).1
     = Raise (ValueError "Trigger rule not configurable for teardown tasks.").
Proof.
  split; [reflexivity|]. split; [reflexivity|].
  split; [eexists; split; [vm_compute; reflexivity|split; reflexivity]|].
  split; [eexists; split; [vm_compute; reflexivity|split; reflexivity]|].
  split; [eexists; split; [vm_compute; reflexivity|reflexivity]|].
  split; [vm_compute; reflexivity|]. split; [reflexivity|].
  split; [eexists; vm_compute; reflexivity|]. vm_compute. reflexivity.
Qed.

(** ** Partial arguments against mapped arguments *)

Section PartialFacts.
Import PyStr TaskId Py Decorator.

(** [prevent_duplicates] compares the keys of its two arguments and
    nothing else. *)
Lemma prevent_duplicates_disjoint (kwargs1 kwargs2 : dict) reason :
  (forall k, k ∈ dict_keys kwargs1 -> k ∉ dict_keys kwargs2) ->
  prevent_duplicates kwargs1 kwargs2 reason = Ok tt.
Proof.
  intros Hdis. unfold prevent_duplicates.
  replace (elements _) with (@nil string); [done|].
  symmetry. apply elements_empty_iff. intros k. rewrite elem_of_intersection.
  rewrite !elem_of_list_to_set. split; [|by intros ?%not_elem_of_empty].
  intros [H1 H2]. by destruct (Hdis k H1).
Qed.

Lemma prevent_duplicates_shared k (kwargs1 kwargs2 : dict) reason :
  k ∈ dict_keys kwargs1 -> k ∈ dict_keys kwargs2 ->
  exists msg, prevent_duplicates kwargs1 kwargs2 reason = Raise (TypeError msg).
Proof.
  intros H1 H2. unfold prevent_duplicates.
  destruct (elements _) as [|k' [|k'' ks]] eqn:He; [|by eexists..].
  apply elements_empty_iff in He. exfalso. apply (not_elem_of_empty (C:=gset string) k).
  apply He. rewrite elem_of_intersection, !elem_of_list_to_set. done.
Qed.

(** What [expand] compares the mapped names with are the keys of the
    keyword arguments of the decorator: whatever is bound under
    [op_kwargs], mapped names that are none of those keys pass. *)
Lemma expand_ignores_partial_arguments rt self (map_kwargs : dict) :
  eq_ALWAYS (dict_get "trigger_rule" (kwargs self))
    && existsb is_XComArg (dict_values map_kwargs) = false ->
  map_kwargs ≠ [] ->
  _validate_arg_names rt self "expand" map_kwargs = Ok tt ->
  (forall k, k ∈ dict_keys (kwargs self) -> k ∉ dict_keys map_kwargs) ->
  is_teardown self = false ->
  expand rt self map_kwargs
  = (_expand rt self (DictOfListsExpandInput map_kwargs) false, self).
Proof.
  intros Hal Hne Hv Hdis Ht. unfold expand. rewrite Hal.
  destruct map_kwargs as [|kv rest]; [done|].
  rewrite Hv, prevent_duplicates_disjoint by done.
  unfold teardown_trigger_rule. by rewrite Ht.
Qed.

(** Binding the same argument twice is refused by [partial]. *)
Lemma partial_twice :
  partial Samples.plain Samples.partial_g [("a", VInt 2)]
  = Raise (TypeError "duplicate partial argument: a").
Proof. by vm_compute. Qed.

End PartialFacts.

(** C1.  [partial(a=1)] binds [a] under the [op_kwargs] entry of the
    keyword arguments of the decorator.  The check of [expand] compares
    the mapped names with the keys of those keyword arguments themselves
    ([task_id], [op_kwargs]), so [expand(a=[1, 2])] raises nothing: it
    returns a mapped operator that holds [a] both as a partial and as a
    mapped argument and that does not check for it when unmapped, whereas
    the strict check of [_get_unmap_kwargs], on the partial arguments,
    raises "mapping already partial argument: a". *)
Theorem expand_accepts_partial_key :
  Decorator.partial Samples.plain (Samples.task Samples.g_a [] false) [("a", Py.VInt 1)]
  = Ok Samples.partial_g
  /\ exists m,
       (Decorator.expand Samples.plain Samples.partial_g
          [("a", Py.VList [Py.VInt 1; Py.VInt 2])]).1 = Ok m
       /\ Py.dict_get "op_kwargs" (Decorator.m_partial_kwargs m)
          = Some (Py.VDict [("a", Py.VInt 1)])
       /\ Decorator.m_op_kwargs_expand_input m
          = Decorator.DictOfListsExpandInput [("a", Py.VList [Py.VInt 1; Py.VInt 2])]
       /\ Decorator.m_disallow_kwargs_override m = false
       /\ Decorator._get_unmap_kwargs m [("op_kwargs", Py.VDict [("a", Py.VInt 2)])] true
          = Raise (TypeError "mapping already partial argument: a")
       /\ exists u,
            Decorator._get_unmap_kwargs m [("op_kwargs", Py.VDict [("a", Py.VInt 2)])] false
            = Ok u
            /\ Decorator.u_op_kwargs u = [("a", Py.VInt 2)].
Proof.
  split; [by vm_compute|]. eexists. split; [vm_compute; reflexivity|].
  do 4 (split; [by vm_compute|]). eexists. split; [vm_compute; reflexivity|done].
Qed.

(** ** The XCom client *)

Section XComFacts.
Import Py XCom.
Variable ch : Channel.

Lemma list_comprehension_Forall2 {A B} (f : A -> result B) (xs : list A) (ys : list B) :
  Forall2 (fun x y => f x = Ok y) xs ys -> list_comprehension f xs = Ok ys.
Proof.
  induction 1 as [|x y xs ys Hxy _ IH]; [done|].
  cbn [list_comprehension]. by rewrite Hxy, IH.
Qed.

Lemma list_comprehension_Ok {A B} (f : A -> result B) (xs : list A) (ys : list B) :
  list_comprehension f xs = Ok ys -> Forall2 (fun x y => f x = Ok y) xs ys.
Proof.
  revert ys. induction xs as [|x xs IH]; intros ys.
  - intros [= <-]. constructor.
  - cbn [list_comprehension]. destruct (f x) as [y|] eqn:Hy; [|done].
    cbn [mbind result_bind]. destruct (list_comprehension f xs) as [ys'|]; [|done].
    intros [= <-]. constructor; [done|]. by apply IH.
Qed.

(** A response of another kind is a [TypeError]. *)
Lemma get_one_unexpected key dag_id task_id run_id map_index include_prior_dates msg :
  send ch (SendGetXCom {| gx_key := key; gx_dag_id := dag_id; gx_task_id := task_id;
                          gx_run_id := run_id; gx_map_index := map_index;
                          gx_include_prior_dates := include_prior_dates |}) = Ok msg ->
  (forall r, msg ≠ IsXComResult r) ->
  exists text,
    get_one ch key dag_id task_id run_id map_index include_prior_dates
    = (Raise (TypeError text), []).
Proof.
  intros Hsend Hother. unfold get_one. rewrite Hsend.
  destruct msg as [r| |]; [by destruct (Hother r)|by eexists..].
Qed.

(** A value that is present is deserialized, and nothing is logged. *)
Lemma get_one_present key dag_id task_id run_id map_index include_prior_dates msg :
  send ch (SendGetXCom {| gx_key := key; gx_dag_id := dag_id; gx_task_id := task_id;
                          gx_run_id := run_id; gx_map_index := map_index;
                          gx_include_prior_dates := include_prior_dates |})
  = Ok (IsXComResult msg) ->
  xr_value msg ≠ JNull ->
  get_one ch key dag_id task_id run_id map_index include_prior_dates
  = (deserialize ch (xr_value msg), []).
Proof.
  intros Hsend Hval. unfold get_one. rewrite Hsend.
  unfold deserialize_value, value_of, XComResult_value.
  destruct (xr_value msg); [by destruct Hval|done..].
Qed.

End XComFacts.

(** C9.  When the supervisor answers a lookup with an [XComResult] whose
    value is absent, [get_one] returns [None], raising nothing, and logs
    one warning, "No XCom value found; defaulting to None.", with the
    coordinates of the lookup. *)
Theorem get_one_absent (ch : XCom.Channel) (key dag_id task_id run_id : string)
    (map_index : option Z) (include_prior_dates : bool) (msg : XCom.XComResult) :
  XCom.send ch
    (XCom.SendGetXCom
       {| XCom.gx_key := key; XCom.gx_dag_id := dag_id; XCom.gx_task_id := task_id;
          XCom.gx_run_id := run_id; XCom.gx_map_index := map_index;
          XCom.gx_include_prior_dates := include_prior_dates |})
  = Ok (XCom.IsXComResult msg) ->
  XCom.xr_value msg = XCom.JNull ->
  XCom.get_one ch key dag_id task_id run_id map_index include_prior_dates
  = (Ok Py.VNone,
     [ {| XCom.level := "warning";
          XCom.event := "No XCom value found; defaulting to None.";
          XCom.fields := [("key", XCom.LStr key); ("dag_id", XCom.LStr dag_id);
                          ("task_id", XCom.LStr task_id); ("run_id", XCom.LStr run_id);
                          ("map_index", XCom.log_index map_index)] |} ]).
Proof.
  intros Hsend Hval. unfold XCom.get_one. rewrite Hsend, Hval. reflexivity.
Qed.

Lemma get_one_absent_witness :
  XCom.xr_value {| XCom.xr_key := "return_value"; XCom.xr_value := XCom.JNull |} = XCom.JNull /\
  (XCom.get_one Samples.supervisor "return_value" "dag" "up" "run" (Some 0%Z) false).1
  = Ok Py.VNone.
Proof.
  split; [reflexivity|].
  by rewrite (get_one_absent Samples.supervisor "return_value" "dag" "up" "run" (Some 0%Z) false
                {| XCom.xr_key := "return_value"; XCom.xr_value := XCom.JNull |}
                eq_refl eq_refl).
Defined.

(** C10.  When the supervisor answers with a sequence slice, [get_all]
    returns [None] for a slice without values, not an empty list;
    for any other slice it deserializes the values from first to last,
    and when each deserializes it returns the list of the results in the
    order of the slice. *)
Theorem get_all_values (ch : XCom.Channel) (key dag_id task_id run_id : string)
    (include_prior_dates : bool) (root : list XCom.JsonValue) :
  XCom.send ch
    (XCom.SendGetXComSequenceSlice
       {| XCom.gs_key := key; XCom.gs_dag_id := dag_id; XCom.gs_task_id := task_id;
          XCom.gs_run_id := run_id; XCom.gs_start := None; XCom.gs_stop := None;
          XCom.gs_step := None; XCom.gs_include_prior_dates := include_prior_dates |})
  = Ok (XCom.IsXComSequenceSliceResult root) ->
  (root = [] ->
   XCom.get_all ch key dag_id task_id run_id include_prior_dates = Ok Py.VNone
   /\ Py.VNone ≠ Py.VList [])
  /\
  (root ≠ [] ->
   (forall values,
      Forall2 (fun json v => XCom.deserialize ch json = Ok v) root values ->
      XCom.get_all ch key dag_id task_id run_id include_prior_dates = Ok (Py.VList values))
   /\
   (forall v,
      XCom.get_all ch key dag_id task_id run_id include_prior_dates = Ok v ->
      exists values,
        v = Py.VList values
        /\ Forall2 (fun json v => XCom.deserialize ch json = Ok v) root values)).
Proof.
  intros Hsend. unfold XCom.get_all. rewrite Hsend. cbn [mbind result_bind]. split.
  - by intros ->.
  - intros Hne. destruct root as [|j root]; [done|]. split.
    + intros values Hall.
      match goal with
      | |- ?lc ≫= _ = _ => assert (lc = Ok values) as Hlc
      end.
      { exact (list_comprehension_Forall2 _ _ _ Hall). }
      by rewrite Hlc.
    + intros v.
      destruct (XCom.list_comprehension _ _) as [values|] eqn:Hlc; [|done].
      cbn [mbind result_bind]. intros [= <-]. exists values. split; [done|].
      by apply list_comprehension_Ok in Hlc.
Qed.

Lemma get_all_values_witness :
  XCom.get_all Samples.supervisor "return_value" "dag" "up" "run" false
  = Ok (Py.VList [Py.VInt 1; Py.VStr "two"; Py.VInt 3]).
Proof.
  apply (proj2 (get_all_values Samples.supervisor "return_value" "dag" "up" "run" false
                  [XCom.JNum 1; XCom.JStr "two"; XCom.JNum 3] eq_refl)); [done|].
  repeat constructor.
Defined.

(** * Further properties of the code *)

(** ** [get_unique_task_id] *)

Section TaskIdMore.
Import PyStr TaskId AllocateSpec.

#[local] Arguments Ascii.eqb : simpl never.
#[local] Arguments is_digit : simpl never.

Lemma append_cons (x : ascii) (a b : string) : String x a +:+ b = String x (a +:+ b).
Proof. reflexivity. Qed.

Lemma append_assoc (a b c : string) : (a +:+ b) +:+ c = a +:+ b +:+ c.
Proof. induction a as [|x a IH]; [done|]. by rewrite !append_cons, IH. Qed.

Lemma scan_digits_dot acc (x t : string) :
  scan_digits acc (x +:+ String "." t) = None.
Proof.
  revert acc. induction x as [|c x IH]; intros acc.
  - reflexivity.
  - change (String c x +:+ String "." t) with (String c (x +:+ String "." t)).
    cbn [scan_digits]. destruct (is_digit c); [apply IH|].
    destruct (Ascii.eqb c LF); [|done]. by destruct x.
Qed.

Lemma match_suffix_dot (x t : string) : match_suffix (x +:+ String "." t) = None.
Proof.
  destruct x as [|a [|b [|c x]]].
  - by destruct t as [|? [|? ?]].
  - change (match_suffix (String a (String "." t)) = None).
    unfold match_suffix. destruct t; [done|].
    replace (Ascii.eqb "." "_") with false by reflexivity. by rewrite andb_false_r.
  - change (match_suffix (String a (String b (String "." t))) = None).
    unfold match_suffix. replace (is_digit ".") with false by reflexivity.
    by rewrite andb_false_r.
  - change (match_suffix (String a (String b (String c (x +:+ String "." t)))) = None).
    unfold match_suffix. destruct (_ && _); [|done]. apply scan_digits_dot.
Qed.

(** The stem of an identifier prefixed by a group is the prefixed stem of
    the identifier. *)
Lemma re_split_head_prefixed (p t : string) :
  re_split_head (p +:+ String "." t) = p +:+ String "." (re_split_head t).
Proof.
  induction p as [|a p IH].
  - change (re_split_head (String "." t) = String "." (re_split_head t)).
    rewrite re_split_head_unfold.
    pose proof (match_suffix_dot EmptyString t) as Hdot.
    change (EmptyString +:+ String "." t) with (String "." t) in Hdot.
    by rewrite Hdot.
  - rewrite re_split_head_unfold, (match_suffix_dot (String a p) t).
    rewrite !append_cons. by rewrite IH.
Qed.

End TaskIdMore.

Lemma get_unique_task_id_unused_id
    (ctx : TaskId.Contexts) (task_id : string) (dag : option TaskId.DAG)
    (task_group : option TaskId.TaskGroup) (d : TaskId.DAG) (id : string) :
  py_or dag (TaskId.DagContext_get_current ctx) = Some d ->
  py_or task_group (TaskId.TaskGroupContext_get_current ctx (Some d)) = None ->
  TaskId.get_unique_task_id ctx task_id dag task_group = Ok id ->
  id ∉ TaskId.task_ids d.
Proof.
  intros Hdag Htg. unfold TaskId.get_unique_task_id. rewrite Hdag. cbv zeta.
  rewrite Htg. cbn [TaskId.tg_task_id_of].
  destruct (bool_decide (task_id ∈ TaskId.task_ids d)) eqn:Hin; cbn [negb].
  - destruct (TaskId.re_compile _) as [pat|] eqn:Hpat; [|done]. cbn [mbind result_bind].
    intros [= <-] Hused.
    set (m := TaskId.py_max (TaskId._find_id_suffixes pat d)) in *.
    assert (m + 1 <= m)%N; [|lia]. subst m. apply py_max_ge.
    unfold TaskId._find_id_suffixes at 2. apply elem_of_app. left.
    apply list_elem_of_omap. eexists. split; [exact Hused|].
    rewrite (re_match_own_stem _ _ _ Hpat). apply match_suffix_str_of_N. lia.
  - intros [= <-]. by apply bool_decide_eq_false in Hin.
Qed.


Lemma get_unique_task_id_unused_child_id
    (ctx : TaskId.Contexts) (task_id : string) (dag : option TaskId.DAG)
    (task_group : option TaskId.TaskGroup) (d : TaskId.DAG) (tg : TaskId.TaskGroup)
    (group_id id : string) :
  py_or dag (TaskId.DagContext_get_current ctx) = Some d ->
  py_or task_group (TaskId.TaskGroupContext_get_current ctx (Some d)) = Some tg ->
  (forall label, TaskId.child_id tg label = group_id +:+ String "." label) ->
  TaskId.get_unique_task_id ctx task_id dag task_group = Ok id ->
  TaskId.child_id tg id ∉ TaskId.task_ids d.
Proof.
  intros Hdag Htg Hchild. unfold TaskId.get_unique_task_id. rewrite Hdag. cbv zeta.
  rewrite Htg. cbn [TaskId.tg_task_id_of].
  destruct (bool_decide (TaskId.child_id tg task_id ∈ TaskId.task_ids d)) eqn:Hin;
    cbn [negb].
  - rewrite !Hchild. rewrite re_split_head_prefixed.
    destruct (TaskId.re_compile _) as [pat|] eqn:Hpat; [|done]. cbn [mbind result_bind].
    intros [= <-] Hused.
    set (m := TaskId.py_max (TaskId._find_id_suffixes pat d)) in *.
    assert (m + 1 <= m)%N; [|lia]. subst m. apply py_max_ge.
    unfold TaskId._find_id_suffixes at 2. apply elem_of_app. left.
    apply list_elem_of_omap. eexists. split; [exact Hused|].
    change (String "." (?s +:+ ?t)) with (String "." s +:+ t).
    rewrite <- (append_assoc group_id).
    rewrite (re_match_own_stem _ _ _ Hpat). apply match_suffix_str_of_N. lia.
  - intros [= <-]. by apply bool_decide_eq_false in Hin.
Qed.

(** X1.  With a DAG and no task group in effect, whenever
    [get_unique_task_id] returns an identifier, that identifier is none of
    the task ids of the DAG. *)
Theorem get_unique_task_id_fresh
    (ctx : TaskId.Contexts) (task_id : string) (dag : option TaskId.DAG)
    (task_group : option TaskId.TaskGroup) (d : TaskId.DAG) (id : string) :
  py_or dag (TaskId.DagContext_get_current ctx) = Some d ->
  py_or task_group (TaskId.TaskGroupContext_get_current ctx (Some d)) = None ->
  TaskId.get_unique_task_id ctx task_id dag task_group = Ok id ->
  id ∉ TaskId.task_ids d.
Proof. apply get_unique_task_id_unused_id. Qed.

Lemma get_unique_task_id_fresh_witness :
  TaskId.get_unique_task_id TaskId.no_context "load" (Some Examples.etl) None = Ok "load__8"
  /\ "load__8" ∉ TaskId.task_ids Examples.etl.
Proof.
  assert (TaskId.get_unique_task_id TaskId.no_context "load" (Some Examples.etl) None
          = Ok "load__8") as Hid by reflexivity.
  split; [exact Hid|].
  exact (get_unique_task_id_fresh TaskId.no_context "load" (Some Examples.etl) None
           Examples.etl "load__8" eq_refl eq_refl Hid).
Defined.

(** X2.  Inside a task group that names its children [<group_id>.<label>],
    whenever [get_unique_task_id] returns an identifier, the name the group
    gives to it is none of the task ids of the DAG. *)
Theorem get_unique_task_id_fresh_in_group
    (ctx : TaskId.Contexts) (task_id : string) (dag : option TaskId.DAG)
    (task_group : option TaskId.TaskGroup) (d : TaskId.DAG) (tg : TaskId.TaskGroup)
    (group_id id : string) :
  py_or dag (TaskId.DagContext_get_current ctx) = Some d ->
  py_or task_group (TaskId.TaskGroupContext_get_current ctx (Some d)) = Some tg ->
  (forall label, TaskId.child_id tg label = group_id +:+ String "." label) ->
  TaskId.get_unique_task_id ctx task_id dag task_group = Ok id ->
  TaskId.child_id tg id ∉ TaskId.task_ids d.
Proof. apply get_unique_task_id_unused_child_id. Qed.

Lemma get_unique_task_id_fresh_in_group_witness :
  TaskId.get_unique_task_id TaskId.no_context "fetch" (Some Examples.grouped)
    (Some Examples.extract_group) = Ok "fetch__2"
  /\ "extract.fetch__2" ∉ TaskId.task_ids Examples.grouped.
Proof.
  assert (TaskId.get_unique_task_id TaskId.no_context "fetch" (Some Examples.grouped)
            (Some Examples.extract_group) = Ok "fetch__2") as Hid by reflexivity.
  split; [exact Hid|].
  exact (get_unique_task_id_fresh_in_group TaskId.no_context "fetch"
           (Some Examples.grouped) (Some Examples.extract_group) Examples.grouped
           Examples.extract_group "extract" "fetch__2" eq_refl eq_refl
           (fun _ => eq_refl) Hid).
Defined.

(** X3.  The identifier returned depends on which task ids the DAG has, not
    on the order in which it lists them. *)
Theorem get_unique_task_id_order
    (ctx : TaskId.Contexts) (task_id : string) (d d' : TaskId.DAG)
    (task_group : option TaskId.TaskGroup) :
  TaskId.task_ids d ≡ₚ TaskId.task_ids d' ->
  TaskId.TaskGroupContext_get_current ctx (Some d)
  = TaskId.TaskGroupContext_get_current ctx (Some d') ->
  TaskId.get_unique_task_id ctx task_id (Some d) task_group
  = TaskId.get_unique_task_id ctx task_id (Some d') task_group.
Proof.
  intros Hp Hctx. unfold TaskId.get_unique_task_id. cbn [py_or]. cbv zeta.
  rewrite Hctx.
  set (tg_task_id := TaskId.tg_task_id_of _ task_id).
  rewrite (bool_decide_ext (tg_task_id ∈ TaskId.task_ids d)
             (tg_task_id ∈ TaskId.task_ids d')) by (by rewrite Hp).
  destruct (bool_decide _); [|done]. cbn [negb].
  destruct (TaskId.re_compile _) as [pat|e]; [|done]. cbn [mbind result_bind].
  unfold TaskId._find_id_suffixes.
  by rewrite (py_max_Permutation _ (omap (TaskId.re_match pat) (TaskId.task_ids d') ++ [0%N]))
    by (by rewrite Hp).
Qed.

Lemma get_unique_task_id_order_witness :
  TaskId.get_unique_task_id TaskId.no_context "load" (Some Examples.etl) None
  = TaskId.get_unique_task_id TaskId.no_context "load"
      (Some {| TaskId.dag_id := "etl"; TaskId.task_ids := ["load__7"; "load"; "load__1"] |})
      None.
Proof.
  apply get_unique_task_id_order; [|reflexivity].
  cbn [TaskId.task_ids Examples.etl].
  change ["load"; "load__1"; "load__7"] with (["load"; "load__1"] ++ ["load__7"])%list.
  change ["load__7"; "load"; "load__1"] with (["load__7"] ++ ["load"; "load__1"])%list.
  apply Permutation_app_comm.
Defined.



(** ** Argument validation *)

Section ValidationMore.
Import PyStr TaskId Py Decorator.

Lemma elem_of_dict_remove (x : string * value) k (d : dict) : x ∈ dict_remove k d -> x ∈ d.
Proof.
  induction d as [|[k' v'] d IH]; [done|]. cbn [dict_remove].
  destruct (String.eqb k k').
  - intros H. by apply list_elem_of_further.
  - intros [->|H]%elem_of_cons; [apply list_elem_of_here|].
    apply list_elem_of_further. by apply IH.
Qed.

Lemma pop_mappable_offender (names : list string) (kw : dict) n v :
  n ∈ names -> dict_get n kw = Some v -> is_mappable v = false ->
  (forall k w, k ≠ n -> (k, w) ∈ kw -> k ∈ names -> is_mappable w = true) ->
  pop_mappable "expand" names kw
  = Raise (ValueError ("expand() got an unexpected type " +:+ repr (type_name v)
                       +:+ " for keyword argument " +:+ repr n)).
Proof.
  revert kw. induction names as [|arg names IH]; intros kw Hn Hget Hv Hothers.
  - by apply elem_of_nil in Hn.
  - cbn [pop_mappable]. unfold dict_pop.
    replace (String.eqb "expand" "expand") with true by reflexivity. cbn [andb].
    destruct (decide (arg = n)) as [->|Hne].
    + by rewrite Hget, Hv.
    + apply elem_of_cons in Hn as [->|Hn]; [done|].
      assert (pop_mappable "expand" names (dict_remove arg kw)
              = Raise (ValueError ("expand() got an unexpected type " +:+ repr (type_name v)
                                   +:+ " for keyword argument " +:+ repr n))) as Hrest.
      { apply IH; [done| |done|].
        - by rewrite dict_get_remove_ne.
        - intros k w Hk Hin Hnames. apply (Hothers k w Hk).
          + by eapply elem_of_dict_remove.
          + by apply list_elem_of_further. }
      destruct (dict_get arg kw) as [w|] eqn:Hw; [|done].
      rewrite (Hothers arg w Hne); [done| |apply list_elem_of_here].
      by apply dict_get_elem_of.
Qed.

Lemma elements_one (X : gset string) n :
  n ∈ X -> (forall k, k ∈ X -> k = n) -> elements X = [n].
Proof.
  intros Hn Hall. pose proof (NoDup_elements X) as Hnd.
  assert (forall k, k ∈ elements X -> k = n) as Hall'.
  { intros k Hk. apply Hall. by apply elem_of_elements. }
  apply elem_of_elements in Hn.
  destruct (elements X) as [|a [|b l]].
  - by apply elem_of_nil in Hn.
  - f_equal. apply Hall'. apply list_elem_of_here.
  - exfalso. assert (a = n) as -> by (apply Hall'; apply list_elem_of_here).
    assert (b = n) as -> by (apply Hall'; apply list_elem_of_further, list_elem_of_here).
    apply NoDup_cons in Hnd as [Hnotin _]. apply Hnotin, list_elem_of_here.
Qed.

Lemma _validate_arg_names_context rt self func (K : dict) n :
  n ∈ KNOWN_CONTEXT_KEYS rt -> n ∈ dict_keys K ->
  exists msg,
    _validate_arg_names rt self func K = Raise (ValueError msg)
    /\ ((forall k, k ∈ KNOWN_CONTEXT_KEYS rt -> k ∈ dict_keys K -> k = n) ->
        msg = "cannot call " +:+ func +:+ "() on task context variable " +:+ repr n).
Proof.
  intros Hknown Hkey. unfold _validate_arg_names.
  set (X := KNOWN_CONTEXT_KEYS rt ∩ list_to_set (dict_keys K)).
  assert (n ∈ X) as Hn.
  { subst X. apply elem_of_intersection. split; [done|]. by apply elem_of_list_to_set. }
  destruct (elements X) as [|a [|b l]] eqn:Hel.
  - apply elem_of_elements in Hn. rewrite Hel in Hn. by apply elem_of_nil in Hn.
  - eexists. split; [done|]. intros _.
    apply elem_of_elements in Hn. rewrite Hel in Hn.
    by apply list_elem_of_singleton in Hn as ->.
  - eexists. split; [done|]. intros Hall. exfalso.
    rewrite (elements_one X n Hn) in Hel; [done|].
    intros k [Hk1 Hk2%elem_of_list_to_set]%elem_of_intersection. by apply Hall.
Qed.

End ValidationMore.

(** X5.  For a function without a catch-all parameter, when exactly one of
    its parameters is given to [expand] with a value that is not mappable,
    the check raises the [ValueError] that names the type of that value and
    that parameter, whatever other keywords are given. *)
Theorem expand_names_the_unmappable_argument
    (function : Decorator.Callable) (K : Py.dict) (n : string) (v : Py.value) :
  existsb Decorator.is_VAR_KEYWORD (Decorator.parameters function) = false ->
  n ∈ map Decorator.name (Decorator.parameters function) ->
  Py.dict_get n K = Some v ->
  Py.is_mappable v = false ->
  (forall k w, k ≠ n -> (k, w) ∈ K ->
               k ∈ map Decorator.name (Decorator.parameters function) ->
               Py.is_mappable w = true) ->
  Decorator.ExpandableFactory_validate_arg_names function "expand" K
  = Raise (ValueError ("expand() got an unexpected type " +:+ PyStr.repr (Py.type_name v)
                       +:+ " for keyword argument " +:+ PyStr.repr n)).
Proof.
  intros Hcatch Hn Hget Hv Hothers. unfold Decorator.ExpandableFactory_validate_arg_names.
  rewrite Hcatch. rewrite (pop_mappable_offender _ K n v); [done| |done|done|].
  - by apply elem_of_mappable_names.
  - intros k w Hk Hin Hnames. apply (Hothers k w Hk Hin). by apply elem_of_mappable_names.
Qed.

Lemma expand_names_the_unmappable_argument_witness :
  Decorator.ExpandableFactory_validate_arg_names Samples.f_xy "expand"
    [("z", Py.VInt 2); ("y", Py.VList []); ("x", Py.VStr "abc")]
  = Raise (ValueError "expand() got an unexpected type 'str' for keyword argument 'x'").
Proof.
  refine (expand_names_the_unmappable_argument Samples.f_xy
            [("z", Py.VInt 2); ("y", Py.VList []); ("x", Py.VStr "abc")]
            "x" (Py.VStr "abc") eq_refl _ eq_refl eq_refl _).
  - apply (bool_decide_unpack _). vm_compute. exact I.
  - intros k w Hk Hin Hnames.
    apply elem_of_cons in Hin as [[= -> ->]|Hin].
    { exfalso. revert Hnames. apply (bool_decide_unpack _). vm_compute. exact I. }
    apply elem_of_cons in Hin as [[= -> ->]|Hin]; [reflexivity|].
    apply list_elem_of_singleton in Hin as [= -> ->]. by destruct Hk.
Defined.

(** X6.  A keyword that is a task context variable makes
    [_TaskDecorator._validate_arg_names] raise a [ValueError], for
    [expand] and for [partial], also when the function has a catch-all
    parameter or a parameter of that name; when it is the only such keyword
    the message is [cannot call <func>() on task context variable '<name>']. *)
Theorem context_variable_is_refused
    (rt : Decorator.Collaborators) (self : Decorator._TaskDecorator) (func : string)
    (K : Py.dict) (n : string) :
  n ∈ Decorator.KNOWN_CONTEXT_KEYS rt ->
  n ∈ Py.dict_keys K ->
  exists msg,
    Decorator._validate_arg_names rt self func K = Raise (ValueError msg)
    /\ ((forall k, k ∈ Decorator.KNOWN_CONTEXT_KEYS rt -> k ∈ Py.dict_keys K -> k = n) ->
        msg = "cannot call " +:+ func +:+ "() on task context variable " +:+ PyStr.repr n).
Proof. apply _validate_arg_names_context. Qed.

Lemma context_variable_is_refused_witness :
  exists msg,
    Decorator._validate_arg_names Samples.plain (Samples.task Samples.f_xy [] false)
      "partial" [("x", Py.VInt 1); ("ti", Py.VInt 2)]
    = Raise (ValueError msg).
Proof.
  destruct (context_variable_is_refused Samples.plain (Samples.task Samples.f_xy [] false)
              "partial" [("x", Py.VInt 1); ("ti", Py.VInt 2)] "ti") as [msg [Hmsg _]].
  - apply (bool_decide_unpack _). vm_compute. exact I.
  - apply (bool_decide_unpack _). vm_compute. exact I.
  - exists msg. exact Hmsg.
Defined.

(** X7.  [partial] and [expand] never accept a task context variable among
    their keywords: each raises a [ValueError], and [expand] leaves the
    decorator as it is. *)
Theorem partial_and_expand_refuse_context_variables
    (rt : Decorator.Collaborators) (self : Decorator._TaskDecorator)
    (K : Py.dict) (n : string) :
  n ∈ Decorator.KNOWN_CONTEXT_KEYS rt ->
  n ∈ Py.dict_keys K ->
  (exists msg, Decorator.partial rt self K = Raise (ValueError msg))
  /\ (exists msg, Decorator.expand rt self K = (Raise (ValueError msg), self)).
Proof.
  intros Hknown Hkey. split.
  - destruct (_validate_arg_names_context rt self "partial" K n Hknown Hkey) as [msg [Hmsg _]].
    exists msg. unfold Decorator.partial. by rewrite Hmsg.
  - destruct (_validate_arg_names_context rt self "expand" K n Hknown Hkey) as [msg [Hmsg _]].
    unfold Decorator.expand. destruct (_ && _); [by eexists|].
    destruct K as [|kv K]; [by apply elem_of_nil in Hkey|].
    exists msg. by rewrite Hmsg.
Qed.

Lemma partial_and_expand_refuse_context_variables_witness :
  (exists msg, Decorator.partial Samples.plain (Samples.task Samples.f_xy [] false)
                 [("ds", Py.VStr "2024-01-01")] = Raise (ValueError msg))
  /\ (exists msg, Decorator.expand Samples.plain (Samples.task Samples.f_xy [] false)
                    [("ds", Py.VStr "2024-01-01")]
                  = (Raise (ValueError msg), Samples.task Samples.f_xy [] false)).
Proof.
  apply (partial_and_expand_refuse_context_variables Samples.plain
           (Samples.task Samples.f_xy [] false) [("ds", Py.VStr "2024-01-01")] "ds").
  - apply (bool_decide_unpack _). vm_compute. exact I.
  - apply (bool_decide_unpack _). vm_compute. exact I.
Defined.

(** ** The decorator: construction, calls, [partial] and [override] *)

Section DecoratorMore.
Import PyStr TaskId Py Decorator.

Lemma dict_get_setdefault_eq k v (d : dict) :
  dict_get k (dict_setdefault k v d) = Some (default v (dict_get k d)).
Proof.
  unfold dict_setdefault, dict_mem. destruct (dict_get k d) as [w|] eqn:Hw; [done|].
  apply dict_get_set_eq.
Qed.

Lemma dict_setdefault_mem k v (d : dict) :
  dict_mem k d = true -> dict_setdefault k v d = d.
Proof. intros H. unfold dict_setdefault. by rewrite H. Qed.

Lemma dict_get_remove_eq k (d : dict) :
  NoDup (dict_keys d) -> dict_get k (dict_remove k d) = None.
Proof.
  induction d as [|[k' v'] d IH]; [done|]. cbn [dict_keys map fst].
  intros [Hnotin Hnd]%NoDup_cons. cbn [dict_remove].
  destruct (String.eqb_spec k k') as [->|Hne].
  - by apply dict_get_None.
  - cbn [dict_get]. destruct (String.eqb_spec k k'); [done|]. by apply IH.
Qed.

Lemma dict_get_update k (d other : dict) :
  NoDup (dict_keys other) ->
  dict_get k (dict_update d other)
  = match dict_get k other with Some v => Some v | None => dict_get k d end.
Proof.
  intros Hnd. destruct (dict_get k other) as [v|] eqn:Hv.
  - by apply dict_get_update_r.
  - apply dict_get_update_l. by apply dict_get_None.
Qed.

Lemma teardown_trigger_rule_get self self' k :
  teardown_trigger_rule self = Ok self' -> k ≠ "trigger_rule" ->
  dict_get k (kwargs self') = dict_get k (kwargs self).
Proof.
  unfold teardown_trigger_rule. intros H Hk.
  destruct (is_teardown self); [|by injection H as <-].
  destruct (dict_mem _ _); [done|]. injection H as <-. cbn [kwargs with_kwargs].
  by apply dict_get_set_ne.
Qed.

Lemma teardown_trigger_rule_same self self' :
  teardown_trigger_rule self = Ok self' -> self' = with_kwargs self (kwargs self').
Proof.
  unfold teardown_trigger_rule. destruct (is_teardown self).
  - destruct (dict_mem _ _); [done|]. by intros [= <-].
  - intros [= <-]. by destruct self.
Qed.

Lemma teardown_trigger_rule_NoDup self self' :
  teardown_trigger_rule self = Ok self' -> NoDup (dict_keys (kwargs self)) ->
  NoDup (dict_keys (kwargs self')).
Proof.
  unfold teardown_trigger_rule. intros H Hnd.
  destruct (is_teardown self); [|by injection H as <-].
  destruct (dict_mem _ _); [done|]. injection H as <-. cbn [kwargs with_kwargs].
  by apply NoDup_keys_set.
Qed.

Lemma check_keywords_clash cls (kw : dict) k :
  k ∈ call_keywords -> k ∈ dict_keys kw ->
  exists msg, check_keywords cls kw = Raise (TypeError msg).
Proof.
  intros Hcall Hkey. unfold check_keywords.
  destruct (List.filter _ _) as [|k' l] eqn:Hf; [|by eexists].
  exfalso. assert (k ∈ List.filter (fun k => bool_decide (k ∈ call_keywords)) (dict_keys kw)) as Hin.
  { apply list_elem_of_In, filter_In. split; [by apply list_elem_of_In|].
    by apply bool_decide_eq_true. }
  rewrite Hf in Hin. by apply elem_of_nil in Hin.
Qed.

Lemma dict_get_Some_keys k v (d : dict) : dict_get k d = Some v -> k ∈ dict_keys d.
Proof.
  intros H. destruct (decide (k ∈ dict_keys d)) as [|Hn]; [done|].
  apply dict_get_None in Hn. congruence.
Qed.

Lemma partial_Ok rt self (K : dict) d :
  partial rt self K = Ok d ->
  exists merged,
    merged = dict_update K (match dict_get "op_kwargs" (kwargs self) with
                            | Some (VDict o) => o
                            | _ => []
                            end)
    /\ d = with_kwargs self
             (dict_setdefault "task_id" (VStr (fn_name (function self)))
                (dict_set "op_kwargs" (VDict merged) (kwargs self))).
Proof.
  unfold partial. destruct (_validate_arg_names _ _ _ _); [|done]. cbn [mbind result_bind].
  destruct (dict_get "op_kwargs" (kwargs self)) as [[]|] eqn:Hold; cbn [mbind result_bind];
    try done.
  - destruct (prevent_duplicates _ _ _); [|done]. cbn [mbind result_bind].
    unfold __attrs_post_init__. cbn [function with_kwargs kwargs decorator_name].
    destruct (bool_decide _); [done|]. intros [= <-]. by eexists.
  - destruct (prevent_duplicates _ _ _); [|done]. cbn [mbind result_bind].
    unfold __attrs_post_init__. cbn [function with_kwargs kwargs decorator_name].
    destruct (bool_decide _); [done|]. intros [= <-]. by eexists.
Qed.

End DecoratorMore.

(** X8.  The bare form [@task] and the called form [@task(...)] build the
    same decorator for a function; its [task_id] is the one given among the
    keyword arguments, or else the name of the function. *)
Theorem task_decorator_factory_forms
    (at_ : Factory.Attrs) (f : Decorator.Callable) (multiple_outputs : option bool)
    (cls : Decorator.OperatorClass) (kw : Py.dict) :
  Factory.task_decorator_factory at_ Factory.NoArgument multiple_outputs cls kw
  = Ok (Factory.AFactory multiple_outputs cls kw)
  /\ Factory.task_decorator_factory at_ (Factory.AFunction f) multiple_outputs cls kw
     = match (Factory.decorator_factory at_ multiple_outputs cls kw (Factory.AFunction f)).1 with
       | Ok d => Ok (Factory.ADecorator d)
       | Raise e => Raise e
       end
  /\ forall d,
       Factory.task_decorator_factory at_ (Factory.AFunction f) multiple_outputs cls kw
       = Ok (Factory.ADecorator d) ->
       Decorator.function d = f
       /\ Py.dict_get "task_id" (Decorator.kwargs d)
          = Some (default (Py.VStr (Decorator.fn_name f)) (Py.dict_get "task_id" kw)).
Proof.
  split; [done|]. split.
  - unfold Factory.task_decorator_factory, Factory.decorator_factory.
    cbn [Factory.arg_truthy]. by destruct (Factory.new_TaskDecorator _ _ _ _ _).
  - intros d. unfold Factory.task_decorator_factory, Factory.new_TaskDecorator.
    cbn [Factory.arg_truthy]. unfold Decorator.__attrs_post_init__.
    cbn [Decorator.function Decorator.kwargs Decorator.decorator_name Decorator.with_kwargs].
    destruct (bool_decide _); [done|]. cbn [mbind result_bind]. intros [= <-].
    split; [done|]. cbn [Decorator.kwargs]. apply dict_get_setdefault_eq.
Qed.

(** X9.  The closure [@task(...)] returns keeps one dictionary of keyword
    arguments, which decorating a function updates in place: a second
    function decorated with the same closure gets the keyword arguments of
    the first, and with them, unless a [task_id] was given, the name of the
    first function as its [task_id]. *)
Theorem decorator_factory_reuse
    (at_ : Factory.Attrs) (multiple_outputs : option bool) (cls : Decorator.OperatorClass)
    (kw kw1 kw2 : Py.dict) (f g : Decorator.Callable) (d1 d2 : Decorator._TaskDecorator) :
  Factory.decorator_factory at_ multiple_outputs cls kw (Factory.AFunction f) = (Ok d1, kw1) ->
  Factory.decorator_factory at_ multiple_outputs cls kw1 (Factory.AFunction g) = (Ok d2, kw2) ->
  Decorator.kwargs d2 = Decorator.kwargs d1
  /\ (Py.dict_mem "task_id" kw = false ->
      Py.dict_get "task_id" (Decorator.kwargs d2) = Some (Py.VStr (Decorator.fn_name f))).
Proof.
  unfold Factory.decorator_factory, Factory.new_TaskDecorator, Decorator.__attrs_post_init__.
  cbn [Decorator.function Decorator.kwargs Decorator.decorator_name Decorator.with_kwargs].
  destruct (bool_decide _); [done|]. intros [= <- <-].
  destruct (bool_decide _); [done|]. intros [= <- <-].
  cbn [Decorator.kwargs].
  assert (Py.dict_mem "task_id"
            (Py.dict_setdefault "task_id" (Py.VStr (Decorator.fn_name f)) kw) = true) as Hmem.
  { unfold Py.dict_mem. by rewrite dict_get_setdefault_eq. }
  rewrite (dict_setdefault_mem _ _ _ Hmem). split; [done|].
  intros Hnone. cbn [Decorator.kwargs Decorator.with_kwargs].
  rewrite dict_get_setdefault_eq. unfold Py.dict_mem in Hnone.
  by destruct (Py.dict_get "task_id" kw).
Qed.

Lemma decorator_factory_reuse_witness :
  exists d1 d2 kw1 kw2,
    Factory.decorator_factory Examples.attrs None Samples.PythonOperator
      [("retries", Py.VInt 3)] (Factory.AFunction Samples.f_xy) = (Ok d1, kw1)
    /\ Factory.decorator_factory Examples.attrs None Samples.PythonOperator
         kw1 (Factory.AFunction Samples.g_a) = (Ok d2, kw2)
    /\ Py.dict_get "task_id" (Decorator.kwargs d2) = Some (Py.VStr "f").
Proof.
  do 4 eexists.
  assert (Py.dict_mem "task_id" [("retries", Py.VInt 3)] = false) as Hmem by reflexivity.
  pose proof (decorator_factory_reuse Examples.attrs None Samples.PythonOperator
                [("retries", Py.VInt 3)] _ _ Samples.f_xy Samples.g_a _ _
                eq_refl eq_refl) as [_ Hid].
  split; [reflexivity|]. split; [reflexivity|]. exact (Hid Hmem).
Defined.

(** X10.  A decorator returned by [partial] cannot be called: unless it
    is a teardown decorator, every call raises a [TypeError], for the
    keyword [op_kwargs] is given to the operator twice. *)
Theorem partial_then_call
    (rt : Decorator.Collaborators) (self d : Decorator._TaskDecorator) (K : Py.dict)
    (args : list Py.value) (op_kwargs : Py.dict) :
  Decorator.partial rt self K = Ok d ->
  Decorator.is_teardown self = false ->
  exists msg, (Decorator.__call__ d args op_kwargs).1 = Raise (TypeError msg).
Proof.
  intros Hp Ht. apply partial_Ok in Hp as [merged [_ ->]].
  unfold Decorator.__call__, Decorator.teardown_trigger_rule.
  cbn [Decorator.is_teardown Decorator.with_kwargs]. rewrite Ht.
  unfold Py.dict_pop.
  cbn [Decorator.kwargs Decorator.with_kwargs Decorator.operator_class fst].
  destruct (check_keywords_clash (Decorator.operator_class self)
              (Py.dict_remove "on_failure_fail_dagrun"
                 (Py.dict_setdefault "task_id" (Py.VStr (Decorator.fn_name (Decorator.function self)))
                    (Py.dict_set "op_kwargs" (Py.VDict merged) (Decorator.kwargs self))))
              "op_kwargs") as [msg Hmsg].
  - apply (bool_decide_unpack _). vm_compute. exact I.
  - eapply dict_get_Some_keys. rewrite dict_get_remove_ne by done.
    rewrite dict_get_setdefault_ne by done. apply dict_get_set_eq.
  - exists msg. by rewrite Hmsg.
Qed.

Lemma partial_then_call_witness :
  exists msg,
    (Decorator.__call__ Samples.partial_g [] [("a", Py.VInt 2)]).1 = Raise (TypeError msg).
Proof.
  assert (Decorator.partial Samples.plain (Samples.task Samples.g_a [] false)
            [("a", Py.VInt 1)] = Ok Samples.partial_g) as Hp by (vm_compute; reflexivity).
  exact (partial_then_call Samples.plain (Samples.task Samples.g_a [] false)
           Samples.partial_g [("a", Py.VInt 1)] [] [("a", Py.VInt 2)] Hp eq_refl).
Defined.

(** X11.  A teardown decorator can be called once: the call writes the
    trigger rule into the keyword arguments of the decorator, and a second
    call of the same decorator raises the [ValueError]
    "Trigger rule not configurable for teardown tasks.". *)
Theorem teardown_decorator_called_twice
    (self : Decorator._TaskDecorator) (args args' : list Py.value) (kw kw' : Py.dict) :
  Decorator.is_teardown self = true ->
  Py.dict_mem "trigger_rule" (Decorator.kwargs self) = false ->
  (Decorator.__call__ (Decorator.__call__ self args kw).2 args' kw').1
  = Raise (ValueError "Trigger rule not configurable for teardown tasks.").
Proof. apply __call___teardown_again. Qed.

Lemma teardown_decorator_called_twice_witness :
  (exists op, (Decorator.__call__ Samples.teardown_g [Py.VInt 1] []).1 = Ok op)
  /\ (Decorator.__call__ (Decorator.__call__ Samples.teardown_g [Py.VInt 1] []).2
        [Py.VInt 2] []).1
     = Raise (ValueError "Trigger rule not configurable for teardown tasks.").
Proof.
  split; [eexists; reflexivity|].
  exact (teardown_decorator_called_twice Samples.teardown_g [Py.VInt 1] [Py.VInt 2] [] []
           eq_refl eq_refl).
Defined.

(** X12.  What a call that returns hands to the operator: the positional
    and keyword arguments of the call as [op_args] and [op_kwargs]; the
    keyword arguments of the decorator without [on_failure_fail_dagrun],
    which is assigned to the attribute of that name instead (the flag of
    the decorator when the keyword is not given), an assignment the
    operator has accepted; every other keyword but [trigger_rule]
    unchanged. *)
Theorem call_hands_over_keywords
    (self : Decorator._TaskDecorator) (args : list Py.value) (op_kwargs : Py.dict)
    (op : Decorator.DecoratedOperator) :
  NoDup (Py.dict_keys (Decorator.kwargs self)) ->
  (Decorator.__call__ self args op_kwargs).1 = Ok op ->
  Decorator.call_op_args (Decorator.op_call op) = args
  /\ Decorator.call_op_kwargs (Decorator.op_call op) = op_kwargs
  /\ Decorator.op_on_failure_fail_dagrun op
     = default (Py.VBool (Decorator.on_failure_fail_dagrun self))
         (Py.dict_get "on_failure_fail_dagrun" (Decorator.kwargs self))
  /\ Decorator.set_attribute (Decorator.operator_class self) (Decorator.op_call op)
       [("is_setup", Py.VBool (Decorator.is_setup self));
        ("is_teardown", Py.VBool (Decorator.is_teardown self))]
       "on_failure_fail_dagrun" (Decorator.op_on_failure_fail_dagrun op) = Ok tt
  /\ Py.dict_get "on_failure_fail_dagrun" (Decorator.call_kwargs (Decorator.op_call op)) = None
  /\ (forall k, k ≠ "on_failure_fail_dagrun" -> k ≠ "trigger_rule" ->
        Py.dict_get k (Decorator.call_kwargs (Decorator.op_call op))
        = Py.dict_get k (Decorator.kwargs self)).
Proof.
  intros Hnd Hop.
  apply __call___Ok in Hop as (self' & Hself & Hcall & _ & _ & Hflag & Hset).
  pose proof (teardown_trigger_rule_NoDup _ _ Hself Hnd) as Hnd'.
  pose proof (teardown_trigger_rule_same _ _ Hself) as Hsame.
  rewrite Hsame in Hflag, Hset.
  cbn [Decorator.with_kwargs Decorator.on_failure_fail_dagrun Decorator.operator_class
       Decorator.is_setup Decorator.is_teardown Decorator.kwargs] in Hflag, Hset.
  rewrite (teardown_trigger_rule_get _ _ _ Hself) in Hflag by done.
  rewrite Hcall in Hset. rewrite Hcall.
  cbn [Decorator.call_op_args Decorator.call_op_kwargs Decorator.call_kwargs].
  split; [done|]. split; [done|]. split; [exact Hflag|]. split; [exact Hset|]. split.
  - by apply dict_get_remove_eq.
  - intros k Hk1 Hk2. rewrite dict_get_remove_ne by done.
    by apply (teardown_trigger_rule_get _ _ _ Hself).
Qed.

Lemma call_hands_over_keywords_witness :
  exists op,
    (Decorator.__call__ Examples.cleanup_f [Py.VInt 1] [("y", Py.VInt 2)]).1 = Ok op
    /\ Decorator.op_on_failure_fail_dagrun op = Py.VBool true
    /\ Py.dict_get "on_failure_fail_dagrun" (Decorator.call_kwargs (Decorator.op_call op)) = None
    /\ Py.dict_get "retries" (Decorator.call_kwargs (Decorator.op_call op))
       = Some (Py.VInt 3).
Proof.
  eexists. split; [reflexivity|].
  assert (NoDup (Py.dict_keys (Decorator.kwargs Examples.cleanup_f))) as Hnd.
  { apply (bool_decide_unpack _). vm_compute. exact I. }
  destruct (call_hands_over_keywords Examples.cleanup_f [Py.VInt 1] [("y", Py.VInt 2)] _
              Hnd eq_refl) as (_ & _ & Hflag & _ & Hgone & Hrest).
  split; [exact Hflag|]. split; [exact Hgone|].
  exact (Hrest "retries" ltac:(discriminate) ltac:(discriminate)).
Defined.

(** X13.  [partial] accumulates: the decorator it returns holds, under
    [op_kwargs], the arguments bound before together with the new ones, and
    keeps the function and every other keyword argument of the decorator. *)
Theorem partial_accumulates
    (rt : Decorator.Collaborators) (self d : Decorator._TaskDecorator) (K old : Py.dict) :
  Decorator.partial rt self K = Ok d ->
  old = match Py.dict_get "op_kwargs" (Decorator.kwargs self) with
        | Some (Py.VDict o) => o
        | _ => []
        end ->
  NoDup (Py.dict_keys old) ->
  Decorator.function d = Decorator.function self
  /\ (exists merged,
        Py.dict_get "op_kwargs" (Decorator.kwargs d) = Some (Py.VDict merged)
        /\ forall k, Py.dict_get k merged
                     = match Py.dict_get k old with
                       | Some v => Some v
                       | None => Py.dict_get k K
                       end)
  /\ (forall k, k ≠ "op_kwargs" -> k ≠ "task_id" ->
        Py.dict_get k (Decorator.kwargs d) = Py.dict_get k (Decorator.kwargs self)).
Proof.
  intros Hp Hold Hnd. apply partial_Ok in Hp as [merged [Hmerged ->]].
  cbn [Decorator.function Decorator.kwargs Decorator.with_kwargs].
  split; [done|]. split.
  - exists merged. split.
    + rewrite dict_get_setdefault_ne by done. apply dict_get_set_eq.
    + intros k. rewrite Hmerged, <- Hold. by apply dict_get_update.
  - intros k Hk1 Hk2. rewrite dict_get_setdefault_ne by done. by apply dict_get_set_ne.
Qed.

Lemma partial_accumulates_witness :
  exists d merged,
    Decorator.partial Samples.plain Examples.partial_f_x [("y", Py.VInt 2)] = Ok d
    /\ Py.dict_get "op_kwargs" (Decorator.kwargs d) = Some (Py.VDict merged)
    /\ Py.dict_get "x" merged = Some (Py.VInt 1)
    /\ Py.dict_get "y" merged = Some (Py.VInt 2).
Proof.
  assert (exists d, Decorator.partial Samples.plain Examples.partial_f_x [("y", Py.VInt 2)]
                    = Ok d) as [d Hd] by (eexists; vm_compute; reflexivity).
  assert (NoDup (Py.dict_keys [("x", Py.VInt 1)])) as Hnd.
  { apply (bool_decide_unpack _). vm_compute. exact I. }
  destruct (partial_accumulates Samples.plain Examples.partial_f_x d [("y", Py.VInt 2)]
              [("x", Py.VInt 1)] Hd eq_refl Hnd) as (_ & (merged & Hget & Hlaw) & _).
  exists d, merged. split; [exact Hd|]. split; [exact Hget|].
  split; [exact (Hlaw "x")|exact (Hlaw "y")].
Defined.

(** X14.  [override] returns a decorator for the same function, with the
    same three flags, whose keyword arguments are those of the decorator
    with the given ones on top: a given keyword replaces the value the
    decorator had, every other keyword keeps it. *)
Theorem override_lookup
    (self d : Decorator._TaskDecorator) (K : Py.dict) :
  Decorator.override self K = Ok d ->
  NoDup (Py.dict_keys K) ->
  Py.dict_mem "task_id" (Decorator.kwargs self) = true ->
  (forall k, Py.dict_get k (Decorator.kwargs d)
             = match Py.dict_get k K with
               | Some v => Some v
               | None => Py.dict_get k (Decorator.kwargs self)
               end)
  /\ Decorator.function d = Decorator.function self
  /\ Decorator.is_setup d = Decorator.is_setup self
  /\ Decorator.is_teardown d = Decorator.is_teardown self
  /\ Decorator.on_failure_fail_dagrun d = Decorator.on_failure_fail_dagrun self.
Proof.
  intros Ho Hnd Hid. unfold Decorator.override, Decorator.__attrs_post_init__ in Ho.
  cbn [Decorator.function Decorator.kwargs Decorator.decorator_name Decorator.with_kwargs] in Ho.
  destruct (bool_decide _); [done|]. injection Ho as <-.
  cbn [Decorator.function Decorator.kwargs Decorator.with_kwargs Decorator.is_setup
       Decorator.is_teardown Decorator.on_failure_fail_dagrun].
  split; [|done]. intros k.
  assert (Py.dict_mem "task_id" (Py.dict_update (Decorator.kwargs self) K) = true) as Hmem.
  { unfold Py.dict_mem in *. rewrite dict_get_update by done.
    destruct (Py.dict_get "task_id" K); [done|]. exact Hid. }
  unfold Py.dict_setdefault. rewrite Hmem. by apply dict_get_update.
Qed.

Lemma override_lookup_witness :
  exists d,
    Decorator.override Examples.retrying_f [("retries", Py.VInt 0); ("owner", Py.VStr "me")]
    = Ok d
    /\ Py.dict_get "retries" (Decorator.kwargs d) = Some (Py.VInt 0)
    /\ Py.dict_get "task_id" (Decorator.kwargs d) = Some (Py.VStr "f").
Proof.
  eexists. split; [reflexivity|].
  assert (NoDup (Py.dict_keys [("retries", Py.VInt 0); ("owner", Py.VStr "me")])) as Hnd.
  { apply (bool_decide_unpack _). vm_compute. exact I. }
  destruct (override_lookup Examples.retrying_f _
              [("retries", Py.VInt 0); ("owner", Py.VStr "me")] eq_refl Hnd eq_refl)
    as [Hlaw _].
  split; [exact (Hlaw "retries")|exact (Hlaw "task_id")].
Defined.

(** X15.  [expand_kwargs] with an argument that is neither a sequence nor
    a deferred reference (a dictionary, say) raises the [TypeError]
    [expected XComArg or list[dict], not <type>], unless the trigger rule
    of the decorator is [ALWAYS]. *)
Theorem expand_kwargs_not_a_sequence
    (rt : Decorator.Collaborators) (self : Decorator._TaskDecorator) (kwargs' : Py.value)
    (strict : bool) :
  Py.eq_ALWAYS (Py.dict_get "trigger_rule" (Decorator.kwargs self)) = false ->
  Py.is_Sequence kwargs' = false ->
  Py.is_XComArg kwargs' = false ->
  Decorator.expand_kwargs rt self kwargs' strict
  = Raise (TypeError ("expected XComArg or list[dict], not " +:+ Py.type_name kwargs')).
Proof.
  intros Hrule Hseq Hx. unfold Decorator.expand_kwargs. rewrite Hrule, Hseq, Hx. done.
Qed.

Lemma expand_kwargs_not_a_sequence_witness :
  Decorator.expand_kwargs Samples.plain (Samples.task Samples.g_a [] false)
    (Py.VDict [("a", Py.VList [Py.VInt 1])]) true
  = Raise (TypeError "expected XComArg or list[dict], not dict").
Proof.
  exact (expand_kwargs_not_a_sequence Samples.plain (Samples.task Samples.g_a [] false)
           (Py.VDict [("a", Py.VList [Py.VInt 1])]) true eq_refl eq_refl eq_refl).
Defined.

(** X16.  A list whose items are deferred references or mappings passes
    the checks of [expand_kwargs] and reaches [_expand] as it is, unless
    the trigger rule of the decorator is [ALWAYS] and a mapping in the list
    has a deferred reference among its values. *)
Theorem expand_kwargs_accepts_list
    (rt : Decorator.Collaborators) (self : Decorator._TaskDecorator)
    (items : list Py.value) (strict : bool) :
  forallb Decorator.is_reference_or_mapping items = true ->
  Py.eq_ALWAYS (Py.dict_get "trigger_rule" (Decorator.kwargs self))
    && existsb Decorator.has_deferred_value items = false ->
  Decorator.expand_kwargs rt self (Py.VList items) strict
  = Decorator._expand rt self (Decorator.ListOfDictsExpandInput (Py.VList items)) strict.
Proof.
  intros Hshape Hok.
  destruct (Py.eq_ALWAYS (Py.dict_get "trigger_rule" (Decorator.kwargs self))) eqn:Hrule.
  - cbn [andb] in Hok. unfold Decorator.expand_kwargs. rewrite Hrule.
    cbn [andb negb Py.is_XComArg Py.py_iter mbind result_bind Py.is_Sequence].
    destruct (xcomarg_flags_shapes items Hshape) as [flags [-> Hflags]].
    cbn [mbind result_bind]. rewrite Hflags, Hok. by rewrite check_items_Ok.
  - by apply expand_kwargs_teardown.
Qed.

Lemma expand_kwargs_accepts_list_witness :
  exists m,
    Decorator.expand_kwargs Samples.plain Samples.always_g
      (Py.VList [Py.VDict [("a", Py.VInt 1)]; Samples.upstream]) true = Ok m
    /\ Decorator.m_op_kwargs_expand_input m
       = Decorator.ListOfDictsExpandInput
           (Py.VList [Py.VDict [("a", Py.VInt 1)]; Samples.upstream]).
Proof.
  eexists. split.
  - refine (eq_trans (expand_kwargs_accepts_list Samples.plain Samples.always_g
                        [Py.VDict [("a", Py.VInt 1)]; Samples.upstream] true eq_refl eq_refl) _).
    vm_compute. reflexivity.
  - reflexivity.
Defined.

(** ** The mapped operator [_expand] builds *)

Section ExpandMore.
Import PyStr TaskId Py Decorator ExpandShape.
Variable rt : Collaborators.

Ltac stage H :=
  match type of H with
  | mbind _ ?x = Ok _ =>
      destruct x eqn:?; cbn [mbind result_bind] in H; [|discriminate H]
  end.

Lemma as_str_Ok v s : as_str v = Ok s -> v = VStr s.
Proof. destruct v; try done. by intros [= ->]. Qed.

(** What a successful [_expand] has gone through. *)
Lemma _expand_Ok self expand_input strict m :
  _expand rt self expand_input strict = Ok m ->
  exists dag task_group default_args task_id uid,
    pop_or as_DAG (dict_get "dag" (kwargs self)) (DagContext_get_current (contexts rt))
    = Ok dag
    /\ pop_or as_TaskGroup (dict_get "task_group" (dict_remove "dag" (kwargs self)))
         (TaskGroupContext_get_current (contexts rt) dag) = Ok task_group
    /\ dict_get "task_id" (initial_partial_kwargs rt self default_args) = Some (VStr task_id)
    /\ get_unique_task_id (contexts rt) task_id dag task_group = Ok uid
    /\ m_task_id m = match task_group with Some tg => child_id tg uid | None => uid end
    /\ m_dag m = dag
    /\ m_task_group m = task_group
    /\ m_expand_input m = EXPAND_INPUT_EMPTY
    /\ m_op_kwargs_expand_input m = expand_input
    /\ m_disallow_kwargs_override m = strict
    /\ m_python_callable m = function self
    /\ m_multiple_outputs m = multiple_outputs self
    /\ (forall k, k ∉ touched ->
          dict_get k (m_partial_kwargs m)
          = dict_get k (initial_partial_kwargs rt self default_args))
    /\ (forall v, dict_get "pool_slots" (initial_partial_kwargs rt self default_args) = Some v ->
          py_lt_int v 1 = Ok false)
    /\ (truthy (default VNone
                  (dict_get "wait_for_downstream" (initial_partial_kwargs rt self default_args)))
        = true ->
        dict_get "depends_on_past" (m_partial_kwargs m) = Some (VBool true))
    /\ dict_get "op_kwargs" (m_partial_kwargs m)
       = Some (default (VDict [])
                 (dict_get "op_kwargs" (initial_partial_kwargs rt self default_args)))
    /\ dict_get "op_args" (m_partial_kwargs m)
       = Some (default (VList [])
                 (dict_get "op_args" (initial_partial_kwargs rt self default_args)))
    /\ dict_get "executor_config" (m_partial_kwargs m)
       = Some (default (VDict [])
                 (dict_get "executor_config" (initial_partial_kwargs rt self default_args))).
Proof.
  intros H. unfold _expand, dict_pop in H.
  do 4 stage H.
  match type of H with
  | context [let (_, _) := ?merged in _] => destruct merged as [default_args partial_params]
  end.
  fold (initial_partial_kwargs rt self default_args) in H.
  set (base := initial_partial_kwargs rt self default_args) in *.
  destruct (dict_get "task_id" base) as [task_id_v|] eqn:Hid; [|discriminate H].
  stage H.
  match goal with Hs : as_str task_id_v = Ok _ |- _ => apply as_str_Ok in Hs as -> end.
  do 3 stage H.
  match type of H with
  | context [mbind _ ?x] =>
      destruct x as [[]|] eqn:Hpool; cbn [mbind result_bind] in H; [|discriminate H]
  end.
  do 5 stage H. injection H as <-.
  cbn [m_task_id m_dag m_task_group m_expand_input m_op_kwargs_expand_input
       m_disallow_kwargs_override m_python_callable m_multiple_outputs m_partial_kwargs].
  subst base. do 5 eexists.
  repeat match goal with |- _ /\ _ => split end; try done; try eassumption.
  - intros k Hk. unfold touched in Hk.
    assert (k ≠ "task_id" /\ k ≠ "depends_on_past" /\ k ≠ "start_date" /\ k ≠ "end_date"
            /\ k ≠ "retries" /\ k ≠ "retry_delay" /\ k ≠ "max_retry_delay" /\ k ≠ "resources"
            /\ k ≠ "executor_config" /\ k ≠ "op_args" /\ k ≠ "op_kwargs")
      as (? & ? & ? & ? & ? & ? & ? & ? & ? & ? & ?).
    { repeat split; intros ->; apply Hk; set_solver. }
    rewrite !dict_get_setdefault_ne by done.
    repeat match goal with
    | Hc : convert_field ?fld _ _ = Ok ?d' |- context [dict_get k ?d'] =>
        rewrite (convert_field_get fld _ _ d' k ltac:(done) Hc); clear Hc
    end.
    rewrite !dict_get_remove_ne by done.
    match goal with
    | |- context [if ?b then _ else _] => destruct b
    end; [rewrite dict_get_set_ne by done|]; by rewrite dict_get_remove_ne.
  - intros v Hv. revert Hpool.
    rewrite !dict_get_remove_ne by done.
    match goal with
    | |- context [if ?b then _ else _] => destruct b
    end; [rewrite dict_get_set_ne by done|]; rewrite dict_get_remove_ne by done;
      rewrite Hv; destruct (py_lt_int v 1) as [[]|]; by cbn [mbind result_bind].
  - intros Hw.
    rewrite !dict_get_setdefault_ne by done.
    repeat match goal with
    | Hc : convert_field ?fld _ _ = Ok ?d' |- context [dict_get "depends_on_past" ?d'] =>
        rewrite (convert_field_get fld _ _ d' "depends_on_past" ltac:(done) Hc); clear Hc
    end.
    rewrite !dict_get_remove_ne by done.
    rewrite Hw. apply dict_get_set_eq.
  - rewrite dict_get_setdefault_eq. f_equal. f_equal.
    repeat match goal with
    | Hc : convert_field ?fld _ _ = Ok ?d' |- context [dict_get "op_kwargs" ?d'] =>
        rewrite (convert_field_get fld _ _ d' "op_kwargs" ltac:(done) Hc); clear Hc
    end.
    rewrite !dict_get_setdefault_ne by done.
    repeat match goal with
    | Hc : convert_field ?fld _ _ = Ok ?d' |- context [dict_get "op_kwargs" ?d'] =>
        rewrite (convert_field_get fld _ _ d' "op_kwargs" ltac:(done) Hc); clear Hc
    end.
    rewrite !dict_get_remove_ne by done.
    match goal with
    | |- context [if ?b then _ else _] => destruct b
    end; [rewrite dict_get_set_ne by done|]; by rewrite dict_get_remove_ne.
  - rewrite dict_get_setdefault_ne by done. rewrite dict_get_setdefault_eq. f_equal. f_equal.
    rewrite !dict_get_setdefault_ne by done.
    repeat match goal with
    | Hc : convert_field ?fld _ _ = Ok ?d' |- context [dict_get "op_args" ?d'] =>
        rewrite (convert_field_get fld _ _ d' "op_args" ltac:(done) Hc); clear Hc
    end.
    rewrite !dict_get_remove_ne by done.
    match goal with
    | |- context [if ?b then _ else _] => destruct b
    end; [rewrite dict_get_set_ne by done|]; by rewrite dict_get_remove_ne.
  - rewrite !dict_get_setdefault_ne by done. rewrite dict_get_setdefault_eq. f_equal. f_equal.
    repeat match goal with
    | Hc : convert_field ?fld _ _ = Ok ?d' |- context [dict_get "executor_config" ?d'] =>
        rewrite (convert_field_get fld _ _ d' "executor_config" ltac:(done) Hc); clear Hc
    end.
    rewrite !dict_get_remove_ne by done.
    match goal with
    | |- context [if ?b then _ else _] => destruct b
    end; [rewrite dict_get_set_ne by done|]; by rewrite dict_get_remove_ne.
Qed.

Lemma pop_or_None_fallback {A} (proj : value -> option A) popped fallback :
  pop_or proj popped fallback = Ok None -> fallback = None.
Proof.
  unfold pop_or. destruct popped as [v|]; [|by intros [= ->]].
  destruct (truthy v); [|by intros [= ->]]. by destruct (proj v).
Qed.

Lemma initial_partial_kwargs_get self default_args k v :
  NoDup (dict_keys (kwargs self)) ->
  k ≠ "dag" -> k ≠ "task_group" -> k ≠ "params" -> k ≠ "default_args" ->
  dict_get k (kwargs self) = Some v ->
  dict_get k (initial_partial_kwargs rt self default_args) = Some v.
Proof.
  intros Hnd ? ? ? ? Hv. unfold initial_partial_kwargs. apply dict_get_update_r.
  - by rewrite !dict_get_remove_ne.
  - by do 4 apply NoDup_keys_remove.
Qed.

(** A keyword argument of the decorator that [_expand] neither consumes
    nor reworks is a partial keyword argument of the mapped operator. *)
Lemma _expand_keeps self expand_input strict m k v :
  NoDup (dict_keys (kwargs self)) ->
  k ∉ reworked ->
  dict_get k (kwargs self) = Some v ->
  _expand rt self expand_input strict = Ok m ->
  dict_get k (m_partial_kwargs m) = Some v.
Proof.
  intros Hnd Hk Hv H.
  assert (k ≠ "dag" /\ k ≠ "task_group" /\ k ≠ "params" /\ k ≠ "default_args"
          /\ k ≠ "task_id" /\ k ≠ "depends_on_past" /\ k ≠ "start_date" /\ k ≠ "end_date"
          /\ k ≠ "retries" /\ k ≠ "retry_delay" /\ k ≠ "max_retry_delay" /\ k ≠ "resources")
    as (? & ? & ? & ? & ? & ? & ? & ? & ? & ? & ? & ?).
  { unfold reworked in Hk. repeat split; intros ->; apply Hk; set_solver. }
  apply _expand_Ok in H
    as (dag & tg & default_args & task_id & uid & _ & _ & _ & _ & _ & _ & _ & _ & _ & _ & _ & _
        & Hkeep & _ & _ & Hkw & Hargs & Hcfg).
  pose proof (initial_partial_kwargs_get self default_args k v Hnd
                ltac:(done) ltac:(done) ltac:(done) ltac:(done) Hv) as Hbase.
  destruct (decide (k = "op_kwargs")) as [->|?]; [by rewrite Hkw, Hbase|].
  destruct (decide (k = "op_args")) as [->|?]; [by rewrite Hargs, Hbase|].
  destruct (decide (k = "executor_config")) as [->|?]; [by rewrite Hcfg, Hbase|].
  rewrite Hkeep; [done|]. unfold touched.
  rewrite !not_elem_of_cons. repeat split; try done. apply not_elem_of_nil.
Qed.

(** The task id of the mapped operator is none of the task ids of its
    DAG. *)
Lemma _expand_fresh self expand_input strict m d :
  _expand rt self expand_input strict = Ok m ->
  m_dag m = Some d ->
  prefixes_children (m_task_group m) ->
  m_task_id m ∉ task_ids d.
Proof.
  intros H Hd Hg.
  apply _expand_Ok in H
    as (dag & tg & default_args & task_id & uid & _ & Htg & _ & Huid & -> & Hdag & Hgroup & _).
  subst dag. rewrite Hd in Huid, Htg. rewrite Hgroup in Hg.
  destruct tg as [tg|].
  - destruct Hg as [group_id Hchild].
    exact (get_unique_task_id_unused_child_id (contexts rt) task_id (Some d) (Some tg) d tg
             group_id uid eq_refl eq_refl Hchild Huid).
  - apply pop_or_None_fallback in Htg.
    exact (get_unique_task_id_unused_id (contexts rt) task_id (Some d) None d uid
             eq_refl Htg Huid).
Qed.

End ExpandMore.

(** X17.  [_expand] builds no mapped operator with an integer [pool_slots]
    below 1 among its partial keyword arguments. *)
Theorem mapped_operator_pool_slots
    (rt : Decorator.Collaborators) (self : Decorator._TaskDecorator)
    (expand_input : Decorator.ExpandInput) (strict : bool)
    (m : Decorator.DecoratedMappedOperator) (n : Z) :
  Decorator._expand rt self expand_input strict = Ok m ->
  Py.dict_get "pool_slots" (Decorator.m_partial_kwargs m) = Some (Py.VInt n) ->
  (1 <= n)%Z.
Proof.
  intros H Hn.
  apply _expand_Ok in H
    as (dag & tg & default_args & task_id & uid & _ & _ & _ & _ & _ & _ & _ & _ & _ & _ & _ & _
        & Hkeep & Hpool & _).
  rewrite Hkeep in Hn by (apply (bool_decide_unpack _); vm_compute; exact I).
  apply Hpool in Hn. cbn [Py.py_lt_int] in Hn. injection Hn as Hn. lia.
Qed.

Lemma mapped_operator_pool_slots_witness :
  exists m,
    Decorator._expand Samples.plain Examples.load_in_etl Examples.over_a false = Ok m
    /\ Py.dict_get "pool_slots" (Decorator.m_partial_kwargs m) = Some (Py.VInt 2)
    /\ (1 <= 2)%Z.
Proof.
  eexists. split; [reflexivity|]. split; [reflexivity|].
  exact (mapped_operator_pool_slots Samples.plain Examples.load_in_etl Examples.over_a false
           _ 2%Z eq_refl eq_refl).
Defined.

(** X18.  A mapped operator [_expand] builds with a true
    [wait_for_downstream] has [depends_on_past] set to [True]. *)
Theorem wait_for_downstream_sets_depends_on_past
    (rt : Decorator.Collaborators) (self : Decorator._TaskDecorator)
    (expand_input : Decorator.ExpandInput) (strict : bool)
    (m : Decorator.DecoratedMappedOperator) :
  Decorator._expand rt self expand_input strict = Ok m ->
  Py.truthy (default Py.VNone
               (Py.dict_get "wait_for_downstream" (Decorator.m_partial_kwargs m))) = true ->
  Py.dict_get "depends_on_past" (Decorator.m_partial_kwargs m) = Some (Py.VBool true).
Proof.
  intros H Hw.
  apply _expand_Ok in H
    as (dag & tg & default_args & task_id & uid & _ & _ & _ & _ & _ & _ & _ & _ & _ & _ & _ & _
        & Hkeep & _ & Hdep & _).
  rewrite Hkeep in Hw by (apply (bool_decide_unpack _); vm_compute; exact I).
  by apply Hdep.
Qed.

Lemma wait_for_downstream_sets_depends_on_past_witness :
  exists m,
    Decorator._expand Samples.plain Examples.load_in_etl Examples.over_a false = Ok m
    /\ Py.dict_get "depends_on_past" (Decorator.m_partial_kwargs m) = Some (Py.VBool true).
Proof.
  eexists. split; [reflexivity|].
  exact (wait_for_downstream_sets_depends_on_past Samples.plain Examples.load_in_etl
           Examples.over_a false _ eq_refl eq_refl).
Defined.

(** X19.  A keyword argument of the decorator that [_expand] neither
    consumes ([dag], [task_group], [params], [default_args], [task_id],
    [start_date], [end_date]) nor reworks ([depends_on_past], [retries],
    [retry_delay], [max_retry_delay], [resources]) is a partial keyword
    argument of the mapped operator, with the value the decorator has:
    the merged defaults do not replace it. *)
Theorem expand_keeps_decorator_keywords
    (rt : Decorator.Collaborators) (self : Decorator._TaskDecorator)
    (expand_input : Decorator.ExpandInput) (strict : bool)
    (m : Decorator.DecoratedMappedOperator) (k : string) (v : Py.value) :
  NoDup (Py.dict_keys (Decorator.kwargs self)) ->
  k ∉ ExpandShape.reworked ->
  Py.dict_get k (Decorator.kwargs self) = Some v ->
  Decorator._expand rt self expand_input strict = Ok m ->
  Py.dict_get k (Decorator.m_partial_kwargs m) = Some v.
Proof. apply _expand_keeps. Qed.

Lemma expand_keeps_decorator_keywords_witness :
  exists m,
    Decorator._expand Samples.plain Samples.partial_g Examples.over_a false = Ok m
    /\ Py.dict_get "op_kwargs" (Decorator.m_partial_kwargs m)
       = Some (Py.VDict [("a", Py.VInt 1)]).
Proof.
  eexists. split; [reflexivity|].
  refine (expand_keeps_decorator_keywords Samples.plain Samples.partial_g Examples.over_a
            false _ "op_kwargs" (Py.VDict [("a", Py.VInt 1)]) _ _ eq_refl eq_refl).
  - apply (bool_decide_unpack _). vm_compute. exact I.
  - apply (bool_decide_unpack _). vm_compute. exact I.
Defined.

(** X20.  The task id of a mapped operator [_expand] builds for a DAG is
    none of the task ids the DAG has, when no task group is in effect or
    the task group names its children [<group_id>.<label>]. *)
Theorem mapped_operator_task_id_fresh
    (rt : Decorator.Collaborators) (self : Decorator._TaskDecorator)
    (expand_input : Decorator.ExpandInput) (strict : bool)
    (m : Decorator.DecoratedMappedOperator) (d : TaskId.DAG) :
  Decorator._expand rt self expand_input strict = Ok m ->
  Decorator.m_dag m = Some d ->
  ExpandShape.prefixes_children (Decorator.m_task_group m) ->
  Decorator.m_task_id m ∉ TaskId.task_ids d.
Proof. apply _expand_fresh. Qed.

Lemma mapped_operator_task_id_fresh_witness :
  exists m,
    Decorator._expand Samples.plain Examples.load_in_etl Examples.over_a false = Ok m
    /\ Decorator.m_task_id m = "load__8"
    /\ Decorator.m_task_id m ∉ TaskId.task_ids Examples.etl.
Proof.
  eexists. split; [reflexivity|]. split; [reflexivity|].
  exact (mapped_operator_task_id_fresh Samples.plain Examples.load_in_etl Examples.over_a
           false _ Examples.etl eq_refl eq_refl I).
Defined.

(** X21.  On a mapped operator built by [_expand], the assertion of
    [_expand_mapped_kwargs] holds: the method returns what the method of
    the superclass resolves, wrapped under [op_kwargs], and raises only
    what that method raises. *)
Theorem expand_mapped_kwargs_after_expand
    (rt : Decorator.Collaborators) (rs : MappedOp.Resolution)
    (self : Decorator._TaskDecorator) (expand_input : Decorator.ExpandInput)
    (strict : bool) (m : Decorator.DecoratedMappedOperator) :
  Decorator._expand rt self expand_input strict = Ok m ->
  MappedOp._expand_mapped_kwargs rs m
  = match MappedOp.super_expand_mapped_kwargs rs m with
    | Ok (op_kwargs, resolved_oids) => Ok ([("op_kwargs", Py.VDict op_kwargs)], resolved_oids)
    | Raise e => Raise e
    end.
Proof.
  intros H.
  apply _expand_Ok in H
    as (dag & tg & default_args & task_id & uid & _ & _ & _ & _ & _ & _ & _ & Hempty & _).
  unfold MappedOp._expand_mapped_kwargs. rewrite Hempty. cbn [MappedOp.is_EXPAND_INPUT_EMPTY negb].
  by destruct (MappedOp.super_expand_mapped_kwargs rs m) as [[]|].
Qed.

Lemma expand_mapped_kwargs_after_expand_witness :
  exists m,
    Decorator._expand Samples.plain Samples.partial_g Examples.over_a false = Ok m
    /\ MappedOp._expand_mapped_kwargs Examples.resolution m
       = Ok ([("op_kwargs", Py.VDict [("a", Py.VInt 2)])], [0%Z]).
Proof.
  eexists. split; [reflexivity|].
  exact (expand_mapped_kwargs_after_expand Samples.plain Examples.resolution Samples.partial_g
           Examples.over_a false _ eq_refl).
Defined.

(** X22.  [_get_unmap_kwargs] hands the function the partial arguments of
    the mapped operator with the mapped arguments on top: a mapped argument
    replaces a partial argument of the same name, every other partial
    argument is kept.  Without [strict] it raises nothing when both
    [op_kwargs] entries are dictionaries. *)
Theorem unmap_kwargs_lookup
    (m : Decorator.DecoratedMappedOperator) (mapped_kwargs : Py.dict) (strict : bool)
    (p q : Py.dict) :
  Py.dict_get "op_kwargs" (Decorator.m_partial_kwargs m) = Some (Py.VDict p) ->
  Py.dict_get "op_kwargs" mapped_kwargs = Some (Py.VDict q) ->
  NoDup (Py.dict_keys q) ->
  (strict = false -> exists u, Decorator._get_unmap_kwargs m mapped_kwargs strict = Ok u)
  /\ (forall u,
        Decorator._get_unmap_kwargs m mapped_kwargs strict = Ok u ->
        (forall k, Py.dict_get k (Decorator.u_op_kwargs u)
                   = match Py.dict_get k q with
                     | Some v => Some v
                     | None => Py.dict_get k p
                     end)
        /\ Decorator.u_python_callable u = Decorator.m_python_callable m
        /\ Decorator.u_multiple_outputs u = Decorator.m_multiple_outputs m).
Proof.
  intros Hp Hq Hnd. unfold Decorator._get_unmap_kwargs, Decorator.getitem_dict.
  rewrite Hp, Hq. cbn [mbind result_bind]. split.
  - intros ->. by eexists.
  - intros u Hu.
    assert (u = {| Decorator.u_multiple_outputs := Decorator.m_multiple_outputs m;
                   Decorator.u_python_callable := Decorator.m_python_callable m;
                   Decorator.u_op_kwargs := Py.dict_update p q |}) as ->.
    { destruct strict; [|by injection Hu].
      destruct (Py.prevent_duplicates _ _ _); [|done]. by injection Hu. }
    cbn [Decorator.u_op_kwargs Decorator.u_python_callable Decorator.u_multiple_outputs].
    split; [|done]. intros k. by apply dict_get_update.
Qed.

Lemma unmap_kwargs_lookup_witness :
  exists m u,
    Decorator._expand Samples.plain Examples.partial_f_x
      (Decorator.DictOfListsExpandInput [("y", Py.VList [Py.VInt 2; Py.VInt 3])]) false = Ok m
    /\ Decorator._get_unmap_kwargs m [("op_kwargs", Py.VDict [("y", Py.VInt 3)])] false = Ok u
    /\ Py.dict_get "x" (Decorator.u_op_kwargs u) = Some (Py.VInt 1)
    /\ Py.dict_get "y" (Decorator.u_op_kwargs u) = Some (Py.VInt 3).
Proof.
  assert (NoDup (Py.dict_keys [("y", Py.VInt 3)])) as Hnd.
  { apply (bool_decide_unpack _). vm_compute. exact I. }
  do 2 eexists. split; [reflexivity|]. split; [reflexivity|].
  match goal with
  | |- Py.dict_get "x" (Decorator.u_op_kwargs ?u) = _ /\ _ =>
      match u with
      | context [Decorator.m_multiple_outputs ?m] =>
          destruct (unmap_kwargs_lookup m [("op_kwargs", Py.VDict [("y", Py.VInt 3)])] false
                      [("x", Py.VInt 1)] [("y", Py.VInt 3)] eq_refl eq_refl Hnd) as [_ Hlaw];
          destruct (Hlaw u eq_refl) as [Hget _]
      end
  end.
  split; [exact (Hget "x")|exact (Hget "y")].
Defined.

(** ** [DecoratedOperator] *)

Section DecoratedOpMore.
Import PyStr TaskId Py Decorator DecoratedOp.

Lemma fill_from_defaults_get (names : list string) (default_args op_kwargs : dict) k :
  dict_get k (fill_from_defaults names default_args op_kwargs)
  = match dict_get k op_kwargs with
    | Some v => Some v
    | None => if bool_decide (k ∈ names) then dict_get k default_args else None
    end.
Proof.
  revert op_kwargs. induction names as [|arg names IH]; intros op_kwargs.
  - cbn [fill_from_defaults]. by destruct (dict_get k op_kwargs).
  - cbn [fill_from_defaults]. rewrite IH. unfold dict_mem.
    destruct (decide (k = arg)) as [->|Hne].
    + rewrite (bool_decide_true (arg ∈ arg :: names)) by apply list_elem_of_here.
      destruct (dict_get arg op_kwargs) as [v|] eqn:Hv; cbn [negb andb].
      * by rewrite Hv.
      * destruct (dict_get arg default_args) as [w|] eqn:Hw; cbn [default].
        -- by rewrite dict_get_set_eq.
        -- rewrite Hv. by destruct (bool_decide _).
    + rewrite (bool_decide_ext (k ∈ arg :: names) (k ∈ names)).
      2:{ rewrite elem_of_cons. tauto. }
      destruct (negb _ && _); [by rewrite dict_get_set_ne|done].
Qed.

Lemma fill_from_defaults_fixed (names : list string) (default_args op_kwargs : dict) :
  (forall arg, arg ∈ names -> dict_mem arg op_kwargs = true \/ dict_mem arg default_args = false) ->
  fill_from_defaults names default_args op_kwargs = op_kwargs.
Proof.
  induction names as [|arg names IH]; intros H; [done|]. cbn [fill_from_defaults].
  destruct (H arg (list_elem_of_here _ _)) as [-> | ->]; cbn [negb andb].
  - apply IH. intros a Ha. apply H. by apply list_elem_of_further.
  - rewrite andb_false_r. apply IH. intros a Ha. apply H. by apply list_elem_of_further.
Qed.

Lemma dict_set_twice k v (d : dict) : dict_set k v (dict_set k v d) = dict_set k v d.
Proof.
  induction d as [|[k' v'] d IH]; cbn [dict_set].
  - by rewrite String.eqb_refl.
  - destruct (String.eqb k k') eqn:Hk; cbn [dict_set]; rewrite Hk; [done|]. by rewrite IH.
Qed.

Lemma or_empty_dict_VDict (d : dict) : or_empty_dict (Some (VDict d)) = Ok d.
Proof. by destruct d. Qed.

Lemma filter_faulty_first (P : ParameterD -> bool) before p after :
  P p = true -> Forall (fun q => P q = false) before ->
  List.filter P (before ++ p :: after) = p :: List.filter P after.
Proof.
  intros Hp Hb. induction Hb as [|q before Hq Hb IH]; cbn [app List.filter].
  - by rewrite Hp.
  - by rewrite Hq.
Qed.

End DecoratedOpMore.

(** X23.  [_hook_apply_defaults] fills the keyword arguments of the
    function from [default_args]: an argument given in [op_kwargs] keeps
    its value, a parameter of the function missing there takes the value
    [default_args] has for it, and nothing else enters [op_kwargs]; the
    other keyword arguments of the operator are left as they are. *)
Theorem hook_apply_defaults_lookup
    (f : Decorator.Callable) (kwargs default_args op_kwargs : Py.dict) :
  DecoratedOp.or_empty_dict (Py.dict_get "default_args" kwargs) = Ok default_args ->
  DecoratedOp.or_empty_dict (Py.dict_get "op_kwargs" kwargs) = Ok op_kwargs ->
  exists kwargs' filled,
    DecoratedOp._hook_apply_defaults (Some f) kwargs = Ok kwargs'
    /\ Py.dict_get "op_kwargs" kwargs' = Some (Py.VDict filled)
    /\ (forall k, Py.dict_get k filled
                  = match Py.dict_get k op_kwargs with
                    | Some v => Some v
                    | None =>
                        if bool_decide (k ∈ map Decorator.name (Decorator.parameters f))
                        then Py.dict_get k default_args
                        else None
                    end)
    /\ (forall k, k ≠ "op_kwargs" -> Py.dict_get k kwargs' = Py.dict_get k kwargs).
Proof.
  intros Hd Ho. unfold DecoratedOp._hook_apply_defaults. rewrite Hd, Ho.
  cbn [mbind result_bind]. do 2 eexists. split; [done|]. split; [apply dict_get_set_eq|].
  split.
  - intros k. apply fill_from_defaults_get.
  - intros k Hk. by apply dict_get_set_ne.
Qed.

Lemma hook_apply_defaults_lookup_witness :
  exists kwargs' filled,
    DecoratedOp._hook_apply_defaults (Some Samples.f_xy) Examples.hook_kwargs = Ok kwargs'
    /\ Py.dict_get "op_kwargs" kwargs' = Some (Py.VDict filled)
    /\ Py.dict_get "x" filled = Some (Py.VInt 1)
    /\ Py.dict_get "y" filled = Some (Py.VInt 5)
    /\ Py.dict_get "owner" filled = None.
Proof.
  destruct (hook_apply_defaults_lookup Samples.f_xy Examples.hook_kwargs
              [("x", Py.VInt 0); ("y", Py.VInt 5); ("owner", Py.VStr "me")]
              [("x", Py.VInt 1)] eq_refl eq_refl)
    as (kwargs' & filled & Hrun & Hget & Hlaw & _).
  exists kwargs', filled. split; [exact Hrun|]. split; [exact Hget|].
  split; [exact (Hlaw "x")|]. split; [exact (Hlaw "y")|exact (Hlaw "owner")].
Defined.

(** X24.  Applying [_hook_apply_defaults] to its own result changes
    nothing. *)
Theorem hook_apply_defaults_twice
    (python_callable : option Decorator.Callable) (kwargs kwargs' : Py.dict) :
  DecoratedOp._hook_apply_defaults python_callable kwargs = Ok kwargs' ->
  DecoratedOp._hook_apply_defaults python_callable kwargs' = Ok kwargs'.
Proof.
  destruct python_callable as [f|]; [|by intros [= <-]].
  unfold DecoratedOp._hook_apply_defaults.
  destruct (DecoratedOp.or_empty_dict (Py.dict_get "default_args" kwargs))
    as [default_args|] eqn:Hd; [|done]. cbn [mbind result_bind].
  destruct (DecoratedOp.or_empty_dict (Py.dict_get "op_kwargs" kwargs))
    as [op_kwargs|] eqn:Ho; [|done].
  cbn [mbind result_bind]. intros [= <-].
  rewrite (dict_get_set_ne "default_args") by done. rewrite Hd. cbn [mbind result_bind].
  rewrite dict_get_set_eq, or_empty_dict_VDict. cbn [mbind result_bind].
  rewrite fill_from_defaults_fixed; [by rewrite dict_set_twice|].
  intros arg Harg. unfold Py.dict_mem. rewrite fill_from_defaults_get.
  rewrite (bool_decide_true _ Harg).
  destruct (Py.dict_get arg op_kwargs); [by left|].
  destruct (Py.dict_get arg default_args); [by left|by right].
Qed.

Lemma hook_apply_defaults_twice_witness :
  exists kwargs',
    DecoratedOp._hook_apply_defaults (Some Samples.f_xy) Examples.hook_kwargs = Ok kwargs'
    /\ DecoratedOp._hook_apply_defaults (Some Samples.f_xy) kwargs' = Ok kwargs'.
Proof.
  eexists. split; [reflexivity|].
  exact (hook_apply_defaults_twice (Some Samples.f_xy) Examples.hook_kwargs _ eq_refl).
Defined.

(** X25.  The constructor of [DecoratedOperator] refuses a function that
    gives a context key parameter a default other than [None]: once the
    task id is settled, it raises the [ValueError] that names the first
    such parameter in the order of the signature, before the signature is
    bound to any argument. *)
Theorem context_key_default_is_refused
    (cn : DecoratedOp.Construction) (from_mapped : bool) (callable_name : string)
    (parameters before after : list DecoratedOp.ParameterD) (p : DecoratedOp.ParameterD)
    (task_id id : string) (op_args : list Py.value)
    (op_kwargs kwargs_to_upstream kwargs : Py.dict) :
  DecoratedOp.unique_task_id cn from_mapped task_id kwargs = Ok id ->
  parameters = (before ++ p :: after)%list ->
  DecoratedOp.p_name p ∈ DecoratedOp.c_KNOWN_CONTEXT_KEYS cn ->
  DecoratedOp.has_other_default p = true ->
  Forall (fun q => DecoratedOp.p_name q ∉ DecoratedOp.c_KNOWN_CONTEXT_KEYS cn
                   \/ DecoratedOp.has_other_default q = false) before ->
  DecoratedOp.__init__ cn from_mapped callable_name parameters task_id op_args op_kwargs
    kwargs_to_upstream kwargs
  = Raise (ValueError ("Context key parameter " +:+ DecoratedOp.p_name p
                       +:+ " can't have a default other than None")).
Proof.
  intros Hid -> Hknown Hdefault Hbefore. unfold DecoratedOp.__init__. rewrite Hid.
  cbn [mbind result_bind]. rewrite filter_faulty_first; [done| |].
  - by rewrite (bool_decide_true _ Hknown), Hdefault.
  - eapply Forall_impl; [exact Hbefore|]. intros q [Hq|Hq]; cbv beta.
    + by rewrite (bool_decide_false _ Hq).
    + by rewrite Hq, andb_false_r.
Qed.

Lemma context_key_default_is_refused_witness :
  DecoratedOp.__init__ Examples.construction false "report" Examples.report_parameters
    "report" [Py.VInt 1] [] [] []
  = Raise (ValueError "Context key parameter ds can't have a default other than None").
Proof.
  refine (context_key_default_is_refused Examples.construction false "report"
            Examples.report_parameters
            [ {| DecoratedOp.p_name := "x"; DecoratedOp.p_kind := Decorator.POSITIONAL_OR_KEYWORD;
                 DecoratedOp.p_default := None |};
              {| DecoratedOp.p_name := "ti"; DecoratedOp.p_kind := Decorator.POSITIONAL_OR_KEYWORD;
                 DecoratedOp.p_default := Some Py.VNone |} ]
            []
            {| DecoratedOp.p_name := "ds"; DecoratedOp.p_kind := Decorator.POSITIONAL_OR_KEYWORD;
               DecoratedOp.p_default := Some (Py.VStr "today") |}
            "report" "report" [Py.VInt 1] [] [] [] eq_refl eq_refl _ eq_refl _).
  - apply (bool_decide_unpack _). vm_compute. exact I.
  - apply Forall_cons_2.
    { left. apply (bool_decide_unpack _). vm_compute. exact I. }
    apply Forall_cons_2; [right; reflexivity|apply Forall_nil_2].
Defined.

(** X26.  The task id the constructor of [DecoratedOperator] gives to the
    constructor of its superclass: the given one when the operator is
    created from a mapped operator; otherwise, for a DAG given as keyword
    with no task group in effect, an identifier that is none of the task
    ids of the DAG. *)
Theorem decorated_operator_task_id
    (cn : DecoratedOp.Construction) (from_mapped : bool) (callable_name : string)
    (parameters : list DecoratedOp.ParameterD) (task_id : string) (op_args : list Py.value)
    (op_kwargs kwargs_to_upstream kwargs : Py.dict) (st : DecoratedOp.DecoratedOperatorState) :
  DecoratedOp.__init__ cn from_mapped callable_name parameters task_id op_args op_kwargs
    kwargs_to_upstream kwargs = Ok st ->
  (from_mapped = true -> DecoratedOp.s_task_id st = task_id)
  /\ (from_mapped = false ->
      forall d,
        Py.dict_get "dag" kwargs = Some (Py.VDag d) ->
        Py.dict_get "task_group" kwargs = None ->
        TaskId.TaskGroupContext_get_current (DecoratedOp.c_contexts cn) (Some d) = None ->
        DecoratedOp.s_task_id st ∉ TaskId.task_ids d).
Proof.
  unfold DecoratedOp.__init__.
  destruct (DecoratedOp.unique_task_id cn from_mapped task_id kwargs) as [id|] eqn:Hid; [|done].
  cbn [mbind result_bind].
  destruct (map DecoratedOp.p_name _); [|done].
  destruct (DecoratedOp.signature_replace _ _) as [|[]]; try done.
  match goal with
  | |- context [mbind _ ?x] => destruct x; cbn [mbind result_bind]; [|done]
  end.
  destruct (DecoratedOp.merge_keywords _ _ _); cbn [mbind result_bind]; [|done].
  destruct (DecoratedOp.super_init _ _ _); cbn [mbind result_bind]; [|done].
  intros [= <-]. cbn [DecoratedOp.s_task_id]. unfold DecoratedOp.unique_task_id in Hid.
  split.
  - intros ->. cbn [negb] in Hid. by injection Hid.
  - intros -> d Hdag Hgroup Hctx. cbn [negb] in Hid. rewrite Hdag, Hgroup in Hid.
    cbn [Decorator.pop_or Py.truthy Decorator.as_DAG mbind result_bind] in Hid.
    exact (get_unique_task_id_unused_id (DecoratedOp.c_contexts cn) task_id (Some d) None d id
             eq_refl Hctx Hid).
Qed.

Lemma decorated_operator_task_id_witness :
  exists st,
    DecoratedOp.__init__ Examples.construction false "load" [] "load" [] [] []
      [("dag", Py.VDag Examples.etl)] = Ok st
    /\ DecoratedOp.s_task_id st = "load__8"
    /\ DecoratedOp.s_task_id st ∉ TaskId.task_ids Examples.etl.
Proof.
  eexists. split; [reflexivity|]. split; [reflexivity|].
  destruct (decorated_operator_task_id Examples.construction false "load" [] "load" [] [] []
              [("dag", Py.VDag Examples.etl)] _ eq_refl) as [_ Hfresh].
  exact (Hfresh eq_refl Examples.etl eq_refl eq_refl eq_refl).
Defined.

(** ** The XCom client *)

Lemma list_comprehension_failure {A B} (f : A -> result B) (before after : list A) (x : A)
    (ys : list B) (e : exn) :
  Forall2 (fun a y => f a = Ok y) before ys -> f x = Raise e ->
  XCom.list_comprehension f (before ++ x :: after)%list = Raise e.
Proof.
  intros Hbefore Hx.
  induction Hbefore as [|a y before ys Ha Hbefore IH]; cbn [app XCom.list_comprehension].
  - by rewrite Hx.
  - rewrite Ha. cbn [mbind result_bind]. by rewrite IH.
Qed.

(** X27.  When the supervisor answers [get_one] with a result whose value
    is not [None], the outcome is whatever deserializing that value gives,
    an error included, and nothing is logged. *)
Theorem get_one_value (ch : XCom.Channel) (key dag_id task_id run_id : string)
    (map_index : option Z) (include_prior_dates : bool) (msg : XCom.XComResult) :
  XCom.send ch
    (XCom.SendGetXCom
       {| XCom.gx_key := key; XCom.gx_dag_id := dag_id; XCom.gx_task_id := task_id;
          XCom.gx_run_id := run_id; XCom.gx_map_index := map_index;
          XCom.gx_include_prior_dates := include_prior_dates |})
  = Ok (XCom.IsXComResult msg) ->
  XCom.xr_value msg ≠ XCom.JNull ->
  XCom.get_one ch key dag_id task_id run_id map_index include_prior_dates
  = (XCom.deserialize ch (XCom.xr_value msg), []).
Proof. apply get_one_present. Qed.

Lemma get_one_value_witness :
  XCom.get_one Examples.seven_supervisor "return_value" "dag" "up" "run" None false
  = (Ok (Py.VInt 7), []).
Proof.
  refine (get_one_value Examples.seven_supervisor "return_value" "dag" "up" "run" None false
            {| XCom.xr_key := "return_value"; XCom.xr_value := XCom.JNum 7 |} eq_refl _).
  discriminate.
Defined.

(** X28.  An answer of another class than the one expected makes
    [get_one] and [get_all] raise a [TypeError] that names the expected
    class and shows the class and the text of the answer; [get_one] logs
    nothing then. *)
Theorem unexpected_answer_is_a_type_error (ch : XCom.Channel)
    (key dag_id task_id run_id : string) (map_index : option Z)
    (include_prior_dates : bool) (msg : XCom.FromSupervisor) :
  (XCom.send ch
     (XCom.SendGetXCom
        {| XCom.gx_key := key; XCom.gx_dag_id := dag_id; XCom.gx_task_id := task_id;
           XCom.gx_run_id := run_id; XCom.gx_map_index := map_index;
           XCom.gx_include_prior_dates := include_prior_dates |}) = Ok msg ->
   (forall r, msg ≠ XCom.IsXComResult r) ->
   XCom.get_one ch key dag_id task_id run_id map_index include_prior_dates
   = (Raise (TypeError ("Expected XComResult, received: " +:+ XCom.type_str ch msg
                        +:+ " " +:+ XCom.msg_str ch msg)), []))
  /\
  (XCom.send ch
     (XCom.SendGetXComSequenceSlice
        {| XCom.gs_key := key; XCom.gs_dag_id := dag_id; XCom.gs_task_id := task_id;
           XCom.gs_run_id := run_id; XCom.gs_start := None; XCom.gs_stop := None;
           XCom.gs_step := None; XCom.gs_include_prior_dates := include_prior_dates |})
   = Ok msg ->
   (forall root, msg ≠ XCom.IsXComSequenceSliceResult root) ->
   XCom.get_all ch key dag_id task_id run_id include_prior_dates
   = Raise (TypeError ("Expected XComSequenceSliceResult, received: " +:+ XCom.type_str ch msg
                       +:+ " " +:+ XCom.msg_str ch msg))).
Proof.
  split.
  - intros Hsend Hother. unfold XCom.get_one. rewrite Hsend.
    destruct msg as [r| |]; [by destruct (Hother r)|done..].
  - intros Hsend Hother. unfold XCom.get_all. rewrite Hsend. cbn [mbind result_bind].
    destruct msg as [|root|]; [done|by destruct (Hother root)|done].
Qed.

Lemma unexpected_answer_is_a_type_error_witness :
  XCom.get_one Examples.failing_supervisor "return_value" "dag" "up" "run" None false
  = (Raise (TypeError
              "Expected XComResult, received: <class 'ErrorResponse'> error='generic_error'"),
     [])
  /\ XCom.get_all Examples.failing_supervisor "return_value" "dag" "up" "run" false
     = Raise (TypeError
                "Expected XComSequenceSliceResult, received: <class 'ErrorResponse'> error='generic_error'").
Proof.
  destruct (unexpected_answer_is_a_type_error Examples.failing_supervisor
              "return_value" "dag" "up" "run" None false (XCom.OtherMessage "ErrorResponse"))
    as [Hone Hall].
  split.
  - apply Hone; [reflexivity|discriminate].
  - apply Hall; [reflexivity|discriminate].
Defined.

(** X29.  [get_all] deserializes the values in order and stops at the
    first that fails: the error of that value is the error of [get_all],
    whatever comes after it. *)
Theorem get_all_first_failure (ch : XCom.Channel) (key dag_id task_id run_id : string)
    (include_prior_dates : bool) (before after : list XCom.JsonValue)
    (json : XCom.JsonValue) (values : list Py.value) (e : exn) :
  XCom.send ch
    (XCom.SendGetXComSequenceSlice
       {| XCom.gs_key := key; XCom.gs_dag_id := dag_id; XCom.gs_task_id := task_id;
          XCom.gs_run_id := run_id; XCom.gs_start := None; XCom.gs_stop := None;
          XCom.gs_step := None; XCom.gs_include_prior_dates := include_prior_dates |})
  = Ok (XCom.IsXComSequenceSliceResult (before ++ json :: after)%list) ->
  Forall2 (fun j v => XCom.deserialize ch j = Ok v) before values ->
  XCom.deserialize ch json = Raise e ->
  XCom.get_all ch key dag_id task_id run_id include_prior_dates = Raise e.
Proof.
  intros Hsend Hbefore Hjson. unfold XCom.get_all. rewrite Hsend. cbn [mbind result_bind].
  match goal with
  | |- match ?l with [] => _ | _ :: _ => ?lc ≫= _ end = _ =>
      assert (lc = Raise e) as Hlc
        by exact (list_comprehension_failure _ before after json values e Hbefore Hjson)
  end.
  destruct (before ++ json :: after)%list as [|x l] eqn:Hl.
  - by destruct before.
  - by rewrite Hlc.
Qed.

Lemma get_all_first_failure_witness :
  XCom.get_all Examples.nested_supervisor "return_value" "dag" "up" "run" false
  = Raise (OtherError "DeserializationError" "not a scalar").
Proof.
  refine (get_all_first_failure Examples.nested_supervisor "return_value" "dag" "up" "run"
            false [XCom.JNum 1] [XCom.JNum 3] (XCom.JArr []) [Py.VInt 1] _ eq_refl _ eq_refl).
  apply Forall2_cons_2; [reflexivity|apply Forall2_nil_2].
Defined.

(** X30.  [delete] looks the entry up first, with the map index; it
    purges only an entry the supervisor returned, and sends the delete
    message, which names the key, the DAG, the task and the run, only after
    the purge has returned.  When the lookup or the purge raises, no delete
    message is sent. *)
Theorem delete_protocol (be : XComDelete.Backend) (key task_id dag_id run_id : string)
    (map_index : option Z) (res : result unit) (effects : list XComDelete.Effect) :
  XComDelete.delete be key task_id dag_id run_id map_index = (res, effects) ->
  (exists rest,
     effects = XComDelete.SendsGetXCom key dag_id task_id run_id map_index :: rest)
  /\ (forall x,
        XComDelete.Purges x ∈ effects ->
        XComDelete.answer_get be key dag_id task_id run_id map_index
        = Ok (XCom.IsXComResult x))
  /\ (forall k d t r,
        XComDelete.SendsDeleteXCom k d t r ∈ effects ->
        exists x,
          XComDelete.answer_get be key dag_id task_id run_id map_index
          = Ok (XCom.IsXComResult x)
          /\ XComDelete.purge be x = Ok tt
          /\ effects = [XComDelete.SendsGetXCom key dag_id task_id run_id map_index;
                        XComDelete.Purges x;
                        XComDelete.SendsDeleteXCom key dag_id task_id run_id])
  /\ (res = Ok tt -> exists k d t r, XComDelete.SendsDeleteXCom k d t r ∈ effects).
Proof.
  unfold XComDelete.delete, XComDelete._get_xcom_db_ref.
  destruct (XComDelete.answer_get be key dag_id task_id run_id map_index)
    as [[x|root|cls]|e] eqn:Hget.
  2-4: intros [= <- <-]; (split; [by eexists|]); (split; [|split]);
       [intros ? Hin|intros ? ? ? ? Hin|done];
       apply list_elem_of_singleton in Hin; discriminate Hin.
  cbn [app].
  destruct (XComDelete.purge be x) as [[]|e] eqn:Hpurge.
  - destruct (XComDelete.answer_delete be key dag_id task_id run_id) as [answer|e];
      intros [= <- <-]; (split; [by eexists|]); (split; [|split]);
      [ intros y Hin | intros k d t r' Hin; by exists x | intros _
      | intros y Hin | intros k d t r' Hin; by exists x | intros _ ].
    + apply elem_of_cons in Hin as [Hin|Hin]; [discriminate Hin|].
      apply elem_of_cons in Hin as [[= ->]|Hin]; [done|].
      apply list_elem_of_singleton in Hin. discriminate Hin.
    + do 4 eexists. do 2 apply list_elem_of_further. apply list_elem_of_here.
    + apply elem_of_cons in Hin as [Hin|Hin]; [discriminate Hin|].
      apply elem_of_cons in Hin as [[= ->]|Hin]; [done|].
      apply list_elem_of_singleton in Hin. discriminate Hin.
    + do 4 eexists. do 2 apply list_elem_of_further. apply list_elem_of_here.
  - intros [= <- <-]. split; [by eexists|]. split; [|split].
    + intros y Hin. apply elem_of_cons in Hin as [Hin|Hin]; [discriminate Hin|].
      apply list_elem_of_singleton in Hin. by injection Hin as ->.
    + intros k d t r Hin. apply elem_of_cons in Hin as [Hin|Hin]; [discriminate Hin|].
      apply list_elem_of_singleton in Hin. discriminate Hin.
    + done.
Qed.

Lemma delete_protocol_witness :
  XComDelete.delete Examples.backend "return_value" "up" "dag" "run" (Some 3%Z)
  = (Ok tt,
     [XComDelete.SendsGetXCom "return_value" "dag" "up" "run" (Some 3%Z);
      XComDelete.Purges {| XCom.xr_key := "return_value"; XCom.xr_value := XCom.JNum 1 |};
      XComDelete.SendsDeleteXCom "return_value" "dag" "up" "run"])
  /\ exists k d t r,
       XComDelete.SendsDeleteXCom k d t r
       ∈ (XComDelete.delete Examples.backend "return_value" "up" "dag" "run" (Some 3%Z)).2.
Proof.
  split; [reflexivity|].
  destruct (delete_protocol Examples.backend "return_value" "up" "dag" "run" (Some 3%Z)
              _ _ eq_refl) as (_ & _ & _ & Hsent).
  exact (Hsent eq_refl).
Defined.
